(** * Calimate: the result table, the CSV importer, the detail pane and the
      instrument discovery scan of [calimate.py], as a shallow embedding.

    The program is a PyQt5 main window.  Its handlers are embedded as
    functions on a record [MainWindow] that holds what the handlers read and
    write: the rows of the [QTableWidget], the text of the detail pane and of
    the status bar, the instrument buttons, the class-level counters, and the
    lines printed on the console.  What the handlers obtain from outside the
    program (the rows the [csv] reader yields, the answers of the VISA
    resources, the configuration files) is an argument of the handler.

    Exceptions are values: a handler body runs in the monad [M], which
    threads the window and stops at the first [Raise]; [try]/[except] is a
    match on the result. *)

From Stdlib Require Import List String Ascii Bool Arith NArith Lia.
From Stdlib Require Import Sorted Permutation DecimalString.
From Stdlib Require OrderedTypeEx.
Import ListNotations.
Local Open Scope list_scope.
Local Open Scope string_scope.

(* ================================================================== *)
(** * Python values and string operations used by the handlers          *)
(* ================================================================== *)

Module Py.

(** The exception classes the handlers distinguish or raise.  Every class
    here derives from [Exception]; [ValueError] stands for the class and
    its subclasses (a decoding error among them), [OtherException] for any
    remaining subclass of [Exception] (an [OSError] other than
    file-not-found, for one).  Signals that derive from [BaseException]
    only are outside the model. *)
Inductive exn_class : Type :=
| CsvError | FileNotFoundError | ValueError
| IndexError | AttributeError | UnboundLocalError | OtherException.

(** An exception: its class and [str(e)]. *)
Record exn : Type := Exn { exn_cls : exn_class; exn_str : string }.

Inductive result (A : Type) : Type :=
| Ok (a : A)
| Raise (e : exn).
Arguments Ok {A} a.
Arguments Raise {A} e.

Definition nl : string := String (ascii_of_nat 10) "".

(** [str(n)] for a non-negative [int]. *)
Definition str_int (n : nat) : string :=
  NilEmpty.string_of_uint (Nat.to_uint n).

(** [c.isspace()] on the code points 0..255. *)
Definition isspace (c : ascii) : bool :=
  let n := nat_of_ascii c in
  ((9 <=? n)%nat && (n <=? 13)%nat) || ((28 <=? n)%nat && (n <=? 32)%nat)
  || (n =? 133)%nat || (n =? 160)%nat.

Fixpoint lstrip (s : string) : string :=
  match s with
  | String c s' => if isspace c then lstrip s' else s
  | EmptyString => EmptyString
  end.

Fixpoint rstrip (s : string) : string :=
  match s with
  | EmptyString => EmptyString
  | String c s' =>
      match rstrip s' with
      | EmptyString => if isspace c then EmptyString else String c EmptyString
      | r => String c r
      end
  end.

(** [s.strip()] *)
Definition strip (s : string) : string := rstrip (lstrip s).

(** [s.replace(old, new)] for a one-character [old]. *)
Fixpoint replace (old : ascii) (new : string) (s : string) : string :=
  match s with
  | EmptyString => EmptyString
  | String c s' =>
      if Ascii.eqb c old then new ++ replace old new s'
      else String c (replace old new s')
  end.

(** [s.split(sep)] for a one-character [sep]: never the empty list. *)
Fixpoint split (sep : ascii) (s : string) : list string :=
  match s with
  | EmptyString => [EmptyString]
  | String c s' =>
      if Ascii.eqb c sep then EmptyString :: split sep s'
      else match split sep s' with
           | [] => [String c EmptyString]
           | f :: fs => String c f :: fs
           end
  end.

(** [sub in s] *)
Fixpoint contains (sub s : string) : bool :=
  prefix sub s ||
  match s with
  | EmptyString => false
  | String _ s' => contains sub s'
  end.

(** [posixpath.basename]: what follows the last slash. *)
Fixpoint basename (p : string) : string :=
  match p with
  | EmptyString => EmptyString
  | String c p' =>
      if contains "/" p then basename p' else p
  end.

(** [s.rjust(width)]: the padding a format width puts before a number. *)
Definition rjust (width : nat) (s : string) : string :=
  string_of_list_ascii (repeat " "%char (width - String.length s)) ++ s.

(** [l[i]] as an expression: [IndexError] out of range. *)
Definition getitem (l : list string) (i : nat) : result string :=
  match nth_error l i with
  | Some x => Ok x
  | None => Raise (Exn IndexError "list index out of range")
  end.

(** What [json.load] can hand to the program, as far as the program looks:
    a value is [None], a string, or something else of which only [str()]
    is used. *)
Inductive value : Type :=
| VNone
| VStr (s : string)
| VOther (str_of : string).

Definition str_value (v : value) : string :=
  match v with
  | VNone => "None"
  | VStr s => s
  | VOther r => r
  end.

(** A decoded JSON document: an object (a [dict], its keys distinct) or
    any other document, which has no [get] method. *)
Inductive document : Type :=
| Dict (items : list (string * value))
| NotDict (type_name : string).

(** [d.get(key)] on a [dict]: the value, or [None]. *)
Fixpoint dict_get (items : list (string * value)) (key : string) : value :=
  match items with
  | [] => VNone
  | (k, v) :: rest => if String.eqb k key then v else dict_get rest key
  end.

(** [data.get(key)] *)
Definition get (data : document) (key : string) : result value :=
  match data with
  | Dict items => Ok (dict_get items key)
  | NotDict ty =>
      Raise (Exn AttributeError
               ("'" ++ ty ++ "' object has no attribute 'get'"))
  end.

End Py.

(* ================================================================== *)
(** * The Qt widgets the handlers drive                                  *)
(* ================================================================== *)

Module Qt.

Record QColor : Type := RGBA { red : nat; green : nat; blue : nat; alpha : nat }.

Inductive SortOrder : Type := AscendingOrder | DescendingOrder.

Inductive AlignmentFlag : Type := AlignLeft | AlignRight | AlignHCenter.

(** A table item: its text, its text alignment and its background brush
    when they were set, and the [ItemIsEditable] flag. *)
Record QTableWidgetItem : Type := Item {
  text : string;
  textAlignment : option AlignmentFlag;
  background : option QColor;
  editable : bool
}.

(** [QTableWidgetItem(s)] *)
Definition new_item (s : string) : QTableWidgetItem :=
  {| text := s; textAlignment := None; background := None; editable := true |}.

Definition setTextAlignment (a : AlignmentFlag) (it : QTableWidgetItem)
  : QTableWidgetItem :=
  {| text := text it; textAlignment := Some a;
     background := background it; editable := editable it |}.

(** A row of the model: one slot per column, empty until [setItem] fills
    it, and whether the selection model holds the row.  The selection is
    kept with the row because it follows the row when the table is
    sorted. *)
Record Row : Type := MkRow {
  cells : list (option QTableWidgetItem);
  selected : bool
}.

(** The table widget: the rows in view order, the heights the vertical
    header holds for them, by position, the sorting flag, the sort
    indicator of the horizontal header, and the least height the vertical
    header gives a section.  A sort moves a height with its row. *)
Record QTableWidget : Type := Table {
  rows : list Row;
  rowHeights : list nat;
  sortingEnabled : bool;
  sortIndicatorSection : nat;
  sortIndicatorOrder : SortOrder;
  minimumSectionSize : nat
}.

(** A push button: its caption and the [inst] default argument its
    callback was created with. *)
Record QPushButton : Type := Button { caption : string; inst : string }.

Fixpoint update_nth {A : Type} (i : nat) (f : A -> A) (l : list A) : list A :=
  match l, i with
  | [], _ => []
  | x :: l', 0 => f x :: l'
  | x :: l', S i' => x :: update_nth i' f l'
  end.

Definition rowCount (t : QTableWidget) : nat := List.length (rows t).

Definition with_rows (t : QTableWidget) (rs : list Row) : QTableWidget :=
  {| rows := rs; rowHeights := rowHeights t;
     sortingEnabled := sortingEnabled t;
     sortIndicatorSection := sortIndicatorSection t;
     sortIndicatorOrder := sortIndicatorOrder t;
     minimumSectionSize := minimumSectionSize t |}.

Definition with_heights (t : QTableWidget) (hs : list nat) : QTableWidget :=
  {| rows := rows t; rowHeights := hs;
     sortingEnabled := sortingEnabled t;
     sortIndicatorSection := sortIndicatorSection t;
     sortIndicatorOrder := sortIndicatorOrder t;
     minimumSectionSize := minimumSectionSize t |}.

(** [item(r, c)]: nothing when the slot is empty or outside the table. *)
Definition item (t : QTableWidget) (r c : nat) : option QTableWidgetItem :=
  match nth_error (rows t) r with
  | Some row => nth c (cells row) None
  | None => None
  end.

Definition update_cell (r c : nat)
    (f : option QTableWidgetItem -> option QTableWidgetItem)
    (t : QTableWidget) : QTableWidget :=
  with_rows t
    (update_nth r
       (fun row => {| cells := update_nth c f (cells row);
                      selected := selected row |})
       (rows t)).

(** [setItem(r, c, it)]: an index outside the table is ignored. *)
Definition setItem (r c : nat) (it : QTableWidgetItem)
    (t : QTableWidget) : QTableWidget :=
  update_cell r c (fun _ => Some it) t.

(** A change made through a reference to an item after [setItem] stored
    it: it reaches the slot that holds the item, and nothing when the
    table did not take the item. *)
Definition modify_item (r c : nat)
    (f : QTableWidgetItem -> QTableWidgetItem)
    (t : QTableWidget) : QTableWidget :=
  update_cell r c (option_map f) t.

Definition setBackground (color : QColor) (it : QTableWidgetItem)
  : QTableWidgetItem :=
  {| text := text it; textAlignment := textAlignment it;
     background := Some color; editable := editable it |}.

(** [setFlags(flags() & ~ItemIsEditable)] *)
Definition clear_editable (it : QTableWidgetItem) : QTableWidgetItem :=
  {| text := text it; textAlignment := textAlignment it;
     background := background it; editable := false |}.

(** [selectionModel().selectedRows()]: the positions of the selected rows. *)
Fixpoint selectedRows_from (i : nat) (rs : list Row) : list nat :=
  match rs with
  | [] => []
  | r :: rs' =>
      if selected r then i :: selectedRows_from (S i) rs'
      else selectedRows_from (S i) rs'
  end.

Definition selectedRows (t : QTableWidget) : list nat :=
  selectedRows_from 0 (rows t).

Section Sorting.

(** [QTableWidgetItem.__lt__] on the texts of two items.  Qt compares
    them with the collation of the locale. *)
Variable item_lt : string -> string -> bool.

Definition cell_text (c : nat) (r : Row) : option string :=
  option_map text (nth c (cells r) None).

Definition less_than (order : SortOrder) (a b : string) : bool :=
  match order with
  | AscendingOrder => item_lt a b
  | DescendingOrder => item_lt b a
  end.

(** Stable insertion: [x] stood before every element of [l], so it goes
    before the first element that is not smaller than it. *)
Fixpoint insert {A : Type} (order : SortOrder) (x : string * A)
    (l : list (string * A)) : list (string * A) :=
  match l with
  | [] => [x]
  | y :: l' =>
      if less_than order (fst y) (fst x) then y :: insert order x l'
      else x :: y :: l'
  end.

Definition stable_sort {A : Type} (order : SortOrder)
    (l : list (string * A)) : list (string * A) :=
  fold_right (insert order) [] l.

Definition sortable (c : nat) (rs : list Row) : list (string * Row) :=
  flat_map (fun r => match cell_text c r with
                     | Some t => [(t, r)]
                     | None => []
                     end) rs.

Definition unsortable (c : nat) (rs : list Row) : list Row :=
  filter (fun r => match cell_text c r with
                   | Some _ => false
                   | None => true
                   end) rs.

(** The model's [sort(column, order)]: the rows that have an item in the
    column, stably sorted by it, then the rows that have none. *)
Definition sort_rows (c : nat) (order : SortOrder) (rs : list Row)
  : list Row :=
  map snd (stable_sort order (sortable c rs)) ++ unsortable c rs.

(** The same sort on the positions of the rows, as [QTableModel::sort]
    runs it: the position each row comes from, in the order after the
    sort. *)
Fixpoint sortable_from (c i : nat) (rs : list Row) : list (string * nat) :=
  match rs with
  | [] => []
  | r :: rs' =>
      match cell_text c r with
      | Some t => (t, i) :: sortable_from c (S i) rs'
      | None => sortable_from c (S i) rs'
      end
  end.

Fixpoint unsortable_from (c i : nat) (rs : list Row) : list nat :=
  match rs with
  | [] => []
  | r :: rs' =>
      match cell_text c r with
      | Some _ => unsortable_from c (S i) rs'
      | None => i :: unsortable_from c (S i) rs'
      end
  end.

Definition sort_order (c : nat) (order : SortOrder) (rs : list Row)
  : list nat :=
  map snd (stable_sort order (sortable_from c 0 rs)) ++ unsortable_from c 0 rs.

(** The vertical header after the sort: the section of a row goes where
    the row goes, so each position takes the height its row had.
    [sectionSize] of a position the header does not have is 0. *)
Definition sort_heights (c : nat) (order : SortOrder) (rs : list Row)
    (hs : list nat) : list nat :=
  map (fun row => nth row hs 0) (sort_order c order rs).

(** [setSortingEnabled(enable)]: enabling sorts at once by the header's
    sort indicator. *)
Definition setSortingEnabled (enable : bool) (t : QTableWidget)
  : QTableWidget :=
  {| rows := if enable
             then sort_rows (sortIndicatorSection t) (sortIndicatorOrder t)
                            (rows t)
             else rows t;
     rowHeights := if enable
                   then sort_heights (sortIndicatorSection t)
                                     (sortIndicatorOrder t)
                                     (rows t) (rowHeights t)
                   else rowHeights t;
     sortingEnabled := enable;
     sortIndicatorSection := sortIndicatorSection t;
     sortIndicatorOrder := sortIndicatorOrder t;
     minimumSectionSize := minimumSectionSize t |}.

(** [sortItems(column, order)]: sorts and moves the sort indicator. *)
Definition sortItems (c : nat) (order : SortOrder) (t : QTableWidget)
  : QTableWidget :=
  {| rows := sort_rows c order (rows t);
     rowHeights := sort_heights c order (rows t) (rowHeights t);
     sortingEnabled := sortingEnabled t;
     sortIndicatorSection := c;
     sortIndicatorOrder := order;
     minimumSectionSize := minimumSectionSize t |}.

End Sorting.

End Qt.

(* ================================================================== *)
(** * The main window and its handlers                                   *)
(* ================================================================== *)

Module Calimate.
Import Py Qt.

Definition app_ver : string := "0.1".

(** [self.columns] *)
Definition columns : list string := ["Test"; "Result"; "Notes"].

(** [self.columns.index(name)], for a name that is in [columns]. *)
Fixpoint index (l : list string) (name : string) : nat :=
  match l with
  | [] => 0
  | x :: l' => if String.eqb x name then 0 else S (index l' name)
  end.

(** What the handlers do to the outside, in the order they do it: lines
    printed on the console, calls on the VISA resources and on the file
    system, and widgets added to the instrument panel. *)
Inductive event : Type :=
| Print (line : string)
| OpenResource (address : string)
| Query (address command : string)
| Write (address command : string)
| Close (address : string)
| PathExists (path : string)
| JsonLoad (path : string)
| AddWidget (caption : string).

(** The window: its widgets, the class attributes [invalid_packet_count],
    [messages_count] and [csv_file_name], and the trace of events. *)
Record MainWindow : Type := Window {
  data_table : QTableWidget;
  inst_textbox : string;
  status_bar : string;
  inst_button_container : list QPushButton;
  invalid_packet_count : nat;
  messages_count : nat;
  csv_file_name : option string;
  trace : list event
}.

Definition with_data_table (w : MainWindow) (t : QTableWidget) : MainWindow :=
  {| data_table := t; inst_textbox := inst_textbox w;
     status_bar := status_bar w;
     inst_button_container := inst_button_container w;
     invalid_packet_count := invalid_packet_count w;
     messages_count := messages_count w;
     csv_file_name := csv_file_name w; trace := trace w |}.

(** [self.inst_textbox.setPlainText(s)] *)
Definition setPlainText (s : string) (w : MainWindow) : MainWindow :=
  {| data_table := data_table w; inst_textbox := s;
     status_bar := status_bar w;
     inst_button_container := inst_button_container w;
     invalid_packet_count := invalid_packet_count w;
     messages_count := messages_count w;
     csv_file_name := csv_file_name w; trace := trace w |}.

(** [self.status_bar.showMessage(s)] *)
Definition showMessage (s : string) (w : MainWindow) : MainWindow :=
  {| data_table := data_table w; inst_textbox := inst_textbox w;
     status_bar := s;
     inst_button_container := inst_button_container w;
     invalid_packet_count := invalid_packet_count w;
     messages_count := messages_count w;
     csv_file_name := csv_file_name w; trace := trace w |}.

Definition with_buttons (w : MainWindow) (bs : list QPushButton) : MainWindow :=
  {| data_table := data_table w; inst_textbox := inst_textbox w;
     status_bar := status_bar w;
     inst_button_container := bs;
     invalid_packet_count := invalid_packet_count w;
     messages_count := messages_count w;
     csv_file_name := csv_file_name w; trace := trace w |}.

Definition with_counters (w : MainWindow) (invalid messages : nat) : MainWindow :=
  {| data_table := data_table w; inst_textbox := inst_textbox w;
     status_bar := status_bar w;
     inst_button_container := inst_button_container w;
     invalid_packet_count := invalid;
     messages_count := messages;
     csv_file_name := csv_file_name w; trace := trace w |}.

Definition with_csv_file_name (w : MainWindow) (n : option string) : MainWindow :=
  {| data_table := data_table w; inst_textbox := inst_textbox w;
     status_bar := status_bar w;
     inst_button_container := inst_button_container w;
     invalid_packet_count := invalid_packet_count w;
     messages_count := messages_count w;
     csv_file_name := n; trace := trace w |}.

Definition emit (e : event) (w : MainWindow) : MainWindow :=
  {| data_table := data_table w; inst_textbox := inst_textbox w;
     status_bar := status_bar w;
     inst_button_container := inst_button_container w;
     invalid_packet_count := invalid_packet_count w;
     messages_count := messages_count w;
     csv_file_name := csv_file_name w; trace := trace w ++ [e] |}.

(** [print(line)] *)
Definition print (line : string) (w : MainWindow) : MainWindow :=
  emit (Print line) w.

(** [f"{MainWindow.csv_file_name}"] *)
Definition str_csv_file_name (w : MainWindow) : string :=
  match csv_file_name w with
  | Some n => n
  | None => "None"
  end.

(** ** The monad of a handler body *)

Definition M (A : Type) : Type := MainWindow -> MainWindow * result A.

Definition ret {A : Type} (a : A) : M A := fun w => (w, Ok a).

Definition bind {A B : Type} (c : M A) (k : A -> M B) : M B :=
  fun w => match c w with
           | (w', Ok a) => k a w'
           | (w', Raise e) => (w', Raise e)
           end.

(** A statement that cannot raise. *)
Definition run (f : MainWindow -> MainWindow) : M unit :=
  fun w => (f w, Ok tt).

(** The outcome of a call on the outside. *)
Definition outcome {A : Type} (r : result A) : M A := fun w => (w, r).

(** [try: body except Exception as e: handler(e)] *)
Definition try_except {A : Type} (body : M A) (handler : exn -> M A) : M A :=
  fun w => match body w with
           | (w', Ok a) => (w', Ok a)
           | (w', Raise e) => handler e w'
           end.

(** [for x in xs: body(x)] *)
Fixpoint for_each {A : Type} (xs : list A) (body : A -> M unit) : M unit :=
  match xs with
  | [] => ret tt
  | x :: xs' => bind (body x) (fun _ => for_each xs' body)
  end.

Declare Scope handler_scope.
Delimit Scope handler_scope with handler.
Notation "x <- c ;; k" := (bind c (fun x => k))
  (at level 61, c at next level, right associativity) : handler_scope.
Notation "c ;; k" := (bind c (fun _ => k))
  (at level 61, right associativity) : handler_scope.

(** [enumerate(l)] *)
Definition enumerate {A : Type} (l : list A) : list (nat * A) :=
  combine (seq 0 (List.length l)) l.

Definition indigo : QColor := RGBA 33 150 243 64.
Definition pass_green : QColor := RGBA 76 175 80 64.
Definition fail_red : QColor := RGBA 244 67 54 64.

(** What [csv.reader(f)] yields when the import loop iterates it: the
    records, then the end of the file or an exception, and the value of
    [reader.line_num] once the iteration has stopped. *)
Record Reader : Type := MkReader {
  records : list (list string);
  stop : option exn;
  line_num : nat
}.

(** A VISA resource, by what its calls answer. *)
Record Resource : Type := MkResource {
  open_resource : result unit;
  query : string -> result string;
  write : string -> result unit;
  close : result unit
}.

(** What discovery meets outside the program: the resource manager's
    list, the resources by address, which paths exist, and what opening a
    path and [json.load] of the file give. *)
Record World : Type := MkWorld {
  list_resources : result (list string);
  resource : string -> Resource;
  path_exists : string -> bool;
  json_load : string -> result document
}.

Section Handlers.

(** The locale and the geometry of the running program: the order of
    two item texts, [format(n, "n")] for an [int], the height
    [resizeRowToContents] gives a row with the given cells (a height
    within the bounds of the vertical header), and the height of a new
    row.  Fonts, column widths and the window layout are not part of
    the model. *)
Variable item_lt : string -> string -> bool.
Variable format_n : nat -> string.
Variable size_hint : list (option QTableWidgetItem) -> nat.
Variable default_height : nat.

Definition on_table (f : QTableWidget -> QTableWidget) (w : MainWindow)
  : MainWindow :=
  with_data_table w (f (data_table w)).

(** [insertRow(row)] at [row = rowCount()]: a row of empty slots at the end. *)
Definition insertRow (t : QTableWidget) : QTableWidget :=
  with_heights
    (with_rows t (rows t ++ [MkRow (repeat None (List.length columns)) false]))
    (rowHeights t ++ [default_height]).

(** [clearContents()]: every slot emptied, the selection cleared. *)
Definition clearContents (t : QTableWidget) : QTableWidget :=
  with_rows t
    (map (fun r => MkRow (map (fun _ => None) (cells r)) false) (rows t)).

(** [setRowCount(0)] *)
Definition setRowCount0 (t : QTableWidget) : QTableWidget :=
  with_heights (with_rows t []) [].

(** [resizeRowToContents(row)] *)
Definition resizeRowToContents (row : nat) (t : QTableWidget) : QTableWidget :=
  match nth_error (rows t) row with
  | Some r => with_heights t (update_nth row (fun _ => size_hint (cells r)) (rowHeights t))
  | None => t
  end.

Definition rowHeight (row : nat) (t : QTableWidget) : nat :=
  nth row (rowHeights t) 0.

(** The largest size a header section can have. *)
Definition maxSizeSection : N := 1048575.

(** [setRowHeight(row, h)], that is [resizeSection(row, h)] on the
    vertical header: a height above the largest section size is
    ignored, and a positive height is raised to the header's least
    section size.  The program never lowers the header's greatest
    section size, which is the largest size. *)
Definition setRowHeight (row h : nat) (t : QTableWidget) : QTableWidget :=
  if N.ltb maxSizeSection (N.of_nat h) then t
  else
    let size := if Nat.eqb h 0 then 0 else Nat.max (minimumSectionSize t) h in
    with_heights t (update_nth row (fun _ => size) (rowHeights t)).

(** [update_status_bar] *)
Definition update_status_bar (message : option string) (w : MainWindow)
  : MainWindow :=
  match message with
  | Some (String c m) => showMessage (String c m) w
  | _ =>
      let total_packets := rowCount (data_table w) in
      showMessage ("Total packets: " ++ str_int total_packets) w
  end.

(** The first loop of [add_data_to_table]. *)
Definition scan_msg (row_data : list string) (w : MainWindow)
  : bool * MainWindow :=
  fold_left
    (fun (st : bool * MainWindow) data_item =>
       let (is_msg_row, w) := st in
       if String.eqb data_item "Msg"
       then (true, with_counters w (invalid_packet_count w)
                                   (messages_count w + 1))
       else (is_msg_row, w))
    row_data (false, w).

(** One pass of the second loop of [add_data_to_table].  The item is put
    into the table first and coloured afterwards, through the reference
    the loop still holds. *)
Definition fill_cell (row : nat) (is_msg_row adjust_row_height : bool)
    (st : MainWindow * nat) (entry : nat * string) : MainWindow * nat :=
  let (w, max_row_height) := st in
  let (col_index, data_item) := entry in
  let item := setTextAlignment AlignLeft (new_item data_item) in
  let item := clear_editable item in
  let w := on_table (setItem row col_index item) w in
  let w :=
    if Nat.eqb col_index (index columns "Result") then
      if is_msg_row then
        on_table (modify_item row col_index (setBackground indigo)) w
      else if String.eqb data_item "Pass" then
        on_table (modify_item row col_index (setBackground pass_green)) w
      else if String.eqb data_item "Fail" then
        on_table (modify_item row col_index (setBackground fail_red)) w
      else w
    else w in
  let w :=
    if Nat.eqb col_index (index columns "Notes") then
      if is_msg_row then
        on_table (modify_item row col_index (setBackground indigo)) w
      else w
    else w in
  if adjust_row_height then
    let w := on_table (resizeRowToContents row) w in
    let row_height := rowHeight row (data_table w) in
    (w, if Nat.ltb max_row_height row_height then row_height else max_row_height)
  else (w, max_row_height).

(** [add_data_to_table(row_data, adjust_row_height)] *)
Definition add_data_to_table (row_data : list string)
    (adjust_row_height : bool) (w : MainWindow) : MainWindow :=
  let w := on_table (setSortingEnabled item_lt false) w in
  let row := rowCount (data_table w) in
  let w := on_table insertRow w in
  let max_row_height := 5 in
  let (is_msg_row, w) := scan_msg row_data w in
  let (w, max_row_height) :=
    fold_left (fill_cell row is_msg_row adjust_row_height)
              (enumerate row_data) (w, max_row_height) in
  let w := if adjust_row_height
           then on_table (setRowHeight row max_row_height) w
           else w in
  on_table (setSortingEnabled item_lt true) w.

(** [adjust_row_heights] *)
Definition adjust_row_heights (w : MainWindow) : MainWindow :=
  fold_left (fun w row => on_table (resizeRowToContents row) w)
            (seq 0 (rowCount (data_table w))) w.

Local Open Scope handler_scope.

Definition get_window : M MainWindow := fun w => (w, Ok w).

(** [self.data_table.item(r, c).text()] *)
Definition item_text (r c : nat) : M string :=
  fun w =>
    match item (data_table w) r c with
    | Some it => (w, Ok (text it))
    | None =>
        (w, Raise (Exn AttributeError
                     "'NoneType' object has no attribute 'text'"))
    end.

(** [update_inst], the slot of [selectionChanged]. *)
Definition update_inst : M unit :=
  w <- get_window ;;
  match selectedRows (data_table w) with
  | [] => ret tt
  | selected_row :: _ =>
      let packet_column_index := index columns "Notes" in
      packet_cell <- item_text selected_row packet_column_index ;;
      let dir_column_index := index columns "Result" in
      dir_cell <- item_text selected_row dir_column_index ;;
      if contains "Msg" dir_cell then
        run (setPlainText "") ;;
        run (setPlainText ("Message:" ++ nl ++ "- " ++ packet_cell))
      else
        run (setPlainText packet_cell) ;;
        let selected_record_num := selected_row + 1 in
        w <- get_window ;;
        let total_records := rowCount (data_table w) in
        run (update_status_bar
               (Some ("File: '" ++ str_csv_file_name w ++ "', "
                      ++ "Selected record: " ++ format_n selected_record_num
                      ++ " of " ++ format_n total_records ++ ".")))
  end.

(** The three statements every [except] clause of the import ends with. *)
Definition show_error (error_msg : string) : M unit :=
  run (print error_msg) ;;
  w <- get_window ;;
  run (setPlainText ("ERROR! File: '" ++ str_csv_file_name w ++ "'"
                     ++ nl ++ nl ++ "- " ++ error_msg)) ;;
  run (update_status_bar (Some error_msg)).

(** The [except] clauses of [import_table_from_csv], in their order.
    [reader] is the local variable of that name: unbound when [open]
    raised, else the reader's [line_num]. *)
Definition import_except (reader : option nat) (e : exn) : M unit :=
  match exn_cls e with
  | CsvError =>
      match reader with
      | Some reader_line_num =>
          show_error ("Error reading CSV file at line "
                      ++ str_int reader_line_num ++ ": " ++ exn_str e)
      | None =>
          outcome (Raise (Exn UnboundLocalError
            "cannot access local variable 'reader' where it is not associated with a value"))
      end
  | FileNotFoundError =>
      show_error ("File not found: " ++ exn_str e)
  | ValueError =>
      run (print (exn_str e)) ;;
      show_error ("ValueError: " ++ exn_str e)
  | _ =>
      run (print (exn_str e)) ;;
      show_error ("Exception: " ++ exn_str e)
  end.

(** The [try] block of [import_table_from_csv].  Clearing the table
    clears the selection, on which Qt calls [update_inst]; with nothing
    selected that slot changes nothing (see [update_inst_no_selection]),
    so the call is left out here. *)
Definition import_try (file : result Reader) : M unit :=
  reader <- outcome file ;;
  run (on_table clearContents) ;;
  run (on_table setRowCount0) ;;
  run (fun w => with_counters w 0 0) ;;
  run (setPlainText "") ;;
  run (on_table (setSortingEnabled item_lt false)) ;;
  for_each (records reader)
           (fun row => run (add_data_to_table row false)) ;;
  outcome (match stop reader with
           | Some e => Raise e
           | None => Ok tt
           end) ;;
  run adjust_row_heights ;;
  run (on_table (setSortingEnabled item_lt true)) ;;
  run (on_table (sortItems item_lt 0 AscendingOrder)) ;;
  w <- get_window ;;
  let total_records := rowCount (data_table w) in
  run (setPlainText
         ("File: '" ++ str_csv_file_name w ++ "' successfully imported"
          ++ nl ++ nl
          ++ "- Total records:   " ++ rjust 8 (format_n total_records)
          ++ nl)) ;;
  run (update_status_bar
         (Some ("File: '" ++ str_csv_file_name w ++ "'. "
                ++ "Total records: " ++ format_n total_records ++ "."))).

(** [import_table_from_csv], with the file name the dialog returned
    (empty when the user cancelled) and what [open(fileName)] gives.
    [processEvents] repaints the window; events of the user that are
    pending at that moment are not part of the model. *)
Definition import_table_from_csv (fileName : string)
    (file : result Reader) : M unit :=
  match fileName with
  | EmptyString => ret tt
  | _ =>
      run (fun w => with_csv_file_name w (Some (basename fileName))) ;;
      w <- get_window ;;
      run (setPlainText ("Loading file '" ++ str_csv_file_name w ++ "'...")) ;;
      run (update_status_bar
             (Some ("Loading file '" ++ str_csv_file_name w ++ "'..."))) ;;
      try_except (import_try file)
        (import_except match file with
                       | Ok reader => Some (line_num reader)
                       | Raise _ => None
                       end)
  end.

(** A call on the outside: recorded, then its outcome. *)
Definition call {A : Type} (e : event) (r : result A) : M A :=
  run (emit e) ;; outcome r.

(** [self.inst_button_container.addWidget(b)] *)
Definition addWidget (b : QPushButton) : M unit :=
  run (emit (AddWidget (caption b))) ;;
  run (fun w => with_buttons w (inst_button_container w ++ [b])).

(** The [try] block of the loop of [find_inst]. *)
Definition probe (W : World) (item : string) : M unit :=
  let inst := resource W item in
  call (OpenResource item) (open_resource inst) ;;
  answer <- call (Query item "*IDN?") (query inst "*IDN?") ;;
  let inst_id := strip answer in
  call (Write item ":KEY:FORCe") (write inst ":KEY:FORCe") ;;
  call (Close item) (close inst) ;;
  let fn_inst := replace ":" "" (replace " " "_" inst_id) in
  let fn_inst_list := split "," fn_inst in
  fn0 <- outcome (getitem fn_inst_list 0) ;;
  fn1 <- outcome (getitem fn_inst_list 1) ;;
  let json_filename := fn0 ++ "_" ++ fn1 ++ ".json" in
  run (print ("JSON filename: " ++ json_filename)) ;;
  found <- call (PathExists json_filename) (Ok (path_exists W json_filename)) ;;
  if (found : bool) then
    data <- call (JsonLoad json_filename) (json_load W json_filename) ;;
    connect_cmd <- outcome (get data "connect") ;;
    id_cmd <- outcome (get data "id") ;;
    close_cmd <- outcome (get data "close") ;;
    run (print ("Connect Command: " ++ str_value connect_cmd)) ;;
    run (print ("ID Command: " ++ str_value id_cmd)) ;;
    run (print ("Close Command: " ++ str_value close_cmd)) ;;
    let inst_list := split "," inst_id in
    i0 <- outcome (getitem inst_list 0) ;;
    i1 <- outcome (getitem inst_list 1) ;;
    i2 <- outcome (getitem inst_list 2) ;;
    i3 <- outcome (getitem inst_list 3) ;;
    addWidget (Button (i0 ++ " " ++ i1 ++ nl ++ "S/N: " ++ i2
                       ++ nl ++ "Ver: " ++ i3) item)
  else
    run (print ("Configuration file " ++ json_filename ++ " not found.")).

(** The body of the loop of [find_inst]: the [try] block and its
    [except Exception]. *)
Definition probe_guarded (W : World) (item : string) : M unit :=
  try_except (probe W item)
    (fun e => let error_msg := "Exception: " ++ exn_str e in
              run (print error_msg)).

(** [find_inst], the slot of the Search button. *)
Definition find_inst (W : World) : M unit :=
  run (fun w => with_buttons w []) ;;
  inst_list <- outcome (list_resources W) ;;
  for_each inst_list (probe_guarded W).

(** [select_inst] *)
Definition select_inst (inst_id : string) (connect_cmd id_cmd close_cmd : value)
  : M unit :=
  run (print ("Selected: " ++ inst_id)) ;;
  run (print ("Connect Command: " ++ str_value connect_cmd)) ;;
  run (print ("ID Command: " ++ str_value id_cmd)) ;;
  run (print ("Close Command: " ++ str_value close_cmd)) ;;
  run (showMessage ("Selected instrument: " ++ inst_id)).

End Handlers.

End Calimate.

(* ================================================================== *)
(** * Notions the statements use                                          *)
(* ================================================================== *)

Module Spec.
Import Py Qt Calimate.

(** Two rows are in order by column [c]: by the item texts when both have
    an item there, and a row without one comes last. *)
Definition row_le (item_lt : string -> string -> bool) (c : nat)
    (order : SortOrder) (r1 r2 : Row) : Prop :=
  match cell_text c r1, cell_text c r2 with
  | Some a, Some b => less_than item_lt order b a = false
  | None, Some _ => False
  | _, None => True
  end.

(** The same on the keyed rows the sort works on. *)
Definition key_le (item_lt : string -> string -> bool) (order : SortOrder)
    (x y : string * Row) : Prop :=
  less_than item_lt order (fst y) (fst x) = false.

(** [is_msg_row] as the first loop of [add_data_to_table] leaves it. *)
Definition is_msg_row (row_data : list string) : bool :=
  existsb (fun data_item => String.eqb data_item "Msg") row_data.

(** How often the first loop increments [messages_count]. *)
Definition msg_fields (row_data : list string) : nat :=
  List.length (filter (fun data_item => String.eqb data_item "Msg") row_data).

(** The item the second loop of [add_data_to_table] leaves in column
    [col] for the field [data_item]. *)
Definition styled (msg : bool) (col : nat) (data_item : string)
  : QTableWidgetItem :=
  let it := clear_editable (setTextAlignment AlignLeft (new_item data_item)) in
  let it :=
    if Nat.eqb col (index columns "Result") then
      if msg then setBackground indigo it
      else if String.eqb data_item "Pass" then setBackground pass_green it
      else if String.eqb data_item "Fail" then setBackground fail_red it
      else it
    else it in
  if Nat.eqb col (index columns "Notes") then
    if msg then setBackground indigo it else it
  else it.

Definition put (msg : bool) (cs : list (option QTableWidgetItem))
    (entry : nat * string) : list (option QTableWidgetItem) :=
  update_nth (fst entry) (fun _ => Some (styled msg (fst entry) (snd entry))) cs.

(** The same store, seen from the rows of the table. *)
Definition put_row (msg : bool) (row : nat) (rs : list Row)
    (entry : nat * string) : list Row :=
  update_nth row (fun r => MkRow (put msg (cells r) entry) (selected r)) rs.

(** The cells of the row [add_data_to_table] builds from a record. *)
Definition row_cells (row_data : list string)
  : list (option QTableWidgetItem) :=
  fold_left (put (is_msg_row row_data)) (enumerate row_data)
            (repeat None (List.length columns)).

Definition new_row (row_data : list string) : Row :=
  MkRow (row_cells row_data) false.

(** The highlight of a cell in the words of the specification: message
    rows carry the message colour on Result and Notes; otherwise Result
    is green for Pass, red for Fail, and nothing else is coloured. *)
Definition spec_highlight (msg : bool) (col : nat) (cell : string)
  : option QColor :=
  if msg then
    if Nat.eqb col 1 || Nat.eqb col 2 then Some indigo else None
  else if Nat.eqb col 1 then
    if String.eqb cell "Pass" then Some pass_green
    else if String.eqb cell "Fail" then Some fail_red
    else None
  else None.

(** A window after some events and some added buttons. *)
Definition extend (evs : list event) (bs : list QPushButton)
    (w : MainWindow) : MainWindow :=
  {| data_table := data_table w; inst_textbox := inst_textbox w;
     status_bar := status_bar w;
     inst_button_container := inst_button_container w ++ bs;
     invalid_packet_count := invalid_packet_count w;
     messages_count := messages_count w;
     csv_file_name := csv_file_name w; trace := trace w ++ evs |}.

(** A computation that, whatever the window, adds the same events and the
    same buttons and ends the same way. *)
Definition framed {A : Type} (c : M A) : Prop :=
  exists evs bs r, forall w, c w = (extend evs bs w, r).

(** A computation that adds no button when it raises. *)
Definition quiet_on_raise {A : Type} (c : M A) : Prop :=
  forall w w' e, c w = (w', Raise e) ->
                 inst_button_container w' = inst_button_container w.

(** A computation that adds no button at all. *)
Definition no_button {A : Type} (c : M A) : Prop :=
  forall w w' r, c w = (w', r) ->
                 inst_button_container w' = inst_button_container w.

(** The window as [__init__] leaves it, for a horizontal header whose sort
    indicator starts on the given section and order and a vertical header
    whose sections are at least [minimum] high. *)
Definition initial (section : nat) (order : SortOrder) (minimum : nat)
  : MainWindow :=
  {| data_table := Table [] [] true section order minimum;
     inst_textbox := "Calimate" ++ nl ++ "Version " ++ app_ver;
     status_bar := "Welcome to Calimate!";
     inst_button_container := [];
     invalid_packet_count := 0; messages_count := 0;
     csv_file_name := None; trace := [] |}.

(** What probing one address adds, read off a run of [probe] on the
    initial window: the buttons, the events, and how the [try] block
    ends. *)
Definition probe_buttons (W : World) (item : string) : list QPushButton :=
  inst_button_container (fst (probe W item (initial 0 DescendingOrder 0))).

Definition probe_events (W : World) (item : string) : list event :=
  trace (fst (probe W item (initial 0 DescendingOrder 0))).

Definition probe_result (W : World) (item : string) : result unit :=
  snd (probe W item (initial 0 DescendingOrder 0)).

(** The user selects row [i] of the table (single selection). *)
Definition selectRow (i : nat) (t : QTableWidget) : QTableWidget :=
  with_rows t
    (map (fun p => MkRow (cells (snd p)) (Nat.eqb (fst p) i))
         (enumerate (rows t))).

(** What the loop body of [find_inst] adds to the trace for one address:
    the events of the [try] block and the line of the [except] clause. *)
Definition guarded_events (W : World) (item : string) : list event :=
  (probe_events W item
   ++ match probe_result W item with
      | Ok _ => []
      | Raise e => [Print ("Exception: " ++ exn_str e)]
      end)%list.

(** The text every [except] clause of the import shows, by the class of
    the exception. *)
Definition error_msg (reader_line_num : nat) (e : exn) : string :=
  match exn_cls e with
  | CsvError => "Error reading CSV file at line "
                ++ str_int reader_line_num ++ ": " ++ exn_str e
  | FileNotFoundError => "File not found: " ++ exn_str e
  | ValueError => "ValueError: " ++ exn_str e
  | _ => "Exception: " ++ exn_str e
  end.

(** The position of the first event of a kind in a trace. *)
Fixpoint position (kind : event -> bool) (l : list event) : option nat :=
  match l with
  | [] => None
  | e :: l' => if kind e then Some 0 else option_map S (position kind l')
  end.

Definition is_write (e : event) : bool :=
  match e with Write _ _ => true | _ => false end.
Definition is_close (e : event) : bool :=
  match e with Close _ => true | _ => false end.
Definition is_path_exists (e : event) : bool :=
  match e with PathExists _ => true | _ => false end.
Definition is_json_load (e : event) : bool :=
  match e with JsonLoad _ => true | _ => false end.
Definition is_add_widget (e : event) : bool :=
  match e with AddWidget _ => true | _ => false end.

(** The "Msg" fields of a whole file. *)
Definition msg_total (recs : list (list string)) : nat :=
  list_sum (map msg_fields recs).

Section ImportStages.

Variable item_lt : string -> string -> bool.
Variable size_hint : list (option QTableWidgetItem) -> nat.
Variable default_height : nat.

(** The window when the import loop starts: table and counters cleared,
    detail pane cleared, sorting off. *)
Definition cleared (w : MainWindow) : MainWindow :=
  on_table (setSortingEnabled item_lt false)
    (setPlainText ""
       (with_counters (on_table setRowCount0 (on_table clearContents w)) 0 0)).

(** The window when the import loop has taken the records [recs]. *)
Definition loaded (recs : list (list string)) (w : MainWindow) : MainWindow :=
  fold_left
    (fun w row => add_data_to_table item_lt size_hint default_height row false w)
    recs (cleared w).

(** The window after the statements between the loop and the messages. *)
Definition sorted (w : MainWindow) : MainWindow :=
  on_table (sortItems item_lt 0 AscendingOrder)
    (on_table (setSortingEnabled item_lt true)
       (adjust_row_heights size_hint w)).

End ImportStages.

End Spec.

(* ================================================================== *)
(** * A session to run the handlers on                                   *)
(* ================================================================== *)

Module Sample.
Import Py Qt Calimate Spec.

(** The "C" locale: texts in code order, numbers without grouping. *)
Definition item_lt : string -> string -> bool := String.ltb.
Definition format_n : nat -> string := str_int.
Definition size_hint (_ : list (option QTableWidgetItem)) : nat := 30.
Definition default_height : nat := 30.

Definition import := import_table_from_csv item_lt format_n size_hint default_height.

Definition w0 : MainWindow := initial 0 DescendingOrder 20.

(** A log of three records, a record that is too short, and a reader that
    fails on its second line. *)
Definition log : list (list string) :=
  [["T2"; "Pass"; "ok"]; ["T1"; "Fail"; "bad"]; ["T3"; "Msg"; "hello"]].

Definition short_log : list (list string) :=
  [["T2"; "Pass"; "ok"]; ["T1"; "Fail"]].

Definition broken : Reader :=
  MkReader [["T9"; "Pass"; "ok"]] (Some (Exn CsvError "line contains NUL")) 2.

Definition missing : exn :=
  Exn FileNotFoundError "[Errno 2] No such file or directory: '/tmp/gone.csv'".

(** The window after importing [log]. *)
Definition w_log : MainWindow :=
  fst (import "/tmp/a.csv" (Ok (MkReader log None 3)) w0).

(** Five addresses: a scope with a configuration file, a resource that
    cannot be opened, a scope without a configuration file, a device whose
    identity has two fields only, and one that answers a single word. *)
Definition answering (idn : string) : Resource :=
  MkResource (Ok tt) (fun _ => Ok idn) (fun _ => Ok tt) (Ok tt).

Definition unreachable : Resource :=
  MkResource (Raise (Exn OtherException "VI_ERROR_RSRC_NFOUND"))
             (fun _ => Ok "") (fun _ => Ok tt) (Ok tt).

Definition tek : string := "USB0::0x0699::INSTR".
Definition dead : string := "GPIB0::7::INSTR".
Definition rigol : string := "TCPIP0::10.0.0.5::INSTR".
Definition bare : string := "ASRL1::INSTR".
Definition mute : string := "ASRL2::INSTR".

Definition lab : World :=
  MkWorld
    (Ok [dead; tek; rigol; bare; mute])
    (fun address =>
       if String.eqb address tek
       then answering ("TEKTRONIX,TDS 210,0,CF:91.1CT FV:v1.16" ++ nl)
       else if String.eqb address rigol
       then answering ("RIGOL TECHNOLOGIES,DS1054Z,DS1ZA1,00.04.04" ++ nl)
       else if String.eqb address bare
       then answering ("ACME,X1" ++ nl)
       else if String.eqb address mute
       then answering ("OK" ++ nl)
       else unreachable)
    (fun path => String.eqb path "TEKTRONIX_TDS_210.json"
                 || String.eqb path "ACME_X1.json")
    (fun _ => Ok (Dict [("connect", VStr ":SYST:REM"); ("id", VStr "*IDN?");
                        ("close", VStr ":KEY:FORCe")])).

End Sample.

(* ================================================================== *)
(** * The callback of an instrument button                                *)
(* ================================================================== *)

Module Callbacks.
Import Py Qt Calimate Spec.

(** The local variables of [find_inst] that the [lambda] of a button
    refers to.  The [lambda] does not copy them: it reads them from the
    frame of the call when the button is clicked, so it sees what the loop
    assigned last.  A variable is unbound until its first assignment. *)
Record Locals : Type := MkLocals {
  inst_id : option string;
  connect_cmd : option value;
  id_cmd : option value;
  close_cmd : option value
}.

(** The frame when [find_inst] is entered. *)
Definition unbound : Locals := MkLocals None None None None.

Definition bind_inst_id (l : Locals) (s : string) : Locals :=
  MkLocals (Some s) (connect_cmd l) (id_cmd l) (close_cmd l).

Definition bind_connect_cmd (l : Locals) (v : value) : Locals :=
  MkLocals (inst_id l) (Some v) (id_cmd l) (close_cmd l).

Definition bind_id_cmd (l : Locals) (v : value) : Locals :=
  MkLocals (inst_id l) (connect_cmd l) (Some v) (close_cmd l).

Definition bind_close_cmd (l : Locals) (v : value) : Locals :=
  MkLocals (inst_id l) (connect_cmd l) (id_cmd l) (Some v).

(** The assignments of one pass of the loop of [find_inst]: [inst_id]
    once the query is answered; the three commands, one after the other,
    once the file is loaded -- before the caption of the button is built.
    An exception ends the pass and keeps what was assigned so far. *)
Definition probe_locals (W : World) (item : string) (l : Locals) : Locals :=
  let inst := resource W item in
  match open_resource inst with
  | Raise _ => l
  | Ok _ =>
  match query inst "*IDN?" with
  | Raise _ => l
  | Ok answer =>
  let l := bind_inst_id l (strip answer) in
  match write inst ":KEY:FORCe" with
  | Raise _ => l
  | Ok _ =>
  match close inst with
  | Raise _ => l
  | Ok _ =>
  let fn_inst := replace ":" "" (replace " " "_" (strip answer)) in
  let fn_inst_list := split "," fn_inst in
  match getitem fn_inst_list 0 with
  | Raise _ => l
  | Ok fn0 =>
  match getitem fn_inst_list 1 with
  | Raise _ => l
  | Ok fn1 =>
  let json_filename := fn0 ++ "_" ++ fn1 ++ ".json" in
  if path_exists W json_filename then
    match json_load W json_filename with
    | Raise _ => l
    | Ok data =>
    match get data "connect" with
    | Raise _ => l
    | Ok c =>
    let l := bind_connect_cmd l c in
    match get data "id" with
    | Raise _ => l
    | Ok i =>
    let l := bind_id_cmd l i in
    match get data "close" with
    | Raise _ => l
    | Ok k => bind_close_cmd l k
    end end end end
  else l
  end end end end end end.

(** The frame when the loop of [find_inst] has run over the addresses. *)
Definition scan_locals (W : World) (items : list string) (l : Locals) : Locals :=
  fold_left (fun l item => probe_locals W item l) items l.

Definition name_error (name : string) : exn :=
  Exn OtherException
    ("cannot access free variable '" ++ name
     ++ "' where it is not associated with a value in enclosing scope").

(** A click on a button: the [lambda] reads the four variables from the
    frame and calls [select_inst]. *)
Definition click (l : Locals) : M unit :=
  match inst_id l with
  | None => outcome (Raise (name_error "inst_id"))
  | Some id =>
  match connect_cmd l with
  | None => outcome (Raise (name_error "connect_cmd"))
  | Some c =>
  match id_cmd l with
  | None => outcome (Raise (name_error "id_cmd"))
  | Some i =>
  match close_cmd l with
  | None => outcome (Raise (name_error "close_cmd"))
  | Some k => select_inst id c i k
  end end end end.

(** The three commands are bound. *)
Definition cmds_bound (l : Locals) : Prop :=
  exists c i k,
    connect_cmd l = Some c /\ id_cmd l = Some i /\ close_cmd l = Some k.

(** The characters of a string. *)
Definition chars (s : string) : list ascii := list_ascii_of_string s.

End Callbacks.

(* ================================================================== *)
(** * More of the sample session                                          *)
(* ================================================================== *)

Module MoreSample.
Import Py Qt Calimate Spec.

(** The log with its first row selected, and the short log with the row
    of its two-field record selected. *)
Definition w_first : MainWindow := on_table (selectRow 0) Sample.w_log.

Definition w_short : MainWindow :=
  on_table (selectRow 0)
    (fst (Sample.import "/tmp/s.csv"
            (Ok (MkReader Sample.short_log None 2)) Sample.w0)).

(** A record that says "Msg" in its Test field only, imported and
    selected. *)
Definition odd : list string := ["Msg"; "Pass"; "all good"].

Definition w_odd : MainWindow :=
  on_table (selectRow 0)
    (fst (Sample.import "/tmp/o.csv" (Ok (MkReader [odd] None 1)) Sample.w0)).

(** A reader that fails on its first line. *)
Definition unreadable : Reader :=
  MkReader [] (Some (Exn ValueError "'utf-8' codec can't decode byte 0xff")) 0.

(** A resource that opens and then does not answer, a lab that holds it
    beside the scope, and a resource manager that cannot enumerate. *)
Definition silent : Resource :=
  MkResource (Ok tt) (fun _ => Raise (Exn OtherException "VI_ERROR_TMO"))
             (fun _ => Ok tt) (Ok tt).

Definition stuck : string := "GPIB0::9::INSTR".

Definition quiet_lab : World :=
  MkWorld (Ok [Sample.tek; stuck])
          (fun address => if String.eqb address stuck then silent
                          else resource Sample.lab address)
          (path_exists Sample.lab) (json_load Sample.lab).

Definition offline : World :=
  MkWorld (Raise (Exn OtherException "Could not locate a VISA implementation."))
          (resource Sample.lab) (path_exists Sample.lab) (json_load Sample.lab).

(** The caption of the scope's button. *)
Definition tek_button : QPushButton :=
  Button ("TEKTRONIX TDS 210" ++ nl ++ "S/N: 0" ++ nl
          ++ "Ver: CF:91.1CT FV:v1.16") Sample.tek.

(** A size hint that tells the rows apart: the least height of the
    sample header, and one more for each character of the Notes cell. *)
Definition notes_height (cs : list (option QTableWidgetItem)) : nat :=
  match nth 2 cs None with
  | Some it => 20 + String.length (text it)
  | None => 20
  end.

End MoreSample.

(* ================================================================== *)
(** * Instruments and files that fail                                     *)
(* ================================================================== *)

Module ProbeSample.
Import Py Qt Calimate Spec.

(** A resource that rejects the unlock command and one that cannot be
    closed. *)
Definition locked : Resource :=
  MkResource (Ok tt) (fun _ => Ok "LOCK,L1,1,2")
             (fun _ => Raise (Exn OtherException "VI_ERROR_IO")) (Ok tt).

Definition sticky : Resource :=
  MkResource (Ok tt) (fun _ => Ok "STICK,S1,1,2") (fun _ => Ok tt)
             (Raise (Exn OtherException "VI_ERROR_CLOSING_FAILED")).

Definition alpha : string := "GPIB0::1::INSTR".
Definition beta : string := "GPIB0::2::INSTR".
Definition gamma : string := "GPIB0::3::INSTR".
Definition delta : string := "GPIB0::4::INSTR".

(** A shelf of four instruments: one whose configuration file is not
    JSON, one whose file holds a list, and the two above. *)
Definition shelf : World :=
  MkWorld
    (Ok [alpha; beta; gamma; delta])
    (fun address =>
       if String.eqb address alpha then Sample.answering "ALPHA,A1,1,2"
       else if String.eqb address beta then Sample.answering "BETA,B1,1,2"
       else if String.eqb address gamma then locked
       else sticky)
    (fun path => String.eqb path "ALPHA_A1.json"
                 || String.eqb path "BETA_B1.json")
    (fun path =>
       if String.eqb path "ALPHA_A1.json"
       then Raise (Exn ValueError "Expecting value: line 1 column 1 (char 0)")
       else Ok (NotDict "list")).

End ProbeSample.

(* ================================================================== *)
(** * Sorting the table                                                   *)
(* ================================================================== *)

Section SortingFacts.
Import Qt Spec.

Variable item_lt : string -> string -> bool.

Lemma insert_perm {A : Type} order (x : string * A) l :
  Permutation (insert item_lt order x l) (x :: l).
Proof.
  induction l as [|y l IH]; simpl.
  - apply Permutation_refl.
  - destruct (less_than item_lt order (fst y) (fst x)).
    + eapply perm_trans; [apply perm_skip, IH | apply perm_swap].
    + apply Permutation_refl.
Qed.

Lemma stable_sort_perm {A : Type} order (l : list (string * A)) :
  Permutation (stable_sort item_lt order l) l.
Proof.
  induction l as [|x l IH]; simpl.
  - constructor.
  - eapply perm_trans; [apply insert_perm | apply perm_skip, IH].
Qed.

Lemma partition_perm c rs :
  Permutation (map snd (sortable c rs) ++ unsortable c rs) rs.
Proof.
  induction rs as [|r rs IH]; simpl.
  - constructor.
  - destruct (cell_text c r); simpl.
    + apply perm_skip, IH.
    + apply Permutation_sym, Permutation_cons_app, Permutation_sym, IH.
Qed.

Lemma sort_rows_perm c order rs :
  Permutation (sort_rows item_lt c order rs) rs.
Proof.
  unfold sort_rows.
  eapply perm_trans; [|apply (partition_perm c rs)].
  apply Permutation_app_tail, Permutation_map, stable_sort_perm.
Qed.

Lemma sort_rows_length c order rs :
  List.length (sort_rows item_lt c order rs) = List.length rs.
Proof. apply Permutation_length, sort_rows_perm. Qed.

(** The sort looks at the keys only: it commutes with a change of what
    the keys carry. *)
Lemma insert_payload {A B : Type} (f : A -> B) order (x : string * A) l :
  insert item_lt order (fst x, f (snd x))
         (map (fun p => (fst p, f (snd p))) l)
  = map (fun p => (fst p, f (snd p))) (insert item_lt order x l).
Proof.
  induction l as [|y l IH]; [reflexivity|].
  cbn [map insert fst snd].
  destruct (less_than item_lt order (fst y) (fst x)); [|reflexivity].
  cbn [map]. now rewrite <- IH.
Qed.

Lemma stable_sort_payload {A B : Type} (f : A -> B) order
    (l : list (string * A)) :
  stable_sort item_lt order (map (fun p => (fst p, f (snd p))) l)
  = map (fun p => (fst p, f (snd p))) (stable_sort item_lt order l).
Proof.
  induction l as [|x l IH]; [reflexivity|].
  unfold stable_sort in *. cbn [map fold_right].
  rewrite IH. apply insert_payload.
Qed.

(** The positions the sort works on stand for the rows. *)
Lemma sortable_from_rows c rs : forall pre,
  map (fun p => (fst p, nth_error (pre ++ rs) (snd p)))
      (sortable_from c (List.length pre) rs)
  = map (fun p => (fst p, Some (snd p))) (sortable c rs).
Proof.
  induction rs as [|r rs IH]; intros pre; [reflexivity|].
  pose proof (IH (pre ++ [r])%list) as IH'.
  rewrite <- app_assoc, length_app, Nat.add_1_r in IH'. cbn [app] in IH'.
  cbn [sortable_from sortable flat_map].
  destruct (cell_text c r); cbn [app map fst snd]; [|exact IH'].
  rewrite IH', nth_error_app2, Nat.sub_diag by lia. reflexivity.
Qed.

Lemma unsortable_from_rows c rs : forall pre,
  map (nth_error (pre ++ rs)) (unsortable_from c (List.length pre) rs)
  = map Some (unsortable c rs).
Proof.
  induction rs as [|r rs IH]; intros pre; [reflexivity|].
  pose proof (IH (pre ++ [r])%list) as IH'.
  rewrite <- app_assoc, length_app, Nat.add_1_r in IH'. cbn [app] in IH'.
  cbn [unsortable_from unsortable filter].
  destruct (cell_text c r); cbn [map]; [exact IH'|].
  rewrite IH', nth_error_app2, Nat.sub_diag by lia. reflexivity.
Qed.

(** [sort_order] is the order [sort_rows] puts the rows in. *)
Lemma sort_order_rows c order rs :
  map (nth_error rs) (sort_order item_lt c order rs)
  = map Some (sort_rows item_lt c order rs).
Proof.
  unfold sort_order, sort_rows. rewrite !map_app. f_equal.
  - pose proof (sortable_from_rows c rs []) as H. cbn [app List.length] in H.
    apply (f_equal (stable_sort item_lt order)) in H.
    rewrite !stable_sort_payload in H.
    apply (f_equal (map snd)) in H. rewrite !map_map in H. cbn [snd] in H.
    rewrite !map_map. exact H.
  - exact (unsortable_from_rows c rs []).
Qed.

Lemma sort_order_length c order rs :
  List.length (sort_order item_lt c order rs) = List.length rs.
Proof.
  rewrite <- (sort_rows_length c order rs).
  rewrite <- (length_map (nth_error rs)), sort_order_rows.
  apply length_map.
Qed.

(** Heights that fit the rows before a sort fit them after it: a height
    goes with its row. *)
Lemma sort_heights_rows c order rs (g : Row -> nat) :
  sort_heights item_lt c order rs (map g rs)
  = map g (sort_rows item_lt c order rs).
Proof.
  unfold sort_heights.
  assert (E : forall row, nth row (map g rs) 0
                          = match nth_error rs row with
                            | Some r => g r
                            | None => 0
                            end).
  { intros row. revert rs. induction row as [|row IH]; intros [|r rs];
      cbn [map nth nth_error]; auto. }
  rewrite (map_ext _ _ E).
  rewrite <- (map_map (nth_error rs)
                      (fun o => match o with Some r => g r | None => 0 end)).
  rewrite sort_order_rows, map_map. reflexivity.
Qed.

(** The comparison is a strict weak order, as a stable sort needs. *)
Hypothesis item_lt_asym :
  forall a b, item_lt a b = true -> item_lt b a = false.
Hypothesis item_lt_negtrans :
  forall a b c, item_lt b a = false -> item_lt c b = false ->
                item_lt c a = false.

Lemma less_than_asym order a b :
  less_than item_lt order a b = true -> less_than item_lt order b a = false.
Proof. destruct order; simpl; apply item_lt_asym. Qed.

Lemma less_than_negtrans order a b c :
  less_than item_lt order b a = false ->
  less_than item_lt order c b = false ->
  less_than item_lt order c a = false.
Proof.
  destruct order; simpl; intros H1 H2.
  - exact (item_lt_negtrans a b c H1 H2).
  - exact (item_lt_negtrans c b a H2 H1).
Qed.

Lemma insert_sorted order x l :
  StronglySorted (key_le item_lt order) l ->
  StronglySorted (key_le item_lt order) (insert item_lt order x l).
Proof.
  induction 1 as [|y l Hs IH Hall]; simpl.
  - repeat constructor.
  - destruct (less_than item_lt order (fst y) (fst x)) eqn:E.
    + constructor; [exact IH|].
      eapply Permutation_Forall; [apply Permutation_sym, insert_perm|].
      constructor; [|exact Hall].
      unfold key_le. apply less_than_asym, E.
    + constructor; [constructor; assumption|].
      constructor; [exact E|].
      eapply Forall_impl; [|exact Hall].
      intros z Hz. unfold key_le in *.
      eapply less_than_negtrans; eassumption.
Qed.

Lemma stable_sort_sorted order l :
  StronglySorted (key_le item_lt order) (stable_sort item_lt order l).
Proof.
  induction l as [|x l IH]; simpl.
  - constructor.
  - apply insert_sorted, IH.
Qed.

Lemma sortable_keys c rs :
  Forall (fun p => cell_text c (snd p) = Some (fst p)) (sortable c rs).
Proof.
  induction rs as [|r rs IH]; simpl.
  - constructor.
  - destruct (cell_text c r) eqn:E; simpl; [constructor|]; assumption.
Qed.

Lemma unsortable_keys c rs :
  Forall (fun r => cell_text c r = None) (unsortable c rs).
Proof.
  induction rs as [|r rs IH]; simpl.
  - constructor.
  - destruct (cell_text c r) eqn:E; simpl; [|constructor]; assumption.
Qed.

Lemma sorted_keys_rows c order l :
  Forall (fun p => cell_text c (snd p) = Some (fst p)) l ->
  StronglySorted (key_le item_lt order) l ->
  StronglySorted (row_le item_lt c order) (map snd l).
Proof.
  intros Hk Hs. induction Hs as [|p l Hs IH Hall]; simpl.
  - constructor.
  - inversion Hk as [|? ? Hp Hl]; subst.
    constructor; [apply IH, Hl|].
    apply Forall_map.
    rewrite Forall_forall in *. intros q Hq.
    unfold row_le. rewrite Hp, (Hl q Hq). apply Hall, Hq.
Qed.

Lemma itemless_rows_sorted c order l :
  Forall (fun r => cell_text c r = None) l ->
  StronglySorted (row_le item_lt c order) l.
Proof.
  induction 1 as [|r l Hr Hl IH]; constructor; [exact IH|].
  eapply Forall_impl; [|exact Hl].
  intros r' Hr'. unfold row_le. rewrite Hr'. destruct (cell_text c r); exact I.
Qed.

Lemma StronglySorted_app {A : Type} (R : A -> A -> Prop) l1 l2 :
  StronglySorted R l1 -> StronglySorted R l2 ->
  (forall x y, In x l1 -> In y l2 -> R x y) ->
  StronglySorted R (l1 ++ l2).
Proof.
  induction 1 as [|x l1 Hs IH Hall]; simpl; intros H2 Hx; [exact H2|].
  constructor.
  - apply IH; [exact H2|]. intros; apply Hx; [right|]; assumption.
  - apply Forall_app; split; [exact Hall|].
    apply Forall_forall. intros y Hy. apply Hx; [left; reflexivity|exact Hy].
Qed.

(** The model's sort leaves the rows in order by the sort column. *)
Lemma sort_rows_sorted c order rs :
  StronglySorted (row_le item_lt c order) (sort_rows item_lt c order rs).
Proof.
  unfold sort_rows. apply StronglySorted_app.
  - apply sorted_keys_rows; [|apply stable_sort_sorted].
    eapply Permutation_Forall;
      [apply Permutation_sym, stable_sort_perm | apply sortable_keys].
  - apply itemless_rows_sorted, unsortable_keys.
  - intros x y _ Hy.
    pose proof (unsortable_keys c rs) as Hu.
    rewrite Forall_forall in Hu. unfold row_le. rewrite (Hu y Hy).
    destruct (cell_text c x); exact I.
Qed.

End SortingFacts.


(* ================================================================== *)
(** * Adding a row                                                        *)
(* ================================================================== *)

Section TableFacts.
Import Py Qt Calimate Spec.

Variable item_lt : string -> string -> bool.
Variable size_hint : list (option QTableWidgetItem) -> nat.
Variable default_height : nat.

Lemma update_nth_compose {A : Type} (f g : A -> A) i l :
  update_nth i f (update_nth i g l) = update_nth i (fun x => f (g x)) l.
Proof.
  revert i; induction l as [|x l IH]; intros [|i]; simpl; try reflexivity.
  now rewrite IH.
Qed.

Lemma update_nth_ext {A : Type} (f g : A -> A) i l :
  (forall x, f x = g x) -> update_nth i f l = update_nth i g l.
Proof.
  intros H; revert i; induction l as [|x l IH]; intros [|i]; simpl;
    try reflexivity; [now rewrite H | now rewrite IH].
Qed.

Lemma update_nth_length {A : Type} (f : A -> A) i l :
  List.length (update_nth i f l) = List.length l.
Proof.
  revert i; induction l as [|x l IH]; intros [|i]; simpl; auto.
Qed.

Lemma update_nth_last {A : Type} (f : A -> A) l x :
  update_nth (List.length l) f (l ++ [x]) = (l ++ [f x])%list.
Proof. induction l as [|y l IH]; simpl; [reflexivity | now rewrite IH]. Qed.

Lemma nth_update_nth {A : Type} (f : A -> A) i j l d :
  nth j (update_nth i f l) d =
  if Nat.eqb i j && Nat.ltb i (List.length l) then f (nth i l d) else nth j l d.
Proof.
  revert i j; induction l as [|x l IH]; intros i j.
  - simpl. rewrite andb_false_r. destruct i, j; reflexivity.
  - destruct i, j; simpl; try reflexivity. rewrite IH. reflexivity.
Qed.

(** Colouring an item through the reference after [setItem] is storing the
    coloured item. *)
Lemma modify_after_set row c it f t :
  modify_item row c f (setItem row c it t) = setItem row c (f it) t.
Proof.
  unfold modify_item, setItem, update_cell, with_rows; simpl. f_equal.
  rewrite update_nth_compose. apply update_nth_ext. intros r; simpl.
  f_equal. rewrite update_nth_compose. apply update_nth_ext. reflexivity.
Qed.

Lemma on_table_modify_after_set row c it f w :
  on_table (modify_item row c f) (on_table (setItem row c it) w)
  = on_table (setItem row c (f it)) w.
Proof.
  unfold on_table, with_data_table; simpl. now rewrite modify_after_set.
Qed.

(** One pass of the second loop stores the styled item; the height pass
    comes after it. *)
Lemma fill_cell_fst row msg adj w h c x :
  fst (fill_cell size_hint row msg adj (w, h) (c, x))
  = (if adj then on_table (resizeRowToContents size_hint row) else (fun w => w))
      (on_table (setItem row c (styled msg c x)) w).
Proof.
  unfold fill_cell, styled.
  destruct (Nat.eqb c (index columns "Result")),
           (Nat.eqb c (index columns "Notes")),
           msg, (String.eqb x "Pass"), (String.eqb x "Fail"), adj;
    rewrite ?on_table_modify_after_set; reflexivity.
Qed.

Lemma resize_rows row t :
  rows (resizeRowToContents size_hint row t) = rows t
  /\ sortIndicatorSection (resizeRowToContents size_hint row t)
     = sortIndicatorSection t
  /\ sortIndicatorOrder (resizeRowToContents size_hint row t)
     = sortIndicatorOrder t.
Proof.
  unfold resizeRowToContents. destruct (nth_error (rows t) row); simpl; auto.
Qed.

(** The second loop touches the table only, and there only the cells of
    row [row]. *)
Lemma fill_cells_fold row msg adj entries : forall w h,
  exists t',
    fst (fold_left (fill_cell size_hint row msg adj) entries (w, h))
    = with_data_table w t'
    /\ rows t' = fold_left (put_row msg row) entries (rows (data_table w))
    /\ sortIndicatorSection t' = sortIndicatorSection (data_table w)
    /\ sortIndicatorOrder t' = sortIndicatorOrder (data_table w).
Proof.
  induction entries as [|[c x] entries IH]; intros w h; cbn [fold_left].
  - exists (data_table w). destruct w; auto.
  - destruct (fill_cell size_hint row msg adj (w, h) (c, x)) as [w1 h1] eqn:E.
    apply (f_equal fst) in E. rewrite fill_cell_fst in E. simpl in E.
    destruct (IH w1 h1) as (t' & Hw & Hr & Hs & Ho).
    exists t'. subst w1.
    destruct (resize_rows row (setItem row c (styled msg c x) (data_table w)))
      as (R1 & R2 & R3).
    destruct adj; (split; [exact Hw|]);
      cbn [on_table with_data_table data_table] in Hr, Hs, Ho.
    + rewrite R1 in Hr. rewrite R2 in Hs. rewrite R3 in Ho.
      split; [exact Hr|]. split; [exact Hs | exact Ho].
    + split; [exact Hr|]. split; [exact Hs | exact Ho].
Qed.

Lemma put_row_last msg entries : forall old cs b,
  fold_left (put_row msg (List.length old)) entries (old ++ [MkRow cs b])%list
  = (old ++ [MkRow (fold_left (put msg) entries cs) b])%list.
Proof.
  induction entries as [|e entries IH]; intros old cs b; simpl.
  - reflexivity.
  - unfold put_row at 2. rewrite update_nth_last. simpl. apply IH.
Qed.

(** The first loop: the flag and the counter. *)
Lemma scan_msg_fold row_data : forall b w,
  fold_left
    (fun (st : bool * MainWindow) data_item =>
       let (is_msg_row, w) := st in
       if String.eqb data_item "Msg"
       then (true, with_counters w (invalid_packet_count w)
                                   (messages_count w + 1))
       else (is_msg_row, w))
    row_data (b, w)
  = (b || is_msg_row row_data,
     with_counters w (invalid_packet_count w)
                   (messages_count w + msg_fields row_data)).
Proof.
  unfold is_msg_row, msg_fields.
  induction row_data as [|x l IH]; intros b w; simpl.
  - rewrite orb_false_r. destruct w; unfold with_counters; simpl.
    now rewrite Nat.add_0_r.
  - destruct (String.eqb x "Msg"); rewrite IH; simpl.
    + rewrite orb_true_r. f_equal. unfold with_counters; simpl.
      f_equal. lia.
    + reflexivity.
Qed.

Lemma scan_msg_spec row_data w :
  scan_msg row_data w
  = (is_msg_row row_data,
     with_counters w (invalid_packet_count w)
                   (messages_count w + msg_fields row_data)).
Proof. unfold scan_msg. now rewrite scan_msg_fold. Qed.

(** [setRowHeight] touches the heights only. *)
Lemma setRowHeight_view row h t :
  rows (setRowHeight row h t) = rows t
  /\ sortIndicatorSection (setRowHeight row h t) = sortIndicatorSection t
  /\ sortIndicatorOrder (setRowHeight row h t) = sortIndicatorOrder t
  /\ sortingEnabled (setRowHeight row h t) = sortingEnabled t.
Proof.
  unfold setRowHeight.
  destruct (N.ltb maxSizeSection (N.of_nat h)); repeat split; reflexivity.
Qed.

(** [add_data_to_table] appends the row built from the record, sorts by
    the header's sort indicator, and counts the "Msg" fields; nothing else
    of the window changes. *)
Lemma add_data_to_table_spec row_data adj w :
  exists t',
    add_data_to_table item_lt size_hint default_height row_data adj w
    = with_counters (with_data_table w t') (invalid_packet_count w)
                    (messages_count w + msg_fields row_data)
    /\ rows t' = sort_rows item_lt (sortIndicatorSection (data_table w))
                           (sortIndicatorOrder (data_table w))
                           (rows (data_table w) ++ [new_row row_data])
    /\ sortIndicatorSection t' = sortIndicatorSection (data_table w)
    /\ sortIndicatorOrder t' = sortIndicatorOrder (data_table w).
Proof.
  unfold add_data_to_table. rewrite scan_msg_spec.
  set (w1 := with_counters _ _ _).
  set (row := rowCount _).
  destruct (fill_cells_fold row (is_msg_row row_data) adj
              (enumerate row_data) w1 5) as (t1 & Hw & Hr & Hs & Ho).
  destruct (fold_left _ (enumerate row_data) (w1, 5)) as [w2 h2].
  simpl in Hw. subst w2.
  assert (Hrows : rows t1 = (rows (data_table w) ++ [new_row row_data])%list).
  { rewrite Hr. subst w1 row. simpl. unfold rowCount. simpl.
    apply (put_row_last (is_msg_row row_data) (enumerate row_data)
             (rows (data_table w))). }
  subst w1. simpl in Hs, Ho.
  destruct adj.
  - exists (setSortingEnabled item_lt true (setRowHeight row h2 t1)).
    destruct (setRowHeight_view row h2 t1) as (E1 & E2 & E3 & _).
    cbn [setSortingEnabled rows sortIndicatorSection sortIndicatorOrder
         on_table with_data_table data_table with_counters].
    rewrite E1, E2, E3, Hs, Ho, Hrows. repeat split; reflexivity.
  - exists (setSortingEnabled item_lt true t1).
    simpl. rewrite Hs, Ho, Hrows. repeat split; reflexivity.
Qed.

Lemma put_fold msg l : forall k cs c,
  nth c (fold_left (put msg) (combine (seq k (List.length l)) l) cs) None
  = match (if Nat.leb k c then nth_error l (c - k) else None) with
    | Some x => if Nat.ltb c (List.length cs)
                then Some (styled msg c x) else None
    | None => nth c cs None
    end.
Proof.
  induction l as [|x l IH]; intros k cs c; cbn [List.length seq combine fold_left].
  - destruct (Nat.leb k c); [destruct (c - k)|]; reflexivity.
  - rewrite IH. unfold put. cbn [fst snd].
    rewrite update_nth_length, nth_update_nth.
    destruct (Nat.leb_spec (S k) c) as [H|H].
    + replace (Nat.leb k c) with true by (symmetry; apply Nat.leb_le; lia).
      replace (c - k) with (S (c - S k)) by lia. cbn [nth_error].
      destruct (nth_error l (c - S k)); [reflexivity|].
      replace (Nat.eqb k c) with false by (symmetry; apply Nat.eqb_neq; lia).
      reflexivity.
    + destruct (Nat.eqb_spec k c) as [->|Hne].
      * rewrite Nat.leb_refl, Nat.sub_diag. cbn [nth_error andb].
        destruct (Nat.ltb c (List.length cs)) eqn:E; [reflexivity|].
        apply nth_overflow. apply Nat.ltb_ge in E. exact E.
      * replace (Nat.leb k c) with false by (symmetry; apply Nat.leb_gt; lia).
        reflexivity.
Qed.

(** The cells of a built row: a field in each of the three columns the
    record reaches, nothing beyond. *)
Lemma row_cells_nth row_data c :
  nth c (row_cells row_data) None
  = if Nat.ltb c 3
    then option_map (styled (is_msg_row row_data) c) (nth_error row_data c)
    else None.
Proof.
  unfold row_cells, enumerate. rewrite put_fold. cbn [Nat.leb].
  rewrite Nat.sub_0_r, repeat_length. change (List.length columns) with 3.
  destruct (nth_error row_data c); cbn [option_map].
  - reflexivity.
  - rewrite nth_repeat. destruct (Nat.ltb c 3); reflexivity.
Qed.

Lemma styled_spec msg c x :
  c < 3 -> styled msg c x = Item x (Some AlignLeft) (spec_highlight msg c x) false.
Proof.
  intros H. destruct c as [|[|[|c]]]; [| | |lia];
    unfold styled, spec_highlight; simpl;
    destruct msg, (String.eqb x "Pass"), (String.eqb x "Fail"); reflexivity.
Qed.

Lemma is_msg_row_In row_data :
  is_msg_row row_data = true <-> In "Msg" row_data.
Proof.
  unfold is_msg_row. rewrite existsb_exists. split.
  - intros (x & Hin & Hx). apply String.eqb_eq in Hx. now subst.
  - intros Hin. exists "Msg". split; [exact Hin | apply String.eqb_refl].
Qed.

(** C5 -- Every row [add_data_to_table] adds: it is a message row exactly
    when some field equals "Msg"; the table gains the one row built from
    the record; each of its cells holds the field of its column with the
    highlight the specification gives (the message colour on Result and
    Notes of a message row whatever Result says; otherwise green on Result
    exactly for "Pass", red exactly for "Fail", and no colour elsewhere). *)
Theorem add_data_to_table_highlight (row_data : list string) (adj : bool)
    (w : MainWindow) :
  let w' := add_data_to_table item_lt size_hint default_height row_data adj w in
  let msg := fst (scan_msg row_data w) in
  (msg = true <-> In "Msg" row_data)
  /\ Permutation (rows (data_table w'))
                 (rows (data_table w) ++ [MkRow (row_cells row_data) false])
  /\ (forall c,
        nth c (row_cells row_data) None
        = if Nat.ltb c 3
          then option_map (fun x => Item x (Some AlignLeft) (spec_highlight msg c x) false)
                          (nth_error row_data c)
          else None)
  /\ (forall it, nth 1 (row_cells row_data) None = Some it ->
        (msg = true -> background it = Some indigo)
        /\ (msg = false ->
              (background it = Some pass_green <-> text it = "Pass")
              /\ (background it = Some fail_red <-> text it = "Fail")
              /\ (background it = None <->
                  text it <> "Pass" /\ text it <> "Fail")))
  /\ (forall it, nth 2 (row_cells row_data) None = Some it ->
        (msg = true -> background it = Some indigo)
        /\ (msg = false -> background it = None)).
Proof.
  intros w' msg.
  assert (Hmsg : msg = is_msg_row row_data).
  { unfold msg. now rewrite scan_msg_spec. }
  clearbody msg.
  assert (Hcells : forall c,
             nth c (row_cells row_data) None
             = if Nat.ltb c 3
               then option_map (fun x => Item x (Some AlignLeft) (spec_highlight msg c x) false)
                               (nth_error row_data c)
               else None).
  { intros c. rewrite row_cells_nth, Hmsg.
    destruct (Nat.ltb c 3) eqn:E; [|reflexivity].
    apply Nat.ltb_lt in E.
    destruct (nth_error row_data c); simpl; [|reflexivity].
    now rewrite styled_spec. }
  split; [rewrite Hmsg; apply is_msg_row_In|].
  split.
  { destruct (add_data_to_table_spec row_data adj w) as (t' & Hw & Hr & _).
    unfold w'. rewrite Hw. simpl. rewrite Hr. apply sort_rows_perm. }
  split; [exact Hcells|].
  split; intros it Hit.
  - rewrite Hcells in Hit. change (Nat.ltb 1 3) with true in Hit.
    destruct (nth_error row_data 1) as [x|]; [|discriminate].
    simpl in Hit. injection Hit as <-. simpl.
    unfold spec_highlight. simpl. clear Hcells Hmsg. split; intros ->.
    + reflexivity.
    + unfold pass_green, fail_red.
      destruct (String.eqb_spec x "Pass") as [->|Hp];
        [|destruct (String.eqb_spec x "Fail") as [->|Hf]];
        intuition congruence.
  - rewrite Hcells in Hit. change (Nat.ltb 2 3) with true in Hit.
    destruct (nth_error row_data 2) as [x|]; [|discriminate].
    simpl in Hit. injection Hit as <-. simpl.
    unfold spec_highlight. clear Hcells Hmsg. split; intros ->; reflexivity.
Qed.

End TableFacts.


(* ================================================================== *)
(** * Importing a CSV file                                                *)
(* ================================================================== *)

Section ImportFacts.
Import Py Qt Calimate Spec.

Variable item_lt : string -> string -> bool.
Variable format_n : nat -> string.
Variable size_hint : list (option QTableWidgetItem) -> nat.
Variable default_height : nat.

Lemma for_each_run {A : Type} (f : A -> MainWindow -> MainWindow) xs :
  forall w,
    for_each xs (fun x w => (f x w, Ok tt)) w
    = (fold_left (fun w x => f x w) xs w, Ok tt).
Proof.
  induction xs as [|x xs IH]; intros w; simpl.
  - reflexivity.
  - unfold bind. apply IH.
Qed.

(** The import loop: the table gains one built row per record, in some
    order; the counter gains the "Msg" fields; the rest is untouched. *)
Lemma load_rows recs : forall w0,
  exists t',
    fold_left
      (fun w row => add_data_to_table item_lt size_hint default_height row false w)
      recs w0
    = with_counters (with_data_table w0 t') (invalid_packet_count w0)
                    (messages_count w0 + msg_total recs)
    /\ Permutation (rows t') (rows (data_table w0) ++ map new_row recs).
Proof.
  induction recs as [|r recs IH]; intros w0; cbn [fold_left].
  - exists (data_table w0). split.
    + destruct w0; unfold with_counters, with_data_table, msg_total; simpl.
      now rewrite Nat.add_0_r.
    + simpl. rewrite app_nil_r. apply Permutation_refl.
  - destruct (add_data_to_table_spec item_lt size_hint default_height r false w0)
      as (t1 & E1 & R1 & _).
    rewrite E1.
    destruct (IH (with_counters (with_data_table w0 t1)
                    (invalid_packet_count w0)
                    (messages_count w0 + msg_fields r)))
      as (t' & E & P).
    exists t'. split.
    + rewrite E. unfold with_counters, with_data_table, msg_total; simpl.
      f_equal. lia.
    + eapply perm_trans; [exact P|]. simpl. rewrite R1.
      change (new_row r :: map new_row recs)
        with ([new_row r] ++ map new_row recs)%list.
      rewrite app_assoc. apply Permutation_app_tail, sort_rows_perm.
Qed.

Lemma adjust_row_heights_rows w :
  exists t',
    adjust_row_heights size_hint w = with_data_table w t'
    /\ rows t' = rows (data_table w).
Proof.
  unfold adjust_row_heights.
  generalize (seq 0 (rowCount (data_table w))). intros l. revert w.
  induction l as [|i l IH]; intros w; cbn [fold_left].
  - exists (data_table w). destruct w; auto.
  - destruct (IH (on_table (resizeRowToContents size_hint i) w))
      as (t' & E & R).
    exists t'. split; [exact E|]. rewrite R. simpl.
    apply (resize_rows size_hint i (data_table w)).
Qed.

(** A successful import, state by state. *)
Lemma import_success fileName recs ln w :
  fileName <> "" ->
  exists t' rs,
    import_table_from_csv item_lt format_n size_hint default_height
      fileName (Ok (MkReader recs None ln)) w
    = ({| data_table := t';
          inst_textbox :=
            "File: '" ++ basename fileName ++ "' successfully imported"
            ++ nl ++ nl ++ "- Total records:   "
            ++ rjust 8 (format_n (List.length recs)) ++ nl;
          status_bar :=
            "File: '" ++ basename fileName ++ "'. Total records: "
            ++ format_n (List.length recs) ++ ".";
          inst_button_container := inst_button_container w;
          invalid_packet_count := 0;
          messages_count := msg_total recs;
          csv_file_name := Some (basename fileName);
          trace := trace w |}, Ok tt)
    /\ rows t' = sort_rows item_lt 0 AscendingOrder rs
    /\ Permutation rs (map new_row recs).
Proof.
  intros Hname. destruct fileName as [|a f]; [congruence|].
  unfold import_table_from_csv, try_except, import_try.
  unfold bind, run, outcome, get_window, ret. cbn [records stop line_num].
  rewrite for_each_run.
  set (name := basename (String a f)) in *. clearbody name. clear Hname.
  match goal with
  | |- context [fold_left _ recs ?w0] =>
      destruct (load_rows recs w0) as (t1 & E1 & P1); rewrite E1
  end.
  match goal with
  | |- context [adjust_row_heights size_hint ?w1] =>
      destruct (adjust_row_heights_rows w1) as (t2 & E2 & R2); rewrite E2
  end.
  cbn [with_counters with_data_table on_table data_table setPlainText
       str_csv_file_name csv_file_name invalid_packet_count messages_count
       inst_textbox status_bar inst_button_container trace append
       with_csv_file_name update_status_bar showMessage] in *.
  assert (P : Permutation (rows t2) (map new_row recs)).
  { rewrite R2. exact P1. }
  assert (Hlen : rowCount (sortItems item_lt 0 AscendingOrder
                             (setSortingEnabled item_lt true t2))
                 = List.length recs).
  { unfold rowCount. cbn [rows sortItems setSortingEnabled].
    rewrite !sort_rows_length, (Permutation_length P). apply length_map. }
  rewrite Hlen.
  exists (sortItems item_lt 0 AscendingOrder (setSortingEnabled item_lt true t2)).
  exists (rows (setSortingEnabled item_lt true t2)).
  split; [reflexivity|]. split; [reflexivity|].
  eapply perm_trans; [|exact P]. apply sort_rows_perm.
Qed.

(** An import whose reader raises after the records [recs]. *)
Lemma import_read_failure fileName recs e ln w :
  fileName <> "" ->
  exists t' evs,
    import_table_from_csv item_lt format_n size_hint default_height
      fileName (Ok (MkReader recs (Some e) ln)) w
    = ({| data_table := t';
          inst_textbox :=
            "ERROR! File: '" ++ basename fileName ++ "'" ++ nl ++ nl
            ++ "- " ++ error_msg ln e;
          status_bar := error_msg ln e;
          inst_button_container := inst_button_container w;
          invalid_packet_count := 0;
          messages_count := msg_total recs;
          csv_file_name := Some (basename fileName);
          trace := trace w ++ evs ++ [Print (error_msg ln e)] |}, Ok tt)
    /\ Permutation (rows t') (map new_row recs).
Proof.
  intros Hname. destruct fileName as [|a f]; [congruence|].
  unfold import_table_from_csv, try_except, import_try.
  unfold bind, run, outcome, get_window, ret. cbn [records stop line_num].
  rewrite for_each_run.
  set (name := basename (String a f)) in *. clearbody name. clear Hname.
  match goal with
  | |- context [fold_left _ recs ?w0] =>
      destruct (load_rows recs w0) as (t1 & E1 & P1); rewrite E1
  end.
  exists t1.
  destruct e as [cls msg]; destruct cls;
    [ exists [] | exists [] | exists [Print msg] | exists [Print msg]
    | exists [Print msg] | exists [Print msg] | exists [Print msg] ];
    (split; [|exact P1]);
    unfold import_except, show_error, error_msg, bind, run, get_window, print, emit;
    cbn [exn_cls exn_str with_counters with_data_table on_table data_table
         setPlainText str_csv_file_name csv_file_name invalid_packet_count
         messages_count inst_textbox status_bar inst_button_container trace
         append with_csv_file_name update_status_bar showMessage];
    rewrite <- ?app_assoc; reflexivity.
Qed.

(** An import whose [open] raises. *)
Lemma import_open_failure fileName e w :
  fileName <> "" -> exn_cls e <> CsvError ->
  exists evs,
    import_table_from_csv item_lt format_n size_hint default_height
      fileName (Raise e) w
    = ({| data_table := data_table w;
          inst_textbox :=
            "ERROR! File: '" ++ basename fileName ++ "'" ++ nl ++ nl
            ++ "- " ++ error_msg 0 e;
          status_bar := error_msg 0 e;
          inst_button_container := inst_button_container w;
          invalid_packet_count := invalid_packet_count w;
          messages_count := messages_count w;
          csv_file_name := Some (basename fileName);
          trace := trace w ++ evs ++ [Print (error_msg 0 e)] |}, Ok tt).
Proof.
  intros Hname Hcls. destruct fileName as [|a f]; [congruence|].
  unfold import_table_from_csv, try_except, import_try.
  unfold bind, run, outcome, get_window, ret.
  set (name := basename (String a f)) in *. clearbody name. clear Hname.
  destruct e as [cls msg]; destruct cls; [now elim Hcls | ..];
    [ exists [] | exists [Print msg] | exists [Print msg]
    | exists [Print msg] | exists [Print msg] | exists [Print msg] ];
    unfold import_except, show_error, error_msg, bind, run, get_window, print, emit;
    cbn [exn_cls exn_str with_counters with_data_table on_table data_table
         setPlainText str_csv_file_name csv_file_name invalid_packet_count
         messages_count inst_textbox status_bar inst_button_container trace
         append with_csv_file_name update_status_bar showMessage];
    rewrite <- ?app_assoc; reflexivity.
Qed.

(** C7 -- Of two successive imports the second replaces the rows of the
    first: whatever the first import was, after a well-formed second file
    the table holds one row per record of that file, so its row count is
    that file's record count. *)
Theorem reimport_replaces fileName1 file1 fileName2 recs2 ln2 w :
  fileName2 <> "" ->
  let w1 := fst (import_table_from_csv item_lt format_n size_hint default_height
                   fileName1 file1 w) in
  let w2 := fst (import_table_from_csv item_lt format_n size_hint default_height
                   fileName2 (Ok (MkReader recs2 None ln2)) w1) in
  rowCount (data_table w2) = List.length recs2
  /\ Permutation (rows (data_table w2)) (map new_row recs2).
Proof.
  intros Hname w1 w2.
  destruct (import_success fileName2 recs2 ln2 w1 Hname) as (t' & rs & E & R & P).
  assert (P' : Permutation (rows (data_table w2)) (map new_row recs2)).
  { unfold w2. rewrite E. simpl. rewrite R.
    eapply perm_trans; [apply sort_rows_perm | exact P]. }
  split; [|exact P'].
  unfold rowCount. rewrite (Permutation_length P'). apply length_map.
Qed.

(** C1 (as the code has it) -- A failing import shows its error message in
    the detail pane and in the status bar, prints it, and returns to the
    event loop.  The table is not cleared in general: when [open] fails the
    table is left as it was; when the reader fails after some records, the
    table holds the rows of exactly those records (none when it fails on the
    first).  A [csv.Error] message carries [reader.line_num]. *)
Theorem import_failure_reported fileName w :
  fileName <> "" ->
  (forall e, exn_cls e <> CsvError ->
     let out := import_table_from_csv item_lt format_n size_hint default_height
                  fileName (Raise e) w in
     snd out = Ok tt
     /\ data_table (fst out) = data_table w
     /\ inst_textbox (fst out)
        = "ERROR! File: '" ++ basename fileName ++ "'" ++ nl ++ nl
          ++ "- " ++ error_msg 0 e
     /\ status_bar (fst out) = error_msg 0 e
     /\ In (Print (error_msg 0 e)) (trace (fst out)))
  /\ (forall recs e ln,
        let out := import_table_from_csv item_lt format_n size_hint
                     default_height fileName
                     (Ok (MkReader recs (Some e) ln)) w in
        snd out = Ok tt
        /\ Permutation (rows (data_table (fst out))) (map new_row recs)
        /\ rowCount (data_table (fst out)) = List.length recs
        /\ inst_textbox (fst out)
           = "ERROR! File: '" ++ basename fileName ++ "'" ++ nl ++ nl
             ++ "- " ++ error_msg ln e
        /\ status_bar (fst out) = error_msg ln e
        /\ In (Print (error_msg ln e)) (trace (fst out))
        /\ (exn_cls e = CsvError ->
            status_bar (fst out)
            = "Error reading CSV file at line " ++ str_int ln ++ ": "
              ++ exn_str e)).
Proof.
  intros Hname. split.
  - intros e Hcls out.
    destruct (import_open_failure fileName e w Hname Hcls) as (evs & E).
    unfold out. rewrite E. simpl.
    repeat split; try reflexivity.
    apply in_or_app. right. apply in_or_app. right. left. reflexivity.
  - intros recs e ln out.
    destruct (import_read_failure fileName recs e ln w Hname)
      as (t' & evs & E & P).
    unfold out. rewrite E. cbn [fst snd data_table inst_textbox status_bar trace].
    split; [reflexivity|]. split; [exact P|].
    split; [unfold rowCount; rewrite (Permutation_length P); apply length_map|].
    split; [reflexivity|]. split; [reflexivity|].
    split.
    + apply in_or_app. right. apply in_or_app. right. left. reflexivity.
    + intros Hc. unfold error_msg. rewrite Hc. reflexivity.
Qed.

(** The comparison of item texts is a strict weak order. *)
Hypothesis item_lt_asym :
  forall a b, item_lt a b = true -> item_lt b a = false.
Hypothesis item_lt_negtrans :
  forall a b c, item_lt b a = false -> item_lt c b = false ->
                item_lt c a = false.

(** C2 -- Importing a well-formed file of N records: the handler returns
    normally; the table holds exactly the N rows built from the records
    (the first record included: no header is detected), whatever it held
    before; the rows are in ascending order of the first column; the
    invalid counter is zero and the message counter counts the "Msg"
    fields of this file only; the detail pane and the status bar report
    N records. *)
Theorem import_well_formed fileName recs ln w :
  fileName <> "" ->
  let out := import_table_from_csv item_lt format_n size_hint default_height
               fileName (Ok (MkReader recs None ln)) w in
  let w' := fst out in
  snd out = Ok tt
  /\ rowCount (data_table w') = List.length recs
  /\ Permutation (rows (data_table w')) (map new_row recs)
  /\ StronglySorted (row_le item_lt 0 AscendingOrder) (rows (data_table w'))
  /\ invalid_packet_count w' = 0
  /\ messages_count w' = msg_total recs
  /\ inst_textbox w'
     = "File: '" ++ basename fileName ++ "' successfully imported"
       ++ nl ++ nl ++ "- Total records:   "
       ++ rjust 8 (format_n (List.length recs)) ++ nl
  /\ status_bar w'
     = "File: '" ++ basename fileName ++ "'. Total records: "
       ++ format_n (List.length recs) ++ ".".
Proof.
  intros Hname out w'.
  destruct (import_success fileName recs ln w Hname) as (t' & rs & E & R & P).
  unfold w', out. rewrite E.
  cbn [fst snd data_table inst_textbox status_bar invalid_packet_count
       messages_count].
  assert (P' : Permutation (rows t') (map new_row recs)).
  { rewrite R. eapply perm_trans; [apply sort_rows_perm | exact P]. }
  split; [reflexivity|].
  split; [unfold rowCount; rewrite (Permutation_length P'); apply length_map|].
  split; [exact P'|].
  split; [rewrite R; apply sort_rows_sorted; assumption|].
  repeat split; reflexivity.
Qed.

End ImportFacts.


(* ================================================================== *)
(** * The selection handler                                               *)
(* ================================================================== *)

Section SelectionFacts.
Import Py Qt Calimate Spec.

Variable item_lt : string -> string -> bool.
Variable format_n : nat -> string.
Variable size_hint : list (option QTableWidgetItem) -> nat.
Variable default_height : nat.

Lemma update_inst_no_selection w :
  selectedRows (data_table w) = [] -> update_inst format_n w = (w, Ok tt).
Proof.
  intros H. unfold update_inst, bind, get_window, ret. now rewrite H.
Qed.

Lemma update_inst_missing w r rest :
  selectedRows (data_table w) = r :: rest ->
  item (data_table w) r (index columns "Notes") = None
  \/ item (data_table w) r (index columns "Result") = None ->
  update_inst format_n w
  = (w, Raise (Exn AttributeError "'NoneType' object has no attribute 'text'")).
Proof.
  intros Hsel Hmiss.
  unfold update_inst, bind, get_window, item_text. rewrite Hsel.
  destruct (item (data_table w) r (index columns "Notes")) as [n|];
    [|reflexivity].
  destruct Hmiss as [Hm|Hm]; [discriminate|]. now rewrite Hm.
Qed.

Lemma update_inst_message w r rest notes result :
  selectedRows (data_table w) = r :: rest ->
  item (data_table w) r (index columns "Notes") = Some notes ->
  item (data_table w) r (index columns "Result") = Some result ->
  contains "Msg" (text result) = true ->
  update_inst format_n w
  = (setPlainText ("Message:" ++ nl ++ "- " ++ text notes) w, Ok tt).
Proof.
  intros Hsel Hn Hr Hc.
  unfold update_inst, bind, get_window, item_text, run.
  now rewrite Hsel, Hn, Hr, Hc.
Qed.

Lemma update_inst_record w r rest notes result :
  selectedRows (data_table w) = r :: rest ->
  item (data_table w) r (index columns "Notes") = Some notes ->
  item (data_table w) r (index columns "Result") = Some result ->
  contains "Msg" (text result) = false ->
  update_inst format_n w
  = (showMessage
       ("File: '" ++ str_csv_file_name w ++ "', Selected record: "
        ++ format_n (r + 1) ++ " of " ++ format_n (rowCount (data_table w))
        ++ ".")
       (setPlainText (text notes) w), Ok tt).
Proof.
  intros Hsel Hn Hr Hc.
  unfold update_inst, bind, get_window, item_text, run.
  now rewrite Hsel, Hn, Hr, Hc.
Qed.

(** C3 (as the code has it) -- On a selection change with a row selected
    whose Result and Notes items exist: when the Result text contains
    "Msg", the detail pane shows "Message:" and the Notes text, and the
    status bar is left as it was; otherwise the detail pane shows the Notes
    text verbatim and the status bar shows the file name and the selected
    index (from one) of the row count, both in the locale's number format.
    With no row selected nothing changes. *)
Theorem update_inst_shows w :
  (selectedRows (data_table w) = [] -> update_inst format_n w = (w, Ok tt))
  /\ (forall r rest notes result,
        selectedRows (data_table w) = r :: rest ->
        item (data_table w) r (index columns "Notes") = Some notes ->
        item (data_table w) r (index columns "Result") = Some result ->
        (contains "Msg" (text result) = true ->
         let w' := fst (update_inst format_n w) in
         snd (update_inst format_n w) = Ok tt
         /\ inst_textbox w' = "Message:" ++ nl ++ "- " ++ text notes
         /\ status_bar w' = status_bar w)
        /\ (contains "Msg" (text result) = false ->
            let w' := fst (update_inst format_n w) in
            snd (update_inst format_n w) = Ok tt
            /\ inst_textbox w' = text notes
            /\ status_bar w'
               = "File: '" ++ str_csv_file_name w ++ "', Selected record: "
                 ++ format_n (r + 1) ++ " of "
                 ++ format_n (rowCount (data_table w)) ++ ".")).
Proof.
  split; [apply update_inst_no_selection|].
  intros r rest notes result Hsel Hn Hr. split; intros Hc w'; unfold w'.
  - rewrite (update_inst_message w r rest notes result Hsel Hn Hr Hc).
    repeat split; reflexivity.
  - rewrite (update_inst_record w r rest notes result Hsel Hn Hr Hc).
    repeat split; reflexivity.
Qed.

Lemma selectRow_rows_from i l : forall k,
  selectedRows_from k
    (map (fun p => MkRow (cells (snd p)) (Nat.eqb (fst p) i))
         (combine (seq k (List.length l)) l))
  = if Nat.leb k i && Nat.ltb i (k + List.length l) then [i] else [].
Proof.
  induction l as [|x l IH]; intros k; cbn [List.length seq combine map selectedRows_from].
  - rewrite Nat.add_0_r.
    destruct (Nat.leb_spec k i), (Nat.ltb_spec i k); simpl; try reflexivity; lia.
  - cbn [selected fst]. rewrite IH.
    destruct (Nat.eqb_spec k i) as [->|Hne].
    + replace (Nat.leb (S i) i) with false by (symmetry; apply Nat.leb_gt; lia).
      rewrite Nat.leb_refl.
      replace (Nat.ltb i (i + S (List.length l))) with true
        by (symmetry; apply Nat.ltb_lt; lia).
      reflexivity.
    + replace (k + S (List.length l)) with (S k + List.length l) by lia.
      destruct (Nat.leb_spec (S k) i), (Nat.leb_spec k i); try lia; reflexivity.
Qed.

Lemma selectRow_selected i t :
  i < rowCount t -> selectedRows (selectRow i t) = [i].
Proof.
  intros H. unfold selectedRows, selectRow, enumerate. simpl.
  rewrite selectRow_rows_from. simpl.
  replace (Nat.ltb i (List.length (rows t))) with true
    by (symmetry; apply Nat.ltb_lt; exact H).
  reflexivity.
Qed.

Lemma selectRow_nth_error i l r : forall k,
  nth_error (map (fun p => MkRow (cells (snd p)) (Nat.eqb (fst p) i))
                 (combine (seq k (List.length l)) l)) r
  = option_map (fun x => MkRow (cells x) (Nat.eqb (k + r) i)) (nth_error l r).
Proof.
  revert r. induction l as [|x l IH]; intros r k.
  - destruct r; reflexivity.
  - destruct r as [|r]; cbn [List.length seq combine map nth_error option_map fst snd].
    + now rewrite Nat.add_0_r.
    + rewrite IH. now replace (S k + r) with (k + S r) by lia.
Qed.

Lemma selectRow_item i t r c :
  item (selectRow i t) r c = item t r c.
Proof.
  unfold item, selectRow, enumerate. simpl. rewrite selectRow_nth_error.
  destruct (nth_error (rows t) r); reflexivity.
Qed.

(** C9 -- [update_inst] returns normally exactly when no row is selected
    or the selected row has an item in both the Notes and the Result
    column.  A row built from a record leaves the columns past the
    record's fields empty.  So after an import, a record with fewer than
    three fields has a row whose Notes slot is empty, and when that row is
    selected the handler ends with the [AttributeError] of reading
    [.text()] from nothing: the handler has no [try], the error leaves
    it. *)
Theorem update_inst_needs_items :
  (forall w,
     snd (update_inst format_n w) = Ok tt <->
     (selectedRows (data_table w) = []
      \/ exists r rest notes result,
           selectedRows (data_table w) = r :: rest
           /\ item (data_table w) r (index columns "Notes") = Some notes
           /\ item (data_table w) r (index columns "Result") = Some result))
  /\ (forall row_data c,
        List.length row_data <= c -> nth c (row_cells row_data) None = None)
  /\ (forall fileName recs ln w row_data,
        fileName <> "" -> In row_data recs -> List.length row_data < 3 ->
        let w' := fst (import_table_from_csv item_lt format_n size_hint
                         default_height fileName
                         (Ok (MkReader recs None ln)) w) in
        exists i,
          i < rowCount (data_table w')
          /\ nth_error (rows (data_table w')) i = Some (new_row row_data)
          /\ item (data_table w') i (index columns "Notes") = None
          /\ update_inst format_n (on_table (selectRow i) w')
             = (on_table (selectRow i) w',
                Raise (Exn AttributeError
                         "'NoneType' object has no attribute 'text'"))).
Proof.
  split; [|split].
  - intros w. split.
    + intros Hok.
      destruct (selectedRows (data_table w)) as [|r rest] eqn:Hsel;
        [left; reflexivity|right].
      destruct (item (data_table w) r (index columns "Notes")) as [n|] eqn:Hn.
      * destruct (item (data_table w) r (index columns "Result")) as [d|] eqn:Hr.
        -- exists r, rest, n, d. auto.
        -- rewrite (update_inst_missing w r rest Hsel (or_intror Hr)) in Hok.
           discriminate.
      * rewrite (update_inst_missing w r rest Hsel (or_introl Hn)) in Hok.
        discriminate.
    + intros [Hsel|(r & rest & n & d & Hsel & Hn & Hr)].
      * now rewrite update_inst_no_selection.
      * destruct (contains "Msg" (text d)) eqn:Hc.
        -- now rewrite (update_inst_message w r rest n d Hsel Hn Hr Hc).
        -- now rewrite (update_inst_record w r rest n d Hsel Hn Hr Hc).
  - intros row_data c Hlen. rewrite row_cells_nth.
    replace (nth_error row_data c) with (@None string)
      by (symmetry; apply nth_error_None; exact Hlen).
    destruct (Nat.ltb c 3); reflexivity.
  - intros fileName recs ln w row_data Hname Hin Hlen w'.
    destruct (import_success item_lt format_n size_hint default_height
                fileName recs ln w Hname) as (t' & rs & E & R & P).
    assert (Hw' : data_table w' = t') by (unfold w'; now rewrite E).
    assert (Hin' : In (new_row row_data) (rows t')).
    { rewrite R. eapply Permutation_in.
      - apply Permutation_sym. eapply perm_trans; [apply sort_rows_perm|exact P].
      - apply in_map, Hin. }
    destruct (In_nth_error _ _ Hin') as (i & Hi).
    assert (Hlt : i < rowCount t').
    { unfold rowCount. apply nth_error_Some. now rewrite Hi. }
    assert (Hnone : item t' i (index columns "Notes") = None).
    { unfold item. rewrite Hi. cbn [cells new_row]. rewrite row_cells_nth.
      replace (nth_error row_data (index columns "Notes")) with (@None string)
        by (symmetry; apply nth_error_None; change (index columns "Notes") with 2; lia).
      reflexivity. }
    exists i. rewrite Hw'. repeat split; try assumption.
    apply (update_inst_missing _ i []).
    + cbn [on_table with_data_table data_table]. rewrite Hw'.
      apply selectRow_selected, Hlt.
    + left. cbn [on_table with_data_table data_table].
      rewrite selectRow_item, Hw'. exact Hnone.
Qed.

End SelectionFacts.


(* ================================================================== *)
(** * Instrument discovery                                                *)
(* ================================================================== *)

Section DiscoveryFacts.
Import Py Qt Calimate Spec.

Lemma extend_nil w : extend [] [] w = w.
Proof. destruct w; unfold extend; simpl. now rewrite !app_nil_r. Qed.

Lemma extend_extend e1 b1 e2 b2 w :
  extend e2 b2 (extend e1 b1 w) = extend (e1 ++ e2) (b1 ++ b2) w.
Proof. unfold extend; simpl. now rewrite !app_assoc. Qed.

Lemma emit_extend e w : emit e w = extend [e] [] w.
Proof. unfold emit, extend. now rewrite app_nil_r. Qed.

Lemma framed_ret {A : Type} (a : A) : framed (ret a).
Proof. exists [], [], (Ok a). intros w. unfold ret. now rewrite extend_nil. Qed.

Lemma framed_outcome {A : Type} (r : result A) : framed (outcome r).
Proof. exists [], [], r. intros w. unfold outcome. now rewrite extend_nil. Qed.

Lemma framed_emit e : framed (run (emit e)).
Proof. exists [e], [], (Ok tt). intros w. unfold run. now rewrite emit_extend. Qed.

Lemma framed_print line : framed (run (print line)).
Proof. apply framed_emit. Qed.

Lemma framed_bind {A B : Type} (c : M A) (k : A -> M B) :
  framed c -> (forall a, framed (k a)) -> framed (bind c k).
Proof.
  intros (e1 & b1 & r1 & H1) Hk. destruct r1 as [a|e].
  - destruct (Hk a) as (e2 & b2 & r2 & H2).
    exists (e1 ++ e2)%list, (b1 ++ b2)%list, r2. intros w.
    unfold bind. now rewrite H1, H2, extend_extend.
  - exists e1, b1, (Raise e). intros w. unfold bind. now rewrite H1.
Qed.

Lemma framed_try_except {A : Type} (c : M A) (h : exn -> M A) :
  framed c -> (forall e, framed (h e)) -> framed (try_except c h).
Proof.
  intros (e1 & b1 & r1 & H1) Hh. destruct r1 as [a|e].
  - exists e1, b1, (Ok a). intros w. unfold try_except. now rewrite H1.
  - destruct (Hh e) as (e2 & b2 & r2 & H2).
    exists (e1 ++ e2)%list, (b1 ++ b2)%list, r2. intros w.
    unfold try_except. now rewrite H1, H2, extend_extend.
Qed.

Lemma framed_call {A : Type} e (r : result A) : framed (call e r).
Proof.
  unfold call. apply framed_bind; [apply framed_emit|].
  intros _. apply framed_outcome.
Qed.

Lemma framed_addWidget b : framed (addWidget b).
Proof.
  exists [AddWidget (caption b)], [b], (Ok tt). intros w.
  unfold addWidget, bind, run, emit, with_buttons, extend. reflexivity.
Qed.

Create HintDb frame.
#[local] Hint Resolve framed_ret framed_outcome framed_emit framed_print
  framed_call framed_addWidget : frame.
#[local] Hint Extern 2 (framed (bind _ _)) =>
  apply framed_bind; [|intros] : frame.
#[local] Hint Extern 2 (framed (if ?b then _ else _)) => destruct b : frame.

Lemma probe_framed W item : framed (probe W item).
Proof. unfold probe. auto 40 with frame. Qed.

(** A framed computation is known from one run on the initial window. *)
Lemma framed_initial {A : Type} (c : M A) :
  framed c ->
  forall w,
    c w = (extend (trace (fst (c (initial 0 DescendingOrder 0))))
                  (inst_button_container (fst (c (initial 0 DescendingOrder 0)))) w,
           snd (c (initial 0 DescendingOrder 0))).
Proof.
  intros (evs & bs & r & H) w. rewrite (H (initial 0 DescendingOrder 0)), H.
  reflexivity.
Qed.

(** Probing an address adds its events and its buttons to any window. *)
Lemma probe_frame W item w :
  probe W item w
  = (extend (probe_events W item) (probe_buttons W item) w,
     probe_result W item).
Proof. apply (framed_initial (probe W item)), probe_framed. Qed.

Lemma probe_guarded_frame W item w :
  probe_guarded W item w
  = (extend (guarded_events W item) (probe_buttons W item) w, Ok tt).
Proof.
  unfold probe_guarded, try_except, guarded_events. rewrite probe_frame.
  destruct (probe_result W item) as [[]|e].
  - now rewrite app_nil_r.
  - unfold run, print. rewrite emit_extend, extend_extend.
    now rewrite app_nil_r.
Qed.

Lemma scan_frame W items : forall w,
  for_each items (probe_guarded W) w
  = (extend (flat_map (guarded_events W) items)
            (flat_map (probe_buttons W) items) w, Ok tt).
Proof.
  induction items as [|item items IH]; intros w; simpl.
  - unfold ret. now rewrite extend_nil.
  - unfold bind. rewrite probe_guarded_frame, IH, extend_extend. reflexivity.
Qed.

Lemma no_button_emit e : no_button (run (emit e)).
Proof. intros w w' r H. unfold run in H. now inversion H. Qed.

Lemma no_button_print line : no_button (run (print line)).
Proof. apply no_button_emit. Qed.

Lemma no_button_outcome {A : Type} (r : result A) : no_button (outcome r).
Proof. intros w w' r' H. unfold outcome in H. now inversion H. Qed.

Lemma no_button_call {A : Type} e (r : result A) : no_button (call e r).
Proof.
  intros w w' r' H. unfold call, bind, run, outcome in H. now inversion H.
Qed.

Lemma quiet_run f : quiet_on_raise (run f).
Proof. intros w w' e H. unfold run in H. discriminate. Qed.

Lemma quiet_addWidget b : quiet_on_raise (addWidget b).
Proof. intros w w' e H. unfold addWidget, bind, run in H. discriminate. Qed.

Lemma quiet_bind {A B : Type} (c : M A) (k : A -> M B) :
  no_button c -> (forall a, quiet_on_raise (k a)) -> quiet_on_raise (bind c k).
Proof.
  intros Hc Hk w w' e H. unfold bind in H.
  destruct (c w) as [w1 [a|e1]] eqn:E.
  - rewrite (Hk a w1 w' e H). exact (Hc w w1 _ E).
  - inversion H; subst. exact (Hc w w' _ E).
Qed.

Create HintDb quiet.
#[local] Hint Resolve no_button_emit no_button_print no_button_outcome
  no_button_call quiet_run quiet_addWidget : quiet.
#[local] Hint Extern 2 (quiet_on_raise (bind _ _)) =>
  apply quiet_bind; [|intros] : quiet.
#[local] Hint Extern 2 (quiet_on_raise (if ?b then _ else _)) =>
  destruct b : quiet.

Lemma probe_quiet W item : quiet_on_raise (probe W item).
Proof. unfold probe. auto 40 with quiet. Qed.

(** An address whose probing raises gets no button. *)
Lemma probe_raise_no_button W item e :
  probe_result W item = Raise e -> probe_buttons W item = [].
Proof.
  unfold probe_result, probe_buttons. intros H.
  destruct (probe W item (initial 0 DescendingOrder 0)) as [w' r] eqn:E.
  simpl in H. subst r. exact (probe_quiet W item _ _ _ E).
Qed.

(** C6 -- A discovery scan over the addresses the resource manager lists:
    the handler returns normally whatever the single probes do; an address
    whose probing raises gets the line "Exception: ..." printed and no
    button; the buttons in the panel afterwards are those of the single
    addresses, in order.  So a button that probing an address produces is
    in the panel whatever the other addresses of the list do, a failing
    one before or after it included. *)
Theorem find_inst_isolates_failures W addrs w :
  list_resources W = Ok addrs ->
  let out := find_inst W w in
  snd out = Ok tt
  /\ inst_button_container (fst out) = flat_map (probe_buttons W) addrs
  /\ trace (fst out) = (trace w ++ flat_map (guarded_events W) addrs)%list
  /\ (forall item e,
        In item addrs -> probe_result W item = Raise e ->
        In (Print ("Exception: " ++ exn_str e)) (trace (fst out))
        /\ probe_buttons W item = [])
  /\ (forall item b,
        In item addrs -> In b (probe_buttons W item) ->
        In b (inst_button_container (fst out))).
Proof.
  intros Hlist out.
  assert (E : out = (extend (flat_map (guarded_events W) addrs)
                            (flat_map (probe_buttons W) addrs)
                            (with_buttons w []), Ok tt)).
  { unfold out, find_inst, bind, run, outcome. rewrite Hlist.
    apply scan_frame. }
  rewrite E. cbn [fst snd extend inst_button_container trace with_buttons app].
  split; [reflexivity|]. split; [reflexivity|]. split; [reflexivity|].
  split.
  - intros item e Hin Hr. split; [|exact (probe_raise_no_button W item e Hr)].
    apply in_or_app. right. apply in_flat_map. exists item. split; [exact Hin|].
    unfold guarded_events. rewrite Hr. apply in_or_app. right. left. reflexivity.
  - intros item b Hin Hb. apply in_flat_map. exists item. auto.
Qed.

(** Running the [try] block on known answers, statement by statement. *)
Ltac run_probe :=
  cbv beta iota zeta delta [probe call bind run outcome addWidget].
Ltac answer H := rewrite H; cbv beta iota.
Ltac collect_events :=
  unfold print; rewrite ?emit_extend, ?extend_extend; cbn [app].

Lemma split_nonempty sep s : split sep s <> [].
Proof.
  destruct s as [|c s]; simpl; [discriminate|].
  destruct (Ascii.eqb c sep); [discriminate|].
  destruct (split sep s); discriminate.
Qed.

Lemma split_other_length sep c s :
  c <> sep ->
  List.length (split sep (String c s)) = List.length (split sep s).
Proof.
  intros H. simpl. destruct (Ascii.eqb_spec c sep) as [E|_]; [contradiction|].
  destruct (split sep s) eqn:E; [now apply split_nonempty in E | reflexivity].
Qed.

Lemma split_replace_length old new s :
  old <> ","%char -> (new = "" \/ new = "_") ->
  List.length (split "," (replace old new s)) = List.length (split "," s).
Proof.
  intros Hold Hnew. induction s as [|c s IH]; [reflexivity|].
  cbn [replace]. destruct (Ascii.eqb_spec c old) as [->|Hc].
  - rewrite (split_other_length "," old s Hold).
    destruct Hnew as [-> | ->]; cbn [append].
    + exact IH.
    + rewrite split_other_length; [exact IH | discriminate].
  - destruct (Ascii.eqb_spec c ","%char) as [->|Hcomma].
    + simpl. now rewrite IH.
    + rewrite !split_other_length by assumption. exact IH.
Qed.

(** The file name is made of as many fields as the identity has. *)
Lemma filename_fields s :
  List.length (split "," (replace ":" "" (replace " " "_" s)))
  = List.length (split "," s).
Proof.
  rewrite split_replace_length; [|discriminate|now left].
  apply split_replace_length; [discriminate|now right].
Qed.

Section OneInstrument.

Variable W : World.
Variable item answer : string.

(** The instrument answers every call of the [try] block. *)
Hypothesis opens : open_resource (resource W item) = Ok tt.
Hypothesis identifies : query (resource W item) "*IDN?" = Ok answer.
Hypothesis unlocks : write (resource W item) ":KEY:FORCe" = Ok tt.
Hypothesis closes : close (resource W item) = Ok tt.

Lemma probe_not_found fn0 fn1 fns w :
  split "," (replace ":" "" (replace " " "_" (strip answer))) = fn0 :: fn1 :: fns ->
  path_exists W (fn0 ++ "_" ++ fn1 ++ ".json") = false ->
  probe W item w
  = (extend [OpenResource item; Query item "*IDN?"; Write item ":KEY:FORCe";
             Close item;
             Print ("JSON filename: " ++ fn0 ++ "_" ++ fn1 ++ ".json");
             PathExists (fn0 ++ "_" ++ fn1 ++ ".json");
             Print ("Configuration file " ++ (fn0 ++ "_" ++ fn1 ++ ".json")
                    ++ " not found.")] [] w, Ok tt).
Proof.
  intros Hs He. run_probe.
  answer opens. answer identifies. answer unlocks. answer closes.
  rewrite Hs. cbn [getitem nth_error]. answer He.
  collect_events. reflexivity.
Qed.

Lemma probe_found fn0 fn1 fns items i0 i1 i2 i3 rest w :
  split "," (replace ":" "" (replace " " "_" (strip answer))) = fn0 :: fn1 :: fns ->
  path_exists W (fn0 ++ "_" ++ fn1 ++ ".json") = true ->
  json_load W (fn0 ++ "_" ++ fn1 ++ ".json") = Ok (Dict items) ->
  split "," (strip answer) = i0 :: i1 :: i2 :: i3 :: rest ->
  probe W item w
  = (extend [OpenResource item; Query item "*IDN?"; Write item ":KEY:FORCe";
             Close item;
             Print ("JSON filename: " ++ fn0 ++ "_" ++ fn1 ++ ".json");
             PathExists (fn0 ++ "_" ++ fn1 ++ ".json");
             JsonLoad (fn0 ++ "_" ++ fn1 ++ ".json");
             Print ("Connect Command: " ++ str_value (dict_get items "connect"));
             Print ("ID Command: " ++ str_value (dict_get items "id"));
             Print ("Close Command: " ++ str_value (dict_get items "close"));
             AddWidget (i0 ++ " " ++ i1 ++ nl ++ "S/N: " ++ i2
                        ++ nl ++ "Ver: " ++ i3)]
            [Button (i0 ++ " " ++ i1 ++ nl ++ "S/N: " ++ i2
                     ++ nl ++ "Ver: " ++ i3) item] w, Ok tt).
Proof.
  intros Hs He Hj Hi. run_probe.
  answer opens. answer identifies. answer unlocks. answer closes.
  rewrite Hs. cbn [getitem nth_error]. answer He. answer Hj.
  cbn [get]. rewrite Hi. cbn [getitem nth_error caption].
  collect_events.
  unfold extend, with_buttons; simpl. rewrite <- !app_assoc. reflexivity.
Qed.

Lemma probe_no_filename w :
  List.length (split "," (strip answer)) < 2 ->
  probe W item w
  = (extend [OpenResource item; Query item "*IDN?"; Write item ":KEY:FORCe";
             Close item] [] w,
     Raise (Exn IndexError "list index out of range")).
Proof.
  intros Hlen. rewrite <- filename_fields in Hlen. run_probe.
  answer opens. answer identifies. answer unlocks. answer closes.
  destruct (split "," (replace ":" "" (replace " " "_" (strip answer))))
    as [|f0 [|f1 fs]] eqn:Hs; [now apply split_nonempty in Hs | | simpl in Hlen; lia].
  cbn [getitem nth_error]. collect_events. reflexivity.
Qed.

Lemma probe_short_identity fn0 fn1 fns items w :
  List.length (split "," (strip answer)) < 4 ->
  split "," (replace ":" "" (replace " " "_" (strip answer))) = fn0 :: fn1 :: fns ->
  path_exists W (fn0 ++ "_" ++ fn1 ++ ".json") = true ->
  json_load W (fn0 ++ "_" ++ fn1 ++ ".json") = Ok (Dict items) ->
  probe W item w
  = (extend [OpenResource item; Query item "*IDN?"; Write item ":KEY:FORCe";
             Close item;
             Print ("JSON filename: " ++ fn0 ++ "_" ++ fn1 ++ ".json");
             PathExists (fn0 ++ "_" ++ fn1 ++ ".json");
             JsonLoad (fn0 ++ "_" ++ fn1 ++ ".json");
             Print ("Connect Command: " ++ str_value (dict_get items "connect"));
             Print ("ID Command: " ++ str_value (dict_get items "id"));
             Print ("Close Command: " ++ str_value (dict_get items "close"))]
            [] w,
     Raise (Exn IndexError "list index out of range")).
Proof.
  intros Hlen Hs He Hj. run_probe.
  answer opens. answer identifies. answer unlocks. answer closes.
  rewrite Hs. cbn [getitem nth_error]. answer He. answer Hj. cbn [get].
  destruct (split "," (strip answer)) as [|i0 [|i1 [|i2 [|i3 rest]]]];
    cbn [getitem nth_error]; try (simpl in Hlen; lia);
    collect_events; reflexivity.
Qed.

(** With fewer than four identity fields no path through the [try] block
    reaches [addWidget]. *)
Lemma probe_short_no_button w :
  List.length (split "," (strip answer)) < 4 ->
  inst_button_container (fst (probe W item w)) = inst_button_container w.
Proof.
  intros Hlen.
  destruct (probe W item w) as [w' [[]|e]] eqn:E;
    [|exact (probe_quiet W item w w' e E)].
  revert E. run_probe.
  answer opens. answer identifies. answer unlocks. answer closes.
  destruct (getitem _ 0); cbv beta iota; [|discriminate].
  destruct (getitem _ 1); cbv beta iota; [|discriminate].
  destruct (path_exists W _); cbv beta iota.
  - destruct (json_load W _) as [data|]; cbv beta iota; [|discriminate].
    destruct (get data "connect"); cbv beta iota; [|discriminate].
    destruct (get data "id"); cbv beta iota; [|discriminate].
    destruct (get data "close"); cbv beta iota; [|discriminate].
    destruct (split "," (strip answer)) as [|i0 [|i1 [|i2 [|i3 rest]]]];
      cbn [getitem nth_error]; try discriminate.
    simpl in Hlen; lia.
  - intros E. inversion E. reflexivity.
Qed.

(** C8 -- An instrument that answers and whose configuration file does
    not exist: the [try] block ends without an exception, having printed
    the "not found" line; no button is added, the [except] clause prints
    nothing, and the scan goes on with the rest of the list. *)
Theorem missing_config_is_skipped fn0 fn1 fns others w :
  split "," (replace ":" "" (replace " " "_" (strip answer))) = fn0 :: fn1 :: fns ->
  let json_filename := fn0 ++ "_" ++ fn1 ++ ".json" in
  path_exists W json_filename = false ->
  let w' := fst (probe_guarded W item w) in
  snd (probe W item w) = Ok tt
  /\ snd (probe_guarded W item w) = Ok tt
  /\ inst_button_container w' = inst_button_container w
  /\ trace w'
     = (trace w
        ++ [OpenResource item; Query item "*IDN?"; Write item ":KEY:FORCe";
            Close item; Print ("JSON filename: " ++ json_filename);
            PathExists json_filename;
            Print ("Configuration file " ++ json_filename ++ " not found.")])%list
  /\ for_each (item :: others) (probe_guarded W) w
     = for_each others (probe_guarded W) w'.
Proof.
  intros Hs json_filename He w'.
  pose proof (probe_not_found fn0 fn1 fns w Hs He) as E.
  assert (G : probe_guarded W item w = (fst (probe W item w), Ok tt)).
  { unfold probe_guarded, try_except. rewrite E. reflexivity. }
  unfold w'. cbn [for_each]. unfold bind at 1. rewrite G, E.
  cbn [fst snd extend trace inst_button_container].
  rewrite app_nil_r. repeat split; reflexivity.
Qed.

(** C10 -- An instrument that answers with fewer than four identity
    fields gets no button, whatever the file system holds, and the scan's
    loop body still ends normally.  When its configuration file exists
    and holds an object, the file is loaded and the [try] block ends with
    the [IndexError] of the button caption, which the [except] clause
    prints.  With fewer than two fields the [IndexError] comes before any
    file name is printed or looked up. *)
Theorem short_identity_is_skipped w :
  List.length (split "," (strip answer)) < 4 ->
  let out := probe_guarded W item w in
  snd out = Ok tt
  /\ inst_button_container (fst out) = inst_button_container w
  /\ (forall fn0 fn1 fns items,
        split "," (replace ":" "" (replace " " "_" (strip answer)))
        = fn0 :: fn1 :: fns ->
        path_exists W (fn0 ++ "_" ++ fn1 ++ ".json") = true ->
        json_load W (fn0 ++ "_" ++ fn1 ++ ".json") = Ok (Dict items) ->
        snd (probe W item w) = Raise (Exn IndexError "list index out of range")
        /\ In (JsonLoad (fn0 ++ "_" ++ fn1 ++ ".json")) (trace (fst out))
        /\ In (Print "Exception: list index out of range") (trace (fst out)))
  /\ (List.length (split "," (strip answer)) < 2 ->
      snd (probe W item w) = Raise (Exn IndexError "list index out of range")
      /\ trace (fst out)
         = (trace w
            ++ [OpenResource item; Query item "*IDN?";
                Write item ":KEY:FORCe"; Close item;
                Print "Exception: list index out of range"])%list).
Proof.
  intros Hlen out.
  assert (Hout : out = (fst out, Ok tt)).
  { unfold out. rewrite probe_guarded_frame. reflexivity. }
  split; [now rewrite Hout|].
  split.
  { pose proof (probe_short_no_button w Hlen) as Hb.
    unfold out, probe_guarded, try_except.
    destruct (probe W item w) as [w1 [[]|e]]; simpl in *; exact Hb. }
  split.
  - intros fn0 fn1 fns items Hs He Hj.
    pose proof (probe_short_identity fn0 fn1 fns items w Hlen Hs He Hj) as E.
    unfold out, probe_guarded, try_except. rewrite E.
    cbn [fst snd extend trace run print emit exn_str].
    split; [reflexivity|]. split.
    + apply in_or_app. left. apply in_or_app. right. simpl. tauto.
    + apply in_or_app. right. left. reflexivity.
  - intros Hlen2. pose proof (probe_no_filename w Hlen2) as E.
    unfold out, probe_guarded, try_except. rewrite E.
    cbn [fst snd extend trace run print emit exn_str].
    split; [reflexivity|]. rewrite <- app_assoc. reflexivity.
Qed.

End OneInstrument.

Lemma probe_load_fails W item answer fn0 fn1 fns w :
  open_resource (resource W item) = Ok tt ->
  query (resource W item) "*IDN?" = Ok answer ->
  write (resource W item) ":KEY:FORCe" = Ok tt ->
  close (resource W item) = Ok tt ->
  split "," (replace ":" "" (replace " " "_" (strip answer))) = fn0 :: fn1 :: fns ->
  path_exists W (fn0 ++ "_" ++ fn1 ++ ".json") = true ->
  (forall e,
     json_load W (fn0 ++ "_" ++ fn1 ++ ".json") = Raise e ->
     probe W item w
     = (extend [OpenResource item; Query item "*IDN?";
                Write item ":KEY:FORCe"; Close item;
                Print ("JSON filename: " ++ fn0 ++ "_" ++ fn1 ++ ".json");
                PathExists (fn0 ++ "_" ++ fn1 ++ ".json");
                JsonLoad (fn0 ++ "_" ++ fn1 ++ ".json")] [] w, Raise e))
  /\ (forall ty,
        json_load W (fn0 ++ "_" ++ fn1 ++ ".json") = Ok (NotDict ty) ->
        probe W item w
        = (extend [OpenResource item; Query item "*IDN?";
                   Write item ":KEY:FORCe"; Close item;
                   Print ("JSON filename: " ++ fn0 ++ "_" ++ fn1 ++ ".json");
                   PathExists (fn0 ++ "_" ++ fn1 ++ ".json");
                   JsonLoad (fn0 ++ "_" ++ fn1 ++ ".json")] [] w,
           Raise (Exn AttributeError
                    ("'" ++ ty ++ "' object has no attribute 'get'")))).
Proof.
  intros opens identifies unlocks closes Hs He. split.
  - intros e Hj. run_probe.
    answer opens. answer identifies. answer unlocks. answer closes.
    rewrite Hs. cbn [getitem nth_error]. answer He. answer Hj.
    collect_events. reflexivity.
  - intros ty Hj. run_probe.
    answer opens. answer identifies. answer unlocks. answer closes.
    rewrite Hs. cbn [getitem nth_error]. answer He. answer Hj. cbn [get].
    collect_events. reflexivity.
Qed.

(** C4 (as the code has it) -- One pass of discovery, step by step; an
    exception at a step ends the pass there.  The connection is opened,
    the identity queried, the unlock command sent and the connection
    closed, in this order and before anything is looked up.  Then, when
    the identity has at least two fields, the file name is derived from
    the first two (blanks replaced, colons dropped) and looked up; with
    fewer the pass ends in an [IndexError].  A missing file gets a line
    printed.  An existing file is loaded; when it holds an object its
    three commands are printed, and when the identity has four fields one
    button is added; a file that cannot be loaded or holds no object, or
    an identity of fewer than four fields, ends the pass in an exception
    and no button is added. *)
Theorem probe_order W item w :
  let contact := [OpenResource item; Query item "*IDN?";
                  Write item ":KEY:FORCe"; Close item] in
  (forall e,
     open_resource (resource W item) = Raise e ->
     probe W item w = (extend [OpenResource item] [] w, Raise e))
  /\ (forall e,
        open_resource (resource W item) = Ok tt ->
        query (resource W item) "*IDN?" = Raise e ->
        probe W item w
        = (extend [OpenResource item; Query item "*IDN?"] [] w, Raise e))
  /\ (forall answer e,
        open_resource (resource W item) = Ok tt ->
        query (resource W item) "*IDN?" = Ok answer ->
        write (resource W item) ":KEY:FORCe" = Raise e ->
        probe W item w
        = (extend [OpenResource item; Query item "*IDN?";
                   Write item ":KEY:FORCe"] [] w, Raise e))
  /\ (forall answer e,
        open_resource (resource W item) = Ok tt ->
        query (resource W item) "*IDN?" = Ok answer ->
        write (resource W item) ":KEY:FORCe" = Ok tt ->
        close (resource W item) = Raise e ->
        probe W item w = (extend contact [] w, Raise e))
  /\ (forall answer,
        open_resource (resource W item) = Ok tt ->
        query (resource W item) "*IDN?" = Ok answer ->
        write (resource W item) ":KEY:FORCe" = Ok tt ->
        close (resource W item) = Ok tt ->
        let inst_id := strip answer in
        let inst_list := split "," inst_id in
        let fn_inst_list :=
          split "," (replace ":" "" (replace " " "_" inst_id)) in
        let json_filename :=
          nth 0 fn_inst_list "" ++ "_" ++ nth 1 fn_inst_list "" ++ ".json" in
        let lookup := (contact
                       ++ [Print ("JSON filename: " ++ json_filename);
                           PathExists json_filename])%list in
        (List.length inst_list < 2 ->
         probe W item w
         = (extend contact [] w,
            Raise (Exn IndexError "list index out of range")))
        /\ (2 <= List.length inst_list ->
            path_exists W json_filename = false ->
            probe W item w
            = (extend (lookup
                       ++ [Print ("Configuration file " ++ json_filename
                                  ++ " not found.")]) [] w, Ok tt))
        /\ (forall e,
              2 <= List.length inst_list ->
              path_exists W json_filename = true ->
              json_load W json_filename = Raise e ->
              probe W item w
              = (extend (lookup ++ [JsonLoad json_filename]) [] w, Raise e))
        /\ (forall ty,
              2 <= List.length inst_list ->
              path_exists W json_filename = true ->
              json_load W json_filename = Ok (NotDict ty) ->
              probe W item w
              = (extend (lookup ++ [JsonLoad json_filename]) [] w,
                 Raise (Exn AttributeError
                          ("'" ++ ty ++ "' object has no attribute 'get'"))))
        /\ (forall items,
              2 <= List.length inst_list ->
              path_exists W json_filename = true ->
              json_load W json_filename = Ok (Dict items) ->
              let read :=
                (lookup
                 ++ [JsonLoad json_filename;
                     Print ("Connect Command: "
                            ++ str_value (dict_get items "connect"));
                     Print ("ID Command: "
                            ++ str_value (dict_get items "id"));
                     Print ("Close Command: "
                            ++ str_value (dict_get items "close"))])%list in
              (List.length inst_list < 4 ->
               probe W item w
               = (extend read [] w,
                  Raise (Exn IndexError "list index out of range")))
              /\ (4 <= List.length inst_list ->
                  let label :=
                    nth 0 inst_list "" ++ " " ++ nth 1 inst_list "" ++ nl
                    ++ "S/N: " ++ nth 2 inst_list "" ++ nl
                    ++ "Ver: " ++ nth 3 inst_list "" in
                  probe W item w
                  = (extend (read ++ [AddWidget label])
                            [Button label item] w, Ok tt)))).
Proof.
  intros contact.
  split; [|split; [|split; [|split]]].
  - intros e Ho. run_probe. answer Ho. collect_events. reflexivity.
  - intros e Ho Hq. run_probe. answer Ho. answer Hq.
    collect_events. reflexivity.
  - intros answer e Ho Hq Hw. run_probe. answer Ho. answer Hq. answer Hw.
    collect_events. reflexivity.
  - intros answer e Ho Hq Hw Hc. run_probe.
    answer Ho. answer Hq. answer Hw. answer Hc.
    collect_events. reflexivity.
  - intros answer Ho Hq Hw Hc inst_id inst_list fn_inst_list
           json_filename lookup.
    assert (Hfn : 2 <= List.length inst_list ->
                  exists fn0 fn1 fns, fn_inst_list = fn0 :: fn1 :: fns).
    { unfold inst_list, fn_inst_list.
      rewrite <- (filename_fields inst_id).
      destruct (split "," (replace ":" "" (replace " " "_" inst_id)))
        as [|fn0 [|fn1 fns]]; simpl; intros Hlen; try lia.
      exists fn0, fn1, fns. reflexivity. }
    split; [|split; [|split; [|split]]].
    + intros Hlen. exact (probe_no_filename W item answer Ho Hq Hw Hc w Hlen).
    + intros Hlen He. destruct (Hfn Hlen) as (fn0 & fn1 & fns & Hs).
      unfold lookup, json_filename in *. rewrite Hs in *. cbn [nth] in *.
      exact (probe_not_found W item answer Ho Hq Hw Hc fn0 fn1 fns w Hs He).
    + intros e Hlen He Hj. destruct (Hfn Hlen) as (fn0 & fn1 & fns & Hs).
      unfold lookup, json_filename in *. rewrite Hs in *. cbn [nth] in *.
      exact (proj1 (probe_load_fails W item answer fn0 fn1 fns w
                      Ho Hq Hw Hc Hs He) e Hj).
    + intros ty Hlen He Hj. destruct (Hfn Hlen) as (fn0 & fn1 & fns & Hs).
      unfold lookup, json_filename in *. rewrite Hs in *. cbn [nth] in *.
      exact (proj2 (probe_load_fails W item answer fn0 fn1 fns w
                      Ho Hq Hw Hc Hs He) ty Hj).
    + intros items Hlen He Hj read.
      destruct (Hfn Hlen) as (fn0 & fn1 & fns & Hs).
      unfold read, lookup, json_filename in *. rewrite Hs in *.
      cbn [nth] in *. split.
      * intros Hshort.
        exact (probe_short_identity W item answer Ho Hq Hw Hc
                 fn0 fn1 fns items w Hshort Hs He Hj).
      * intros Hfour.
        assert (Hi : exists i0 i1 i2 i3 rest,
                   inst_list = i0 :: i1 :: i2 :: i3 :: rest).
        { destruct inst_list as [|i0 [|i1 [|i2 [|i3 rest]]]];
            simpl in Hfour; try lia.
          exists i0, i1, i2, i3, rest. reflexivity. }
        destruct Hi as (i0 & i1 & i2 & i3 & rest & Hi).
        rewrite Hi. cbn [nth].
        exact (probe_found W item answer Ho Hq Hw Hc
                 fn0 fn1 fns items i0 i1 i2 i3 rest w Hs He Hj Hi).
Qed.

End DiscoveryFacts.


(* ================================================================== *)
(** * The handlers on the sample session                                  *)
(* ================================================================== *)

Section SampleFacts.
Import Py Qt Calimate Spec.

Lemma ltb_asym a b : String.ltb a b = true -> String.ltb b a = false.
Proof.
  unfold String.ltb. rewrite (String.compare_antisym b a).
  destruct (String.compare a b); simpl; congruence.
Qed.

Lemma ltb_negtrans a b c :
  String.ltb b a = false -> String.ltb c b = false -> String.ltb c a = false.
Proof.
  unfold String.ltb. intros Hba Hcb.
  destruct (String.compare c a) eqn:Hca; try reflexivity.
  apply OrderedTypeEx.String_as_OT.cmp_lt in Hca.
  destruct (String.compare b a) eqn:E; try discriminate.
  - apply OrderedTypeEx.String_as_OT.cmp_eq in E. subst b.
    apply OrderedTypeEx.String_as_OT.cmp_lt in Hca.
    unfold OrderedTypeEx.String_as_OT.cmp in Hca. rewrite Hca in Hcb.
    discriminate.
  - assert (Hab : String.compare a b = Lt).
    { rewrite String.compare_antisym, E. reflexivity. }
    apply OrderedTypeEx.String_as_OT.cmp_lt in Hab.
    pose proof (OrderedTypeEx.String_as_OT.lt_trans _ _ _ Hca Hab) as Hcb'.
    apply OrderedTypeEx.String_as_OT.cmp_lt in Hcb'.
    unfold OrderedTypeEx.String_as_OT.cmp in Hcb'. rewrite Hcb' in Hcb.
    discriminate.
Qed.

Example str_int_1204 : str_int 1204 = "1204".
Proof. reflexivity. Qed.

Example strip_identity :
  strip ("  TEK,TDS 210,0,v1" ++ nl) = "TEK,TDS 210,0,v1".
Proof. reflexivity. Qed.

Example split_fields : split "," "a,,b," = ["a"; ""; "b"; ""].
Proof. reflexivity. Qed.

Example split_empty : split "," "" = [""].
Proof. reflexivity. Qed.

Example basename_path : basename "/home/u/log.csv" = "log.csv".
Proof. reflexivity. Qed.

Example contains_msg :
  contains "Msg" "a Msg b" = true /\ contains "Msg" "msg" = false.
Proof. split; reflexivity. Qed.

Example rjust_width : rjust 8 "12" = "      12".
Proof. reflexivity. Qed.

(** The imported log, sorted by the first column. *)
Example imported_tests :
  map (cell_text 0) (rows (data_table Sample.w_log))
  = [Some "T1"; Some "T2"; Some "T3"].
Proof. vm_compute. reflexivity. Qed.

Example imported_highlights :
  map (fun r => map (option_map background) (cells r))
      (rows (data_table Sample.w_log))
  = [[Some None; Some (Some fail_red); Some None];
     [Some None; Some (Some pass_green); Some None];
     [Some None; Some (Some indigo); Some (Some indigo)]].
Proof. vm_compute. reflexivity. Qed.

Example scan_buttons :
  inst_button_container (fst (find_inst Sample.lab Sample.w0))
  = [Button ("TEKTRONIX TDS 210" ++ nl ++ "S/N: 0" ++ nl
             ++ "Ver: CF:91.1CT FV:v1.16") Sample.tek].
Proof. vm_compute. reflexivity. Qed.

(** C5 on the sample: the "Msg" record of the log. *)
Lemma add_data_to_table_highlight_witness :
  In "Msg" ["T3"; "Msg"; "hello"]
  /\ fst (scan_msg ["T3"; "Msg"; "hello"] Sample.w0) = true
  /\ nth 1 (row_cells ["T3"; "Msg"; "hello"]) None
     = Some (Item "Msg" (Some AlignLeft) (Some indigo) false)
  /\ nth 2 (row_cells ["T3"; "Msg"; "hello"]) None
     = Some (Item "hello" (Some AlignLeft) (Some indigo) false).
Proof.
  destruct (add_data_to_table_highlight Sample.item_lt Sample.size_hint
              Sample.default_height ["T3"; "Msg"; "hello"] false Sample.w0)
    as (Hmsg & _ & Hcells & _).
  assert (Hin : In "Msg" ["T3"; "Msg"; "hello"]) by (simpl; tauto).
  split; [exact Hin|]. split; [exact (proj2 Hmsg Hin)|].
  split; [rewrite (Hcells 1) | rewrite (Hcells 2)]; vm_compute; reflexivity.
Defined.

(** C2 on the sample: the log of three records. *)
Lemma import_well_formed_witness :
  "/tmp/a.csv" <> ""
  /\ snd (Sample.import "/tmp/a.csv" (Ok (MkReader Sample.log None 3)) Sample.w0)
     = Ok tt
  /\ rowCount (data_table Sample.w_log) = 3
  /\ StronglySorted (row_le Sample.item_lt 0 AscendingOrder)
                    (rows (data_table Sample.w_log))
  /\ messages_count Sample.w_log = 1
  /\ status_bar Sample.w_log = "File: 'a.csv'. Total records: 3.".
Proof.
  assert (H : "/tmp/a.csv" <> "") by discriminate.
  destruct (import_well_formed Sample.item_lt Sample.format_n Sample.size_hint
              Sample.default_height ltb_asym ltb_negtrans
              "/tmp/a.csv" Sample.log 3 Sample.w0 H)
    as (Hr & Hn & _ & Hs & _ & Hm & _ & Hb).
  split; [exact H|]. split; [exact Hr|]. split; [exact Hn|].
  split; [exact Hs|]. split; [exact Hm | exact Hb].
Defined.

(** C7 on the sample: the short log imported after the log. *)
Lemma reimport_replaces_witness :
  "/tmp/s.csv" <> ""
  /\ rowCount (data_table Sample.w_log) = 3
  /\ rowCount
       (data_table
          (fst (Sample.import "/tmp/s.csv"
                  (Ok (MkReader Sample.short_log None 2)) Sample.w_log)))
     = 2.
Proof.
  assert (H : "/tmp/s.csv" <> "") by discriminate.
  split; [exact H|]. split; [vm_compute; reflexivity|].
  exact (proj1 (reimport_replaces Sample.item_lt Sample.format_n
                  Sample.size_hint Sample.default_height
                  "/tmp/a.csv" (Ok (MkReader Sample.log None 3))
                  "/tmp/s.csv" Sample.short_log 2 Sample.w0 H)).
Defined.

(** C1 as stated fails: after a failing import the table is not empty.
    A file that cannot be opened leaves the three rows of the log; a
    reader that fails on its second line leaves the row of its first. *)
Lemma import_failure_keeps_rows :
  (let out := Sample.import "/tmp/gone.csv" (Raise Sample.missing) Sample.w_log in
   snd out = Ok tt
   /\ rows (data_table (fst out)) <> []
   /\ rowCount (data_table (fst out)) = 3)
  /\ (let out := Sample.import "/tmp/bad.csv" (Ok Sample.broken) Sample.w_log in
      snd out = Ok tt
      /\ rows (data_table (fst out)) <> []
      /\ map (cell_text 0) (rows (data_table (fst out))) = [Some "T9"]
      /\ status_bar (fst out)
         = "Error reading CSV file at line 2: line contains NUL").
Proof.
  split; vm_compute; repeat split; try reflexivity; discriminate.
Qed.

(** C1 (amended) on the sample. *)
Lemma import_failure_reported_witness :
  "/tmp/gone.csv" <> ""
  /\ exn_cls Sample.missing <> CsvError
  /\ data_table (fst (Sample.import "/tmp/gone.csv" (Raise Sample.missing)
                        Sample.w_log))
     = data_table Sample.w_log
  /\ status_bar (fst (Sample.import "/tmp/gone.csv" (Raise Sample.missing)
                        Sample.w_log))
     = "File not found: [Errno 2] No such file or directory: '/tmp/gone.csv'"
  /\ rowCount (data_table (fst (Sample.import "/tmp/gone.csv"
                                  (Ok Sample.broken) Sample.w_log))) = 1
  /\ exn_cls (Exn CsvError "line contains NUL") = CsvError
  /\ status_bar (fst (Sample.import "/tmp/gone.csv" (Ok Sample.broken)
                        Sample.w_log))
     = "Error reading CSV file at line 2: line contains NUL".
Proof.
  assert (H : "/tmp/gone.csv" <> "") by discriminate.
  assert (Hc : exn_cls Sample.missing <> CsvError) by discriminate.
  destruct (import_failure_reported Sample.item_lt Sample.format_n
              Sample.size_hint Sample.default_height
              "/tmp/gone.csv" Sample.w_log H) as (Hopen & Hread).
  destruct (Hopen Sample.missing Hc) as (_ & Ht & _ & Hs & _).
  destruct (Hread [["T9"; "Pass"; "ok"]] (Exn CsvError "line contains NUL") 2)
    as (_ & _ & Hn & _ & _ & _ & Hline).
  split; [exact H|]. split; [exact Hc|]. split; [exact Ht|].
  split; [exact Hs|]. split; [exact Hn|].
  split; [reflexivity | exact (Hline eq_refl)].
Defined.

(** C3 as stated fails: selecting the message row of the log leaves the
    status bar as the import left it; it does not show the selected
    index. *)
Lemma update_inst_message_keeps_status :
  let w := on_table (selectRow 2) Sample.w_log in
  let out := update_inst Sample.format_n w in
  selectedRows (data_table w) = [2]
  /\ option_map text (item (data_table w) 2 (index columns "Result")) = Some "Msg"
  /\ snd out = Ok tt
  /\ inst_textbox (fst out) = "Message:" ++ nl ++ "- hello"
  /\ status_bar (fst out) = "File: 'a.csv'. Total records: 3."
  /\ status_bar (fst out) <> "File: 'a.csv', Selected record: 3 of 3.".
Proof.
  vm_compute. repeat split; try reflexivity. discriminate.
Qed.

(** C3 (amended) on the sample: the message row and the first row. *)
Lemma update_inst_shows_witness :
  (let w := on_table (selectRow 2) Sample.w_log in
   selectedRows (data_table w) = [2]
   /\ contains "Msg" "Msg" = true
   /\ inst_textbox (fst (update_inst Sample.format_n w))
      = "Message:" ++ nl ++ "- hello"
   /\ status_bar (fst (update_inst Sample.format_n w)) = status_bar w)
  /\ (let w := on_table (selectRow 0) Sample.w_log in
      selectedRows (data_table w) = [0]
      /\ contains "Msg" "Fail" = false
      /\ inst_textbox (fst (update_inst Sample.format_n w)) = "bad"
      /\ status_bar (fst (update_inst Sample.format_n w))
         = "File: 'a.csv', Selected record: 1 of 3.").
Proof.
  split.
  - intros w.
    assert (Hsel : selectedRows (data_table w) = [2]) by (vm_compute; reflexivity).
    assert (Hn : item (data_table w) 2 (index columns "Notes")
                 = Some (Item "hello" (Some AlignLeft) (Some indigo) false))
      by (vm_compute; reflexivity).
    assert (Hr : item (data_table w) 2 (index columns "Result")
                 = Some (Item "Msg" (Some AlignLeft) (Some indigo) false))
      by (vm_compute; reflexivity).
    assert (Hc : contains "Msg" "Msg" = true) by reflexivity.
    destruct (proj1 (proj2 (update_inst_shows Sample.format_n w)
                       2 [] _ _ Hsel Hn Hr) Hc) as (_ & Ht & Hs).
    split; [exact Hsel|]. split; [exact Hc|]. split; [exact Ht | exact Hs].
  - intros w.
    assert (Hsel : selectedRows (data_table w) = [0]) by (vm_compute; reflexivity).
    assert (Hn : item (data_table w) 0 (index columns "Notes")
                 = Some (Item "bad" (Some AlignLeft) None false))
      by (vm_compute; reflexivity).
    assert (Hr : item (data_table w) 0 (index columns "Result")
                 = Some (Item "Fail" (Some AlignLeft) (Some fail_red) false))
      by (vm_compute; reflexivity).
    assert (Hc : contains "Msg" "Fail" = false) by reflexivity.
    destruct (proj2 (proj2 (update_inst_shows Sample.format_n w)
                       0 [] _ _ Hsel Hn Hr) Hc) as (_ & Ht & Hs).
    split; [exact Hsel|]. split; [exact Hc|]. split; [exact Ht | exact Hs].
Defined.

(** C9 on the sample: the two-field record of the short log. *)
Lemma update_inst_needs_items_witness :
  "/tmp/s.csv" <> ""
  /\ In ["T1"; "Fail"] Sample.short_log
  /\ List.length ["T1"; "Fail"] < 3
  /\ nth 2 (row_cells ["T1"; "Fail"]) None = None
  /\ exists i,
       let w' := fst (Sample.import "/tmp/s.csv"
                        (Ok (MkReader Sample.short_log None 2)) Sample.w0) in
       i < rowCount (data_table w')
       /\ item (data_table w') i (index columns "Notes") = None
       /\ snd (update_inst Sample.format_n (on_table (selectRow i) w'))
          = Raise (Exn AttributeError "'NoneType' object has no attribute 'text'").
Proof.
  assert (H : "/tmp/s.csv" <> "") by discriminate.
  assert (Hin : In ["T1"; "Fail"] Sample.short_log) by (simpl; tauto).
  assert (Hlen : List.length ["T1"; "Fail"] < 3) by (simpl; lia).
  destruct (update_inst_needs_items Sample.item_lt Sample.format_n
              Sample.size_hint Sample.default_height) as (_ & Hcells & Himp).
  split; [exact H|]. split; [exact Hin|]. split; [exact Hlen|].
  split; [apply Hcells; simpl; lia|].
  destruct (Himp "/tmp/s.csv" Sample.short_log 2 Sample.w0 ["T1"; "Fail"]
              H Hin Hlen) as (i & Hi & _ & Hnone & Hraise).
  exists i. split; [exact Hi|]. split; [exact Hnone|].
  unfold Sample.import. rewrite Hraise. reflexivity.
Defined.

(** C4 as stated fails: probing the scope that has a configuration file,
    the unlock command is the third event and the close the fourth; the
    file is looked up, loaded and the button added only after them. *)
Lemma probe_unlocks_before_lookup :
  let t := trace (fst (probe Sample.lab Sample.tek Sample.w0)) in
  nth_error t 2 = Some (Write Sample.tek ":KEY:FORCe")
  /\ position is_write t = Some 2
  /\ position is_close t = Some 3
  /\ position is_path_exists t = Some 5
  /\ position is_json_load t = Some 6
  /\ position is_add_widget t = Some 10.
Proof. vm_compute. repeat split; reflexivity. Qed.

(** C4 (amended) on the sample, path by path: a resource that cannot be
    opened, one that does not answer, one that rejects the unlock, one
    that cannot be closed, an identity of one field, a missing file, a
    file that is not JSON, a file that holds a list, an identity of two
    fields with its file, and the scope that gets its button. *)
Lemma probe_order_witness :
  snd (probe Sample.lab Sample.dead Sample.w0)
  = Raise (Exn OtherException "VI_ERROR_RSRC_NFOUND")
  /\ trace (fst (probe MoreSample.quiet_lab MoreSample.stuck Sample.w0))
     = [OpenResource MoreSample.stuck; Query MoreSample.stuck "*IDN?"]
  /\ trace (fst (probe ProbeSample.shelf ProbeSample.gamma Sample.w0))
     = [OpenResource ProbeSample.gamma; Query ProbeSample.gamma "*IDN?";
        Write ProbeSample.gamma ":KEY:FORCe"]
  /\ snd (probe ProbeSample.shelf ProbeSample.delta Sample.w0)
     = Raise (Exn OtherException "VI_ERROR_CLOSING_FAILED")
  /\ probe Sample.lab Sample.mute Sample.w0
     = (extend [OpenResource Sample.mute; Query Sample.mute "*IDN?";
                Write Sample.mute ":KEY:FORCe"; Close Sample.mute] []
               Sample.w0,
        Raise (Exn IndexError "list index out of range"))
  /\ trace (fst (probe Sample.lab Sample.rigol Sample.w0))
     = [OpenResource Sample.rigol; Query Sample.rigol "*IDN?";
        Write Sample.rigol ":KEY:FORCe"; Close Sample.rigol;
        Print "JSON filename: RIGOL_TECHNOLOGIES_DS1054Z.json";
        PathExists "RIGOL_TECHNOLOGIES_DS1054Z.json";
        Print "Configuration file RIGOL_TECHNOLOGIES_DS1054Z.json not found."]
  /\ snd (probe ProbeSample.shelf ProbeSample.alpha Sample.w0)
     = Raise (Exn ValueError "Expecting value: line 1 column 1 (char 0)")
  /\ snd (probe ProbeSample.shelf ProbeSample.beta Sample.w0)
     = Raise (Exn AttributeError "'list' object has no attribute 'get'")
  /\ (inst_button_container (fst (probe Sample.lab Sample.bare Sample.w0)) = []
      /\ snd (probe Sample.lab Sample.bare Sample.w0)
         = Raise (Exn IndexError "list index out of range"))
  /\ (trace (fst (probe Sample.lab Sample.tek Sample.w0))
      = [OpenResource Sample.tek; Query Sample.tek "*IDN?";
         Write Sample.tek ":KEY:FORCe"; Close Sample.tek;
         Print "JSON filename: TEKTRONIX_TDS_210.json";
         PathExists "TEKTRONIX_TDS_210.json";
         JsonLoad "TEKTRONIX_TDS_210.json";
         Print "Connect Command: :SYST:REM";
         Print "ID Command: *IDN?";
         Print "Close Command: :KEY:FORCe";
         AddWidget ("TEKTRONIX TDS 210" ++ nl ++ "S/N: 0" ++ nl
                    ++ "Ver: CF:91.1CT FV:v1.16")]
      /\ inst_button_container (fst (probe Sample.lab Sample.tek Sample.w0))
         = [Button ("TEKTRONIX TDS 210" ++ nl ++ "S/N: 0" ++ nl
                    ++ "Ver: CF:91.1CT FV:v1.16") Sample.tek]).
Proof.
  split.
  { rewrite (proj1 (probe_order Sample.lab Sample.dead Sample.w0)
               (Exn OtherException "VI_ERROR_RSRC_NFOUND") eq_refl).
    reflexivity. }
  split.
  { rewrite (proj1 (proj2 (probe_order MoreSample.quiet_lab MoreSample.stuck
                             Sample.w0))
               (Exn OtherException "VI_ERROR_TMO") eq_refl eq_refl).
    reflexivity. }
  split.
  { rewrite (proj1 (proj2 (proj2 (probe_order ProbeSample.shelf
                                    ProbeSample.gamma Sample.w0)))
               "LOCK,L1,1,2" (Exn OtherException "VI_ERROR_IO")
               eq_refl eq_refl eq_refl).
    reflexivity. }
  split.
  { rewrite (proj1 (proj2 (proj2 (proj2 (probe_order ProbeSample.shelf
                                           ProbeSample.delta Sample.w0))))
               "STICK,S1,1,2" (Exn OtherException "VI_ERROR_CLOSING_FAILED")
               eq_refl eq_refl eq_refl eq_refl).
    reflexivity. }
  assert (Hlab : forall item answer,
            open_resource (resource Sample.lab item) = Ok tt ->
            query (resource Sample.lab item) "*IDN?" = Ok answer ->
            write (resource Sample.lab item) ":KEY:FORCe" = Ok tt ->
            close (resource Sample.lab item) = Ok tt -> _)
    by (intros item answer;
        exact (proj2 (proj2 (proj2 (proj2
                 (probe_order Sample.lab item Sample.w0)))) answer)).
  assert (Hshelf : forall item answer,
            open_resource (resource ProbeSample.shelf item) = Ok tt ->
            query (resource ProbeSample.shelf item) "*IDN?" = Ok answer ->
            write (resource ProbeSample.shelf item) ":KEY:FORCe" = Ok tt ->
            close (resource ProbeSample.shelf item) = Ok tt -> _)
    by (intros item answer;
        exact (proj2 (proj2 (proj2 (proj2
                 (probe_order ProbeSample.shelf item Sample.w0)))) answer)).
  split.
  { assert (Hlen : List.length (split "," (strip ("OK" ++ nl))) < 2)
      by (apply Nat.ltb_lt; reflexivity).
    exact (proj1 (Hlab Sample.mute ("OK" ++ nl)
                    eq_refl eq_refl eq_refl eq_refl) Hlen). }
  split.
  { assert (Hlen : 2 <= List.length
                          (split "," (strip ("RIGOL TECHNOLOGIES,DS1054Z,DS1ZA1,00.04.04"
                                             ++ nl))))
      by (apply Nat.leb_le; reflexivity).
    rewrite (proj1 (proj2 (Hlab Sample.rigol
                             ("RIGOL TECHNOLOGIES,DS1054Z,DS1ZA1,00.04.04" ++ nl)
                             eq_refl eq_refl eq_refl eq_refl))
               Hlen eq_refl).
    reflexivity. }
  split.
  { assert (Hlen : 2 <= List.length (split "," (strip "ALPHA,A1,1,2")))
      by (apply Nat.leb_le; reflexivity).
    rewrite (proj1 (proj2 (proj2 (Hshelf ProbeSample.alpha "ALPHA,A1,1,2"
                                    eq_refl eq_refl eq_refl eq_refl)))
               (Exn ValueError "Expecting value: line 1 column 1 (char 0)")
               Hlen eq_refl eq_refl).
    reflexivity. }
  split.
  { assert (Hlen : 2 <= List.length (split "," (strip "BETA,B1,1,2")))
      by (apply Nat.leb_le; reflexivity).
    rewrite (proj1 (proj2 (proj2 (proj2 (Hshelf ProbeSample.beta "BETA,B1,1,2"
                                           eq_refl eq_refl eq_refl eq_refl))))
               "list" Hlen eq_refl eq_refl).
    reflexivity. }
  split.
  { assert (Hlen : 2 <= List.length (split "," (strip ("ACME,X1" ++ nl))))
      by (apply Nat.leb_le; reflexivity).
    assert (Hshort : List.length (split "," (strip ("ACME,X1" ++ nl))) < 4)
      by (apply Nat.ltb_lt; reflexivity).
    rewrite (proj1 (proj2 (proj2 (proj2 (proj2 (Hlab Sample.bare
                                                  ("ACME,X1" ++ nl)
                                                  eq_refl eq_refl eq_refl eq_refl))))
                      _ Hlen eq_refl eq_refl) Hshort).
    split; reflexivity. }
  assert (Hlen : 2 <= List.length
                        (split "," (strip ("TEKTRONIX,TDS 210,0,CF:91.1CT FV:v1.16"
                                           ++ nl))))
    by (apply Nat.leb_le; reflexivity).
  assert (Hfour : 4 <= List.length
                         (split "," (strip ("TEKTRONIX,TDS 210,0,CF:91.1CT FV:v1.16"
                                            ++ nl))))
    by (apply Nat.leb_le; reflexivity).
  rewrite (proj2 (proj2 (proj2 (proj2 (proj2 (Hlab Sample.tek
                     ("TEKTRONIX,TDS 210,0,CF:91.1CT FV:v1.16" ++ nl)
                     eq_refl eq_refl eq_refl eq_refl))))
                   _ Hlen eq_refl eq_refl) Hfour).
  split; reflexivity.
Defined.

(** C6 on the sample: the resource that cannot be opened comes first, the
    scope after it still gets its button. *)
Lemma find_inst_isolates_failures_witness :
  list_resources Sample.lab
  = Ok [Sample.dead; Sample.tek; Sample.rigol; Sample.bare; Sample.mute]
  /\ probe_result Sample.lab Sample.dead
     = Raise (Exn OtherException "VI_ERROR_RSRC_NFOUND")
  /\ snd (find_inst Sample.lab Sample.w0) = Ok tt
  /\ In (Print "Exception: VI_ERROR_RSRC_NFOUND")
        (trace (fst (find_inst Sample.lab Sample.w0)))
  /\ In (Button ("TEKTRONIX TDS 210" ++ nl ++ "S/N: 0" ++ nl
                 ++ "Ver: CF:91.1CT FV:v1.16") Sample.tek)
        (inst_button_container (fst (find_inst Sample.lab Sample.w0))).
Proof.
  assert (Hl : list_resources Sample.lab
               = Ok [Sample.dead; Sample.tek; Sample.rigol; Sample.bare;
                     Sample.mute]) by reflexivity.
  assert (Hd : probe_result Sample.lab Sample.dead
               = Raise (Exn OtherException "VI_ERROR_RSRC_NFOUND"))
    by reflexivity.
  destruct (find_inst_isolates_failures Sample.lab _ Sample.w0 Hl)
    as (Hr & _ & _ & Hfail & Hsucc).
  split; [exact Hl|]. split; [exact Hd|]. split; [exact Hr|].
  split.
  - exact (proj1 (Hfail Sample.dead _ (or_introl eq_refl) Hd)).
  - apply (Hsucc Sample.tek).
    + right. left. reflexivity.
    + vm_compute. left. reflexivity.
Defined.

(** C8 on the sample: the scope without a configuration file. *)
Lemma missing_config_is_skipped_witness :
  path_exists Sample.lab "RIGOL_TECHNOLOGIES_DS1054Z.json" = false
  /\ snd (probe Sample.lab Sample.rigol Sample.w0) = Ok tt
  /\ inst_button_container (fst (probe_guarded Sample.lab Sample.rigol Sample.w0))
     = []
  /\ In (Print "Configuration file RIGOL_TECHNOLOGIES_DS1054Z.json not found.")
        (trace (fst (probe_guarded Sample.lab Sample.rigol Sample.w0))).
Proof.
  assert (He : path_exists Sample.lab "RIGOL_TECHNOLOGIES_DS1054Z.json" = false)
    by reflexivity.
  destruct (missing_config_is_skipped Sample.lab Sample.rigol
              ("RIGOL TECHNOLOGIES,DS1054Z,DS1ZA1,00.04.04" ++ nl)
              eq_refl eq_refl eq_refl eq_refl
              "RIGOL_TECHNOLOGIES" "DS1054Z" ["DS1ZA1"; "00.04.04"]
              [Sample.bare] Sample.w0 eq_refl He)
    as (Hp & _ & Hb & Ht & _).
  split; [exact He|]. split; [exact Hp|]. split; [exact Hb|].
  rewrite Ht. simpl. tauto.
Defined.

(** C10 on the sample: the device with two identity fields, whose
    configuration file exists, and the device that answers one word. *)
Lemma short_identity_is_skipped_witness :
  (List.length (split "," (strip ("ACME,X1" ++ nl))) < 4
   /\ path_exists Sample.lab "ACME_X1.json" = true
   /\ inst_button_container (fst (probe_guarded Sample.lab Sample.bare Sample.w0))
      = []
   /\ In (JsonLoad "ACME_X1.json")
         (trace (fst (probe_guarded Sample.lab Sample.bare Sample.w0)))
   /\ In (Print "Exception: list index out of range")
         (trace (fst (probe_guarded Sample.lab Sample.bare Sample.w0))))
  /\ (List.length (split "," (strip ("OK" ++ nl))) < 2
      /\ trace (fst (probe_guarded Sample.lab Sample.mute Sample.w0))
         = [OpenResource Sample.mute; Query Sample.mute "*IDN?";
            Write Sample.mute ":KEY:FORCe"; Close Sample.mute;
            Print "Exception: list index out of range"]).
Proof.
  split.
  - assert (Hlen : List.length (split "," (strip ("ACME,X1" ++ nl))) < 4)
      by (vm_compute; lia).
    assert (He : path_exists Sample.lab "ACME_X1.json" = true) by reflexivity.
    destruct (short_identity_is_skipped Sample.lab Sample.bare
                ("ACME,X1" ++ nl) eq_refl eq_refl eq_refl eq_refl
                Sample.w0 Hlen) as (_ & Hb & Hfile & _).
    destruct (Hfile "ACME" "X1" [] _ eq_refl He eq_refl) as (_ & Hj & Hx).
    split; [exact Hlen|]. split; [exact He|]. split; [exact Hb|].
    split; [exact Hj | exact Hx].
  - assert (Hlen4 : List.length (split "," (strip ("OK" ++ nl))) < 4)
      by (vm_compute; lia).
    assert (Hlen2 : List.length (split "," (strip ("OK" ++ nl))) < 2)
      by (vm_compute; lia).
    destruct (short_identity_is_skipped Sample.lab Sample.mute
                ("OK" ++ nl) eq_refl eq_refl eq_refl eq_refl
                Sample.w0 Hlen4) as (_ & _ & _ & Hone).
    split; [exact Hlen2 | exact (proj2 (Hone Hlen2))].
Defined.

End SampleFacts.


(* ================================================================== *)
(** * More on the table and the importer                                  *)
(* ================================================================== *)

Section MoreTableFacts.
Import Py Qt Calimate Spec.

Variable item_lt : string -> string -> bool.
Variable format_n : nat -> string.
Variable size_hint : list (option QTableWidgetItem) -> nat.
Variable default_height : nat.

Lemma add_data_to_table_enabled row_data adj w :
  sortingEnabled
    (data_table (add_data_to_table item_lt size_hint default_height
                   row_data adj w)) = true.
Proof.
  unfold add_data_to_table.
  destruct (scan_msg row_data _) as [msg w1].
  destruct (fold_left _ (enumerate row_data) _) as [w2 h2].
  destruct adj; reflexivity.
Qed.

(** X1 -- [add_data_to_table] touches the table and [messages_count]
    only: the detail pane, the status bar, the buttons, the file name, the
    trace and [invalid_packet_count] are as before; the table has one row
    more; [messages_count] grows by the number of fields equal to "Msg",
    so a record with two such fields counts twice. *)
Theorem add_data_to_table_frame row_data adj w :
  let w' := add_data_to_table item_lt size_hint default_height row_data adj w in
  inst_textbox w' = inst_textbox w
  /\ status_bar w' = status_bar w
  /\ inst_button_container w' = inst_button_container w
  /\ csv_file_name w' = csv_file_name w
  /\ trace w' = trace w
  /\ invalid_packet_count w' = invalid_packet_count w
  /\ messages_count w' = messages_count w + msg_fields row_data
  /\ rowCount (data_table w') = S (rowCount (data_table w)).
Proof.
  intros w'.
  destruct (add_data_to_table_spec item_lt size_hint default_height
              row_data adj w) as (t' & E & R & _).
  unfold w'. rewrite E. cbn.
  repeat (split; [reflexivity|]).
  unfold rowCount. rewrite R, sort_rows_length, length_app. simpl. lia.
Qed.

Lemma load_view recs : forall w0,
  let t := data_table
             (fold_left
                (fun w row => add_data_to_table item_lt size_hint
                                default_height row false w) recs w0) in
  sortIndicatorSection t = sortIndicatorSection (data_table w0)
  /\ sortIndicatorOrder t = sortIndicatorOrder (data_table w0)
  /\ sortingEnabled t = match recs with
                        | [] => sortingEnabled (data_table w0)
                        | _ :: _ => true
                        end.
Proof.
  induction recs as [|r recs IH]; intros w0; cbn [fold_left].
  - repeat split.
  - destruct (IH (add_data_to_table item_lt size_hint default_height r false w0))
      as (Hs & Ho & He).
    destruct (add_data_to_table_spec item_lt size_hint default_height r false w0)
      as (t1 & E1 & _ & S1 & O1).
    pose proof (add_data_to_table_enabled r false w0) as En.
    cbv zeta. rewrite Hs, Ho, He. rewrite E1 in *. cbn in *.
    rewrite S1, O1. repeat split; try reflexivity.
    destruct recs; [exact En | reflexivity].
Qed.

Lemma unselected_rows rs : forall k,
  Forall (fun r => selected r = false) rs -> selectedRows_from k rs = [].
Proof.
  induction rs as [|r rs IH]; intros k H; [reflexivity|].
  inversion H as [|? ? Hr Hrs]; subst. simpl. rewrite Hr. apply IH, Hrs.
Qed.

Lemma new_rows_unselected recs rs :
  Permutation rs (map new_row recs) ->
  Forall (fun r => selected r = false) rs.
Proof.
  intros P. eapply Permutation_Forall; [apply Permutation_sym, P|].
  apply Forall_forall. intros r Hr. apply in_map_iff in Hr.
  destruct Hr as (d & <- & _). reflexivity.
Qed.

(** The table after a successful import, beyond its rows. *)
Lemma import_success_view fileName recs ln w :
  fileName <> "" ->
  let t' := data_table
              (fst (import_table_from_csv item_lt format_n size_hint
                      default_height fileName
                      (Ok (MkReader recs None ln)) w)) in
  sortingEnabled t' = true
  /\ sortIndicatorSection t' = 0
  /\ sortIndicatorOrder t' = AscendingOrder.
Proof.
  intros Hname. destruct fileName as [|a f]; [congruence|].
  unfold import_table_from_csv, try_except, import_try.
  unfold bind, run, outcome, get_window, ret. cbn [records stop line_num].
  rewrite for_each_run. cbn. repeat split.
Qed.

(** The table after an import whose reader raises. *)
Lemma import_read_failure_view fileName recs e ln w :
  fileName <> "" ->
  let t' := data_table
              (fst (import_table_from_csv item_lt format_n size_hint
                      default_height fileName
                      (Ok (MkReader recs (Some e) ln)) w)) in
  sortIndicatorSection t' = sortIndicatorSection (data_table w)
  /\ sortIndicatorOrder t' = sortIndicatorOrder (data_table w)
  /\ sortingEnabled t' = match recs with [] => false | _ :: _ => true end.
Proof.
  intros Hname. destruct fileName as [|a f]; [congruence|].
  unfold import_table_from_csv, try_except, import_try.
  unfold bind, run, outcome, get_window, ret. cbn [records stop line_num].
  rewrite for_each_run.
  match goal with
  | |- context [fold_left _ recs ?w0] =>
      pose proof (load_view recs w0) as (Hs & Ho & He);
      set (w1 := fold_left _ recs w0) in *
  end.
  assert (Ht : forall t, t = data_table w1 ->
            sortIndicatorSection t = sortIndicatorSection (data_table w)
            /\ sortIndicatorOrder t = sortIndicatorOrder (data_table w)
            /\ sortingEnabled t
               = match recs with [] => false | _ :: _ => true end).
  { intros t ->. rewrite Hs, Ho, He. destruct recs; repeat split. }
  clearbody w1.
  destruct e as [cls msg]; destruct cls; apply Ht; reflexivity.
Qed.

End MoreTableFacts.

Section MoreImportFacts.
Import Py Qt Calimate Spec.

Variable item_lt : string -> string -> bool.
Variable format_n : nat -> string.
Variable size_hint : list (option QTableWidgetItem) -> nat.
Variable default_height : nat.

(** X4 -- What an import leaves of the sorting state.  A successful
    import leaves sorting enabled and the sort indicator on column 0,
    ascending.  A reader that raises before its first record leaves the
    table empty with sorting switched off (the handler switched it off
    for the loop and the [except] clauses do not switch it on again); one
    that raises after a record leaves sorting enabled, by the last
    [add_data_to_table].  In both failing cases the sort indicator is the
    one the header had before. *)
Theorem import_sorting_state fileName w :
  fileName <> "" ->
  (forall recs ln,
     let t' := data_table
                 (fst (import_table_from_csv item_lt format_n size_hint
                         default_height fileName
                         (Ok (MkReader recs None ln)) w)) in
     sortingEnabled t' = true
     /\ sortIndicatorSection t' = 0
     /\ sortIndicatorOrder t' = AscendingOrder)
  /\ (forall e ln,
        let t' := data_table
                    (fst (import_table_from_csv item_lt format_n size_hint
                            default_height fileName
                            (Ok (MkReader [] (Some e) ln)) w)) in
        rows t' = []
        /\ sortingEnabled t' = false
        /\ sortIndicatorSection t' = sortIndicatorSection (data_table w)
        /\ sortIndicatorOrder t' = sortIndicatorOrder (data_table w))
  /\ (forall r recs e ln,
        let t' := data_table
                    (fst (import_table_from_csv item_lt format_n size_hint
                            default_height fileName
                            (Ok (MkReader (r :: recs) (Some e) ln)) w)) in
        sortingEnabled t' = true
        /\ sortIndicatorSection t' = sortIndicatorSection (data_table w)
        /\ sortIndicatorOrder t' = sortIndicatorOrder (data_table w)).
Proof.
  intros Hname. split; [|split].
  - intros recs ln.
    exact (import_success_view item_lt format_n size_hint default_height
             fileName recs ln w Hname).
  - intros e ln t'.
    destruct (import_read_failure_view item_lt format_n size_hint
                default_height fileName [] e ln w Hname) as (Hs & Ho & He).
    destruct (import_read_failure item_lt format_n size_hint default_height
                fileName [] e ln w Hname) as (t1 & evs & E & P).
    split; [|split; [exact He | split; [exact Hs | exact Ho]]].
    unfold t'. rewrite E. cbn [fst data_table].
    apply Permutation_sym, Permutation_nil in P. exact P.
  - intros r recs e ln t'.
    destruct (import_read_failure_view item_lt format_n size_hint
                default_height fileName (r :: recs) e ln w Hname)
      as (Hs & Ho & He).
    split; [exact He | split; [exact Hs | exact Ho]].
Qed.

(** X6 -- An import that opened the file leaves no row selected, whether
    it ends well or in an [except] clause; the selection slot, run on the
    window it leaves, changes nothing. *)
Theorem import_clears_selection fileName reader w :
  fileName <> "" ->
  let w' := fst (import_table_from_csv item_lt format_n size_hint
                   default_height fileName (Ok reader) w) in
  selectedRows (data_table w') = []
  /\ update_inst format_n w' = (w', Ok tt).
Proof.
  intros Hname w'.
  assert (Hsel : selectedRows (data_table w') = []).
  { unfold w', selectedRows. destruct reader as [recs [e|] ln].
    - destruct (import_read_failure item_lt format_n size_hint default_height
                  fileName recs e ln w Hname) as (t1 & evs & E & P).
      rewrite E. cbn [fst data_table].
      apply unselected_rows, (new_rows_unselected recs), P.
    - destruct (import_success item_lt format_n size_hint default_height
                  fileName recs ln w Hname) as (t1 & rs & E & R & P).
      rewrite E. cbn [fst data_table].
      apply unselected_rows, (new_rows_unselected recs).
      rewrite R. eapply perm_trans; [apply sort_rows_perm | exact P]. }
  split; [exact Hsel|]. apply update_inst_no_selection, Hsel.
Qed.

(** X7 -- When [open] fails the handler has already stored the new file
    name.  The table and its selection stay, so the next selection of a
    record row shows, in the status bar, the name of the file that could
    not be opened beside rows that came from another file. *)
Theorem failed_open_renames fileName e w r rest notes result :
  fileName <> "" -> exn_cls e <> CsvError ->
  selectedRows (data_table w) = r :: rest ->
  item (data_table w) r (index columns "Notes") = Some notes ->
  item (data_table w) r (index columns "Result") = Some result ->
  contains "Msg" (text result) = false ->
  let w1 := fst (import_table_from_csv item_lt format_n size_hint
                   default_height fileName (Raise e) w) in
  data_table w1 = data_table w
  /\ csv_file_name w1 = Some (basename fileName)
  /\ status_bar (fst (update_inst format_n w1))
     = "File: '" ++ basename fileName ++ "', Selected record: "
       ++ format_n (r + 1) ++ " of "
       ++ format_n (rowCount (data_table w)) ++ ".".
Proof.
  intros Hname Hcls Hsel Hn Hr Hc w1.
  destruct (import_open_failure item_lt format_n size_hint default_height
              fileName e w Hname Hcls) as (evs & E).
  assert (Ht : data_table w1 = data_table w) by (unfold w1; now rewrite E).
  assert (Hf : csv_file_name w1 = Some (basename fileName))
    by (unfold w1; now rewrite E).
  split; [exact Ht|]. split; [exact Hf|].
  rewrite (update_inst_record format_n w1 r rest notes result).
  - cbn [fst status_bar showMessage]. unfold str_csv_file_name.
    now rewrite Hf, Ht.
  - now rewrite Ht.
  - now rewrite Ht.
  - now rewrite Ht.
  - exact Hc.
Qed.

(** X15 -- No import touches the instrument panel.  A cancelled dialog
    (empty file name) changes nothing at all, and a successful import
    prints nothing on the console. *)
Theorem import_leaves_panel fileName file w :
  let out := import_table_from_csv item_lt format_n size_hint default_height
               fileName file w in
  inst_button_container (fst out) = inst_button_container w
  /\ (fileName = "" -> out = (w, Ok tt))
  /\ (forall recs ln,
        fileName <> "" -> file = Ok (MkReader recs None ln) ->
        trace (fst out) = trace w).
Proof.
  intros out. split; [|split].
  - unfold out. destruct fileName as [|a f]; [reflexivity|].
    assert (Hname : String a f <> "") by discriminate.
    destruct file as [[recs [e|] ln]|e].
    + destruct (import_read_failure item_lt format_n size_hint default_height
                  (String a f) recs e ln w Hname) as (t1 & evs & E & _).
      now rewrite E.
    + destruct (import_success item_lt format_n size_hint default_height
                  (String a f) recs ln w Hname) as (t1 & rs & E & _).
      now rewrite E.
    + destruct e as [cls msg]. destruct cls; reflexivity.
  - intros ->. reflexivity.
  - intros recs ln Hname ->.
    destruct (import_success item_lt format_n size_hint default_height
                fileName recs ln w Hname) as (t1 & rs & E & _).
    unfold out. now rewrite E.
Qed.

(** X16 -- After a reader failure the counters describe the part that was
    loaded: [invalid_packet_count] is zero and [messages_count] counts the
    "Msg" fields of the records read before the failure.  After a failing
    [open] both counters are the old ones. *)
Theorem import_failure_counters fileName w :
  fileName <> "" ->
  (forall recs e ln,
     let w' := fst (import_table_from_csv item_lt format_n size_hint
                      default_height fileName
                      (Ok (MkReader recs (Some e) ln)) w) in
     invalid_packet_count w' = 0 /\ messages_count w' = msg_total recs)
  /\ (forall e, exn_cls e <> CsvError ->
        let w' := fst (import_table_from_csv item_lt format_n size_hint
                         default_height fileName (Raise e) w) in
        invalid_packet_count w' = invalid_packet_count w
        /\ messages_count w' = messages_count w).
Proof.
  intros Hname. split.
  - intros recs e ln w'.
    destruct (import_read_failure item_lt format_n size_hint default_height
                fileName recs e ln w Hname) as (t1 & evs & E & _).
    unfold w'. rewrite E. split; reflexivity.
  - intros e Hcls w'.
    destruct (import_open_failure item_lt format_n size_hint default_height
                fileName e w Hname Hcls) as (evs & E).
    unfold w'. rewrite E. split; reflexivity.
Qed.

(** The comparison of item texts is a strict weak order. *)
Hypothesis item_lt_asym :
  forall a b, item_lt a b = true -> item_lt b a = false.
Hypothesis item_lt_negtrans :
  forall a b c, item_lt b a = false -> item_lt c b = false ->
                item_lt c a = false.

(** X2 -- [add_data_to_table] ends with sorting enabled and the sort
    indicator where it was, and leaves the whole table, the new row
    included, in the order of that indicator -- whether or not the table
    was in order before. *)
Theorem add_data_to_table_keeps_order row_data adj w :
  let t := data_table w in
  let t' := data_table (add_data_to_table item_lt size_hint default_height
                          row_data adj w) in
  sortingEnabled t' = true
  /\ sortIndicatorSection t' = sortIndicatorSection t
  /\ sortIndicatorOrder t' = sortIndicatorOrder t
  /\ StronglySorted
       (row_le item_lt (sortIndicatorSection t) (sortIndicatorOrder t))
       (rows t').
Proof.
  intros t t'.
  pose proof (add_data_to_table_enabled item_lt size_hint default_height
                row_data adj w) as En.
  destruct (add_data_to_table_spec item_lt size_hint default_height
              row_data adj w) as (t1 & E & R & S1 & O1).
  unfold t', t. rewrite E in *. cbn [data_table with_counters with_data_table] in *.
  split; [exact En|]. split; [exact S1|]. split; [exact O1|].
  rewrite R. apply sort_rows_sorted; assumption.
Qed.

(** X5 -- A row added after a successful import goes to its place: the
    table then holds the rows of the file's records and of the new
    record, in ascending order of the first column. *)
Theorem import_then_add_sorted fileName recs ln w row_data adj :
  fileName <> "" ->
  let w1 := fst (import_table_from_csv item_lt format_n size_hint
                   default_height fileName
                   (Ok (MkReader recs None ln)) w) in
  let w2 := add_data_to_table item_lt size_hint default_height
              row_data adj w1 in
  StronglySorted (row_le item_lt 0 AscendingOrder) (rows (data_table w2))
  /\ Permutation (rows (data_table w2)) (map new_row (recs ++ [row_data])).
Proof.
  intros Hname w1 w2.
  destruct (import_success_view item_lt format_n size_hint default_height
              fileName recs ln w Hname) as (_ & Hs & Ho).
  destruct (import_success item_lt format_n size_hint default_height
              fileName recs ln w Hname) as (t1 & rs & E & R1 & P1).
  destruct (add_data_to_table_spec item_lt size_hint default_height
              row_data adj w1) as (t2 & E2 & R2 & _).
  fold w1 in Hs, Ho. unfold w2. rewrite E2.
  cbn [data_table with_counters with_data_table].
  rewrite R2, Hs, Ho. split.
  - apply sort_rows_sorted; assumption.
  - eapply perm_trans; [apply sort_rows_perm|].
    rewrite map_app. apply Permutation_app_tail.
    unfold w1. rewrite E. cbn [fst data_table]. rewrite R1.
    eapply perm_trans; [apply sort_rows_perm | exact P1].
Qed.

End MoreImportFacts.

Section MoreSelectionFacts.
Import Py Qt Calimate Spec.

Variable format_n : nat -> string.
Variable size_hint : list (option QTableWidgetItem) -> nat.

Lemma resize_each l : forall w,
  List.length (rowHeights (data_table w)) = List.length (rows (data_table w)) ->
  let w' := fold_left
              (fun w row => on_table (resizeRowToContents size_hint row) w)
              l w in
  w' = with_data_table w (data_table w')
  /\ rows (data_table w') = rows (data_table w)
  /\ List.length (rowHeights (data_table w'))
     = List.length (rows (data_table w))
  /\ forall i r,
       nth_error (rows (data_table w)) i = Some r ->
       nth i (rowHeights (data_table w')) 0
       = if existsb (Nat.eqb i) l then size_hint (cells r)
         else nth i (rowHeights (data_table w)) 0.
Proof.
  induction l as [|a l IH]; intros w Hlen; cbn [fold_left].
  - cbv zeta. split; [destruct w; reflexivity|]. repeat split; auto.
  - set (w1 := on_table (resizeRowToContents size_hint a) w).
    assert (Hrows : rows (data_table w1) = rows (data_table w)).
    { apply (resize_rows size_hint a (data_table w)). }
    assert (Hh : rowHeights (data_table w1)
                 = match nth_error (rows (data_table w)) a with
                   | Some ra => update_nth a (fun _ => size_hint (cells ra))
                                           (rowHeights (data_table w))
                   | None => rowHeights (data_table w)
                   end).
    { unfold w1, on_table, resizeRowToContents; simpl.
      destruct (nth_error (rows (data_table w)) a); reflexivity. }
    assert (Hlen1 : List.length (rowHeights (data_table w1))
                    = List.length (rows (data_table w1))).
    { rewrite Hrows, Hh.
      destruct (nth_error (rows (data_table w)) a);
        [rewrite update_nth_length|]; exact Hlen. }
    destruct (IH w1 Hlen1) as (Hw & Hr & Hl & Hn). cbv zeta.
    split; [rewrite Hw at 1; reflexivity|].
    split; [now rewrite Hr|]. split; [now rewrite Hl, Hrows|].
    intros i r Hi. rewrite (Hn i r) by now rewrite Hrows.
    cbn [existsb]. destruct (existsb (Nat.eqb i) l).
    + now rewrite orb_true_r.
    + rewrite orb_false_r, Hh.
      destruct (Nat.eqb_spec i a) as [->|Hne].
      * rewrite Hi, nth_update_nth, Nat.eqb_refl.
        replace (Nat.ltb a (List.length (rowHeights (data_table w)))) with true;
          [reflexivity|].
        symmetry. apply Nat.ltb_lt. rewrite Hlen.
        apply nth_error_Some. now rewrite Hi.
      * destruct (nth_error (rows (data_table w)) a); [|reflexivity].
        rewrite nth_update_nth.
        replace (Nat.eqb a i) with false
          by (symmetry; apply Nat.eqb_neq; congruence).
        reflexivity.
Qed.

(** X3 -- [adjust_row_heights] gives every row the height of its
    contents and changes nothing else: the rows, their order and the
    rest of the window stay. *)
Theorem adjust_row_heights_fits w :
  List.length (rowHeights (data_table w)) = rowCount (data_table w) ->
  let w' := adjust_row_heights size_hint w in
  w' = with_data_table w (data_table w')
  /\ rows (data_table w') = rows (data_table w)
  /\ forall i r,
       nth_error (rows (data_table w)) i = Some r ->
       rowHeight i (data_table w') = size_hint (cells r).
Proof.
  intros Hlen w'.
  destruct (resize_each (seq 0 (rowCount (data_table w))) w Hlen)
    as (Hw & Hr & _ & Hn).
  split; [exact Hw|]. split; [exact Hr|].
  intros i r Hi. unfold rowHeight, w', adjust_row_heights.
  rewrite (Hn i r Hi).
  replace (existsb (Nat.eqb i) (seq 0 (rowCount (data_table w)))) with true;
    [reflexivity|].
  symmetry. apply existsb_exists. exists i. split; [|apply Nat.eqb_refl].
  apply in_seq. split; [lia|]. simpl.
  apply nth_error_Some. now rewrite Hi.
Qed.

(** X8 -- [update_inst] writes to the detail pane and the status bar
    only: table, selection, buttons, counters, file name and trace are
    as before; and when it raises it has written nothing. *)
Theorem update_inst_frame w :
  let out := update_inst format_n w in
  data_table (fst out) = data_table w
  /\ inst_button_container (fst out) = inst_button_container w
  /\ invalid_packet_count (fst out) = invalid_packet_count w
  /\ messages_count (fst out) = messages_count w
  /\ csv_file_name (fst out) = csv_file_name w
  /\ trace (fst out) = trace w
  /\ (forall e, snd out = Raise e -> fst out = w).
Proof.
  intros out. unfold out.
  destruct (selectedRows (data_table w)) as [|r rest] eqn:Hsel.
  { rewrite (update_inst_no_selection format_n w Hsel).
    repeat split; try reflexivity. }
  destruct (item (data_table w) r (index columns "Notes")) as [n|] eqn:Hn.
  2:{ rewrite (update_inst_missing format_n w r rest Hsel (or_introl Hn)).
      repeat split; try reflexivity. }
  destruct (item (data_table w) r (index columns "Result")) as [d|] eqn:Hr.
  2:{ rewrite (update_inst_missing format_n w r rest Hsel (or_intror Hr)).
      repeat split; try reflexivity. }
  destruct (contains "Msg" (text d)) eqn:Hc.
  - rewrite (update_inst_message format_n w r rest n d Hsel Hn Hr Hc).
    repeat split; try reflexivity. intros e He. discriminate.
  - rewrite (update_inst_record format_n w r rest n d Hsel Hn Hr Hc).
    repeat split; try reflexivity. intros e He. discriminate.
Qed.

(** X9 -- Running the selection slot again on the window it left gives
    the same window and the same outcome: a repeated [selectionChanged]
    for the same selection shows nothing new. *)
Theorem update_inst_idempotent w :
  update_inst format_n (fst (update_inst format_n w)) = update_inst format_n w.
Proof.
  destruct (selectedRows (data_table w)) as [|r rest] eqn:Hsel.
  { rewrite (update_inst_no_selection format_n w Hsel). cbn [fst].
    exact (update_inst_no_selection format_n w Hsel). }
  destruct (item (data_table w) r (index columns "Notes")) as [n|] eqn:Hn.
  2:{ rewrite (update_inst_missing format_n w r rest Hsel (or_introl Hn)).
      cbn [fst].
      exact (update_inst_missing format_n w r rest Hsel (or_introl Hn)). }
  destruct (item (data_table w) r (index columns "Result")) as [d|] eqn:Hr.
  2:{ rewrite (update_inst_missing format_n w r rest Hsel (or_intror Hr)).
      cbn [fst].
      exact (update_inst_missing format_n w r rest Hsel (or_intror Hr)). }
  destruct (contains "Msg" (text d)) eqn:Hc.
  - rewrite (update_inst_message format_n w r rest n d Hsel Hn Hr Hc).
    cbn [fst].
    exact (update_inst_message format_n
             (setPlainText ("Message:" ++ nl ++ "- " ++ text n) w)
             r rest n d Hsel Hn Hr Hc).
  - rewrite (update_inst_record format_n w r rest n d Hsel Hn Hr Hc).
    cbn [fst].
    match goal with
    | |- update_inst format_n ?w1 = _ =>
        exact (update_inst_record format_n w1 r rest n d Hsel Hn Hr Hc)
    end.
Qed.

(** X10 -- The two tests for a message row differ.  For a selected row
    built from a record with Result and Notes fields, the detail pane
    shows the "Message:" block exactly when the Result field contains
    "Msg", while the Result cell carries the message colour exactly when
    some field of the record equals "Msg".  They agree when the Result
    field is "Msg" itself. *)
Theorem highlight_and_display row_data res notes w i rest row :
  nth_error row_data 1 = Some res ->
  nth_error row_data 2 = Some notes ->
  nth_error (rows (data_table w)) i = Some row ->
  cells row = row_cells row_data ->
  selectedRows (data_table w) = i :: rest ->
  snd (update_inst format_n w) = Ok tt
  /\ inst_textbox (fst (update_inst format_n w))
     = (if contains "Msg" res then "Message:" ++ nl ++ "- " ++ notes
        else notes)
  /\ (option_map background (item (data_table w) i (index columns "Result"))
      = Some (Some indigo) <-> In "Msg" row_data)
  /\ (res = "Msg" -> In "Msg" row_data /\ contains "Msg" res = true).
Proof.
  intros Hres Hnotes Hrow Hcells Hsel.
  assert (Hr : item (data_table w) i (index columns "Result")
               = Some (styled (is_msg_row row_data) 1 res)).
  { unfold item. rewrite Hrow, Hcells, row_cells_nth.
    change (index columns "Result") with 1. now rewrite Hres. }
  assert (Hn : item (data_table w) i (index columns "Notes")
               = Some (styled (is_msg_row row_data) 2 notes)).
  { unfold item. rewrite Hrow, Hcells, row_cells_nth.
    change (index columns "Notes") with 2. now rewrite Hnotes. }
  assert (Htr : text (styled (is_msg_row row_data) 1 res) = res).
  { rewrite styled_spec by lia. reflexivity. }
  assert (Htn : text (styled (is_msg_row row_data) 2 notes) = notes).
  { rewrite styled_spec by lia. reflexivity. }
  split; [|split; [|split]].
  - destruct (contains "Msg" res) eqn:Hc.
    + rewrite (update_inst_message format_n w i rest _ _ Hsel Hn Hr);
        [reflexivity | now rewrite Htr].
    + rewrite (update_inst_record format_n w i rest _ _ Hsel Hn Hr);
        [reflexivity | now rewrite Htr].
  - destruct (contains "Msg" res) eqn:Hc.
    + rewrite (update_inst_message format_n w i rest _ _ Hsel Hn Hr);
        [|now rewrite Htr].
      cbn [fst inst_textbox setPlainText]. now rewrite Htn.
    + rewrite (update_inst_record format_n w i rest _ _ Hsel Hn Hr);
        [|now rewrite Htr].
      cbn [fst inst_textbox setPlainText showMessage]. exact Htn.
  - rewrite Hr, <- is_msg_row_In, styled_spec by lia.
    cbn [option_map background]. unfold spec_highlight.
    destruct (is_msg_row row_data); cbn.
    + split; reflexivity.
    + destruct (String.eqb res "Pass"); [|destruct (String.eqb res "Fail")];
        split; discriminate.
  - intros ->. split; [|reflexivity].
    apply (nth_error_In row_data 1 Hres).
Qed.

End MoreSelectionFacts.

(* ================================================================== *)
(** * More on discovery                                                   *)
(* ================================================================== *)

Section MoreDiscoveryFacts.
Import Py Qt Calimate Spec Callbacks.

Ltac run_probe :=
  cbv beta iota zeta delta [probe call bind run outcome addWidget].

Ltac find_path :=
  intros Hp;
  repeat match goal with
         | H : _ \/ _ |- _ => destruct H as [H|H]
         | H : False |- _ => contradiction
         | H : PathExists _ = PathExists _ |- _ =>
             injection H as H; symmetry; exact H
         | H : JsonLoad _ = JsonLoad _ |- _ =>
             injection H as H; symmetry; exact H
         | H : _ = _ |- _ => discriminate H
         end.

(** X11 -- [find_inst] ends with an exception exactly when enumerating
    the resources does; the buttons of the previous scan are removed
    before that, so the panel is then empty and nothing was printed. *)
Theorem find_inst_fails_only_on_enumeration W w :
  (forall e, snd (find_inst W w) = Raise e <-> list_resources W = Raise e)
  /\ (forall e, list_resources W = Raise e ->
        fst (find_inst W w) = with_buttons w []).
Proof.
  unfold find_inst, bind, run, outcome.
  destruct (list_resources W) as [addrs|e0].
  - rewrite scan_frame. cbn [fst snd].
    split; [intros e; split; discriminate | intros e; discriminate].
  - cbn [fst snd]. split.
    + intros e. split; intros H; injection H as ->; reflexivity.
    + intros e _. reflexivity.
Qed.

(** X12 -- The connection of an instrument is closed only on the way
    through the whole exchange: [close] is called exactly when opening,
    the identity query and the unlock command all succeeded.  An
    instrument that was opened and then fails to answer is left open. *)
Theorem close_attempted_iff W item :
  In (Close item) (probe_events W item)
  <-> ((exists u, open_resource (resource W item) = Ok u)
       /\ (exists a, query (resource W item) "*IDN?" = Ok a)
       /\ (exists u, write (resource W item) ":KEY:FORCe" = Ok u)).
Proof.
  unfold probe_events. run_probe.
  destruct (open_resource (resource W item)) as [u1|e1]; cbv beta iota.
  2:{ split.
      - simpl. intros [H|[]]. discriminate.
      - intros ((u & H) & _). discriminate. }
  destruct (query (resource W item) "*IDN?") as [a|e2]; cbv beta iota.
  2:{ split.
      - simpl. intros [H|[H|[]]]; discriminate.
      - intros (_ & (u & H) & _). discriminate. }
  destruct (write (resource W item) ":KEY:FORCe") as [u3|e3]; cbv beta iota.
  2:{ split.
      - simpl. intros [H|[H|[H|[]]]]; discriminate.
      - intros (_ & _ & (u & H)). discriminate. }
  split; [intros _; repeat split; eexists; reflexivity|]. intros _.
  destruct (close (resource W item)); cbv beta iota; [|simpl; tauto].
  destruct (getitem _ 0); cbv beta iota; [|simpl; tauto].
  destruct (getitem _ 1); cbv beta iota; [|simpl; tauto].
  destruct (path_exists W _); cbv beta iota; [|simpl; tauto].
  destruct (json_load W _) as [data|]; cbv beta iota; [|simpl; tauto].
  destruct (get data "connect"); cbv beta iota; [|simpl; tauto].
  destruct (get data "id"); cbv beta iota; [|simpl; tauto].
  destruct (get data "close"); cbv beta iota; [|simpl; tauto].
  destruct (getitem _ 0); cbv beta iota; [|simpl; tauto].
  destruct (getitem _ 1); cbv beta iota; [|simpl; tauto].
  destruct (getitem _ 2); cbv beta iota; [|simpl; tauto].
  destruct (getitem _ 3); cbv beta iota; simpl; tauto.
Qed.

Lemma chars_app a b : chars (a ++ b) = (chars a ++ chars b)%list.
Proof. induction a as [|c a IH]; simpl; [reflexivity | now rewrite IH]. Qed.

Lemma replace_chars old new s c :
  In c (chars (replace old new s)) ->
  (In c (chars s) /\ c <> old) \/ In c (chars new).
Proof.
  induction s as [|a s IH]; simpl; [tauto|].
  destruct (Ascii.eqb_spec a old) as [->|Hne].
  - rewrite chars_app. intros H. apply in_app_or in H.
    destruct H as [H|H]; [now right|].
    destruct (IH H) as [[H1 H2]|H1]; [left; split; [right|]; assumption | now right].
  - simpl. intros [<-|H].
    + left. split; [now left | exact Hne].
    + destruct (IH H) as [[H1 H2]|H1]; [left; split; [right|]; assumption | now right].
Qed.

Lemma split_field_chars sep s : forall f c,
  In f (split sep s) -> In c (chars f) -> In c (chars s) /\ c <> sep.
Proof.
  induction s as [|a s IH]; intros f c Hf Hc.
  - simpl in Hf. destruct Hf as [<-|[]]. contradiction.
  - simpl in Hf. destruct (Ascii.eqb_spec a sep) as [->|Hne].
    + destruct Hf as [<-|Hf]; [contradiction|].
      destruct (IH f c Hf Hc). split; [right|]; assumption.
    + destruct (split sep s) as [|f0 fs] eqn:E.
      * destruct Hf as [<-|[]]. simpl in Hc. destruct Hc as [<-|[]].
        split; [now left | exact Hne].
      * destruct Hf as [<-|Hf].
        -- simpl in Hc. destruct Hc as [<-|Hc].
           ++ split; [now left | exact Hne].
           ++ destruct (IH f0 c (or_introl eq_refl) Hc).
              split; [right|]; assumption.
        -- destruct (IH f c (or_intror Hf) Hc). split; [right|]; assumption.
Qed.

Lemma filename_field_chars s f c :
  In f (split "," (replace ":" "" (replace " " "_" s))) ->
  In c (chars f) ->
  c <> " "%char /\ c <> ":"%char /\ c <> ","%char.
Proof.
  intros Hf Hc.
  destruct (split_field_chars _ _ f c Hf Hc) as (H2 & Hcomma).
  apply replace_chars in H2. destruct H2 as [[H1 Hcolon]|[]].
  apply replace_chars in H1. destruct H1 as [[_ Hblank]|H1].
  - auto.
  - simpl in H1. destruct H1 as [<-|[]].
    repeat split; discriminate.
Qed.

Lemma filename_chars s fn0 fn1 fns c :
  split "," (replace ":" "" (replace " " "_" s)) = fn0 :: fn1 :: fns ->
  In c (chars (fn0 ++ "_" ++ fn1 ++ ".json")) ->
  c <> " "%char /\ c <> ":"%char /\ c <> ","%char.
Proof.
  intros Hs Hc. rewrite !chars_app in Hc.
  apply in_app_or in Hc. destruct Hc as [Hc|Hc].
  { apply (filename_field_chars s fn0 c); [rewrite Hs; now left | exact Hc]. }
  apply in_app_or in Hc. destruct Hc as [Hc|Hc].
  { simpl in Hc. destruct Hc as [<-|[]]. repeat split; discriminate. }
  apply in_app_or in Hc. destruct Hc as [Hc|Hc].
  { apply (filename_field_chars s fn1 c); [rewrite Hs; right; now left | exact Hc]. }
  simpl in Hc.
  repeat (destruct Hc as [<-|Hc]; [repeat split; discriminate|]).
  contradiction.
Qed.

(** X14 -- The path discovery looks up, and the path it loads, never
    holds a blank, a colon or a comma, whatever the instrument answered:
    blanks of the identity became underscores, colons were dropped and
    the commas separated the fields. *)
Theorem config_path_sanitised W item p c :
  In (PathExists p) (probe_events W item)
  \/ In (JsonLoad p) (probe_events W item) ->
  In c (chars p) ->
  c <> " "%char /\ c <> ":"%char /\ c <> ","%char.
Proof.
  unfold probe_events. run_probe.
  destruct (open_resource (resource W item)) as [u1|e1]; cbv beta iota.
  2:{ simpl. intros [[H|[]]|[H|[]]]; discriminate. }
  destruct (query (resource W item) "*IDN?") as [a|e2]; cbv beta iota.
  2:{ simpl. intros [[H|[H|[]]]|[H|[H|[]]]]; discriminate. }
  destruct (write (resource W item) ":KEY:FORCe") as [u3|e3]; cbv beta iota.
  2:{ simpl. intros [[H|[H|[H|[]]]]|[H|[H|[H|[]]]]]; discriminate. }
  destruct (close (resource W item)) as [u4|e4]; cbv beta iota.
  2:{ simpl. intros [[H|[H|[H|[H|[]]]]]|[H|[H|[H|[H|[]]]]]]; discriminate. }
  destruct (split "," (replace ":" "" (replace " " "_" (strip a))))
    as [|fn0 [|fn1 fns]] eqn:Hs; cbn [getitem nth_error].
  { simpl. intros [[H|[H|[H|[H|[]]]]]|[H|[H|[H|[H|[]]]]]]; discriminate. }
  { simpl. intros [[H|[H|[H|[H|[]]]]]|[H|[H|[H|[H|[]]]]]]; discriminate. }
  intros Hp Hc.
  assert (Hpath : p = fn0 ++ "_" ++ fn1 ++ ".json").
  { revert Hp.
    destruct (path_exists W _); cbv beta iota; [|simpl; find_path].
    destruct (json_load W _) as [data|]; cbv beta iota; [|simpl; find_path].
    destruct (get data "connect"); cbv beta iota; [|simpl; find_path].
    destruct (get data "id"); cbv beta iota; [|simpl; find_path].
    destruct (get data "close"); cbv beta iota; [|simpl; find_path].
    destruct (getitem _ 0); cbv beta iota; [|simpl; find_path].
    destruct (getitem _ 1); cbv beta iota; [|simpl; find_path].
    destruct (getitem _ 2); cbv beta iota; [|simpl; find_path].
    destruct (getitem _ 3); cbv beta iota; simpl; find_path. }
  subst p. exact (filename_chars (strip a) fn0 fn1 fns c Hs Hc).
Qed.

End MoreDiscoveryFacts.

Section CallbackFacts.
Import Py Qt Calimate Spec Callbacks.

Ltac run_probe :=
  cbv beta iota zeta delta [probe call bind run outcome addWidget].

Lemma probe_locals_inst_id W item l u answer :
  open_resource (resource W item) = Ok u ->
  query (resource W item) "*IDN?" = Ok answer ->
  inst_id (probe_locals W item l) = Some (strip answer).
Proof.
  intros Ho Hq. unfold probe_locals. rewrite Ho, Hq. cbv beta iota zeta.
  destruct (write (resource W item) ":KEY:FORCe"); [|reflexivity].
  destruct (close (resource W item)); [|reflexivity].
  destruct (getitem _ 0); [|reflexivity].
  destruct (getitem _ 1); [|reflexivity].
  destruct (path_exists W _); [|reflexivity].
  destruct (json_load W _) as [data|]; [|reflexivity].
  destruct (get data "connect"); [|reflexivity].
  destruct (get data "id"); [|reflexivity].
  destruct (get data "close"); reflexivity.
Qed.

Lemma probe_locals_keeps W item l :
  cmds_bound l -> cmds_bound (probe_locals W item l).
Proof.
  intros (c & i & k & Hc & Hi & Hk). unfold probe_locals, cmds_bound.
  cbv beta iota zeta.
  assert (Hl : forall l', connect_cmd l' = connect_cmd l ->
                          id_cmd l' = id_cmd l -> close_cmd l' = close_cmd l ->
                          exists c i k, connect_cmd l' = Some c
                                        /\ id_cmd l' = Some i
                                        /\ close_cmd l' = Some k).
  { intros l' -> -> ->. exists c, i, k. auto. }
  destruct (open_resource (resource W item)); [|now apply Hl].
  destruct (query (resource W item) "*IDN?"); [|now apply Hl].
  destruct (write (resource W item) ":KEY:FORCe"); [|now apply Hl].
  destruct (close (resource W item)); [|now apply Hl].
  destruct (getitem _ 0); [|now apply Hl].
  destruct (getitem _ 1); [|now apply Hl].
  destruct (path_exists W _); [|now apply Hl].
  destruct (json_load W _) as [data|]; [|now apply Hl].
  destruct (get data "connect"); [|now apply Hl].
  destruct (get data "id"); [|cbn; rewrite Hi, Hk; eauto 7].
  destruct (get data "close"); cbn; [|rewrite Hk]; eauto 7.
Qed.

(** A pass that adds a button has bound the three commands. *)
Lemma probe_button_binds W item l b :
  In b (probe_buttons W item) -> cmds_bound (probe_locals W item l).
Proof.
  unfold probe_buttons, probe_locals, cmds_bound. run_probe.
  destruct (open_resource (resource W item)); cbv beta iota zeta;
    [|intros []].
  destruct (query (resource W item) "*IDN?"); cbv beta iota zeta;
    [|intros []].
  destruct (write (resource W item) ":KEY:FORCe"); cbv beta iota zeta;
    [|intros []].
  destruct (close (resource W item)); cbv beta iota zeta; [|intros []].
  destruct (getitem _ 0); cbv beta iota zeta; [|intros []].
  destruct (getitem _ 1); cbv beta iota zeta; [|intros []].
  destruct (path_exists W _); cbv beta iota zeta; [|intros []].
  destruct (json_load W _) as [data|]; cbv beta iota zeta; [|intros []].
  destruct (get data "connect"); cbv beta iota zeta; [|intros []].
  destruct (get data "id"); cbv beta iota zeta; [|intros []].
  destruct (get data "close"); cbv beta iota zeta; [|intros []].
  intros _. cbn. do 3 eexists. repeat split; reflexivity.
Qed.

Lemma scan_locals_keeps W items : forall l,
  cmds_bound l -> cmds_bound (scan_locals W items l).
Proof.
  induction items as [|x items IH]; intros l H; [exact H|].
  apply IH, probe_locals_keeps, H.
Qed.

Lemma scan_locals_binds W items : forall l item b,
  In item items -> In b (probe_buttons W item) ->
  cmds_bound (scan_locals W items l).
Proof.
  induction items as [|x items IH]; intros l item b Hin Hb; [contradiction|].
  change (cmds_bound (scan_locals W items (probe_locals W x l))).
  destruct Hin as [->|Hin].
  - apply scan_locals_keeps. exact (probe_button_binds W item l b Hb).
  - exact (IH _ item b Hin Hb).
Qed.

(** X13 -- The callback of a button reads the variables of the scan when
    it is clicked, not when the button was made.  So after a scan whose
    last address answered its identity query, a click on any button of
    the panel -- whichever instrument it was made for -- runs without a
    [NameError] and selects the identity of that last address: it is
    printed and shown in the status bar. *)
Theorem click_selects_last_answer W pre last u answer w0 w b :
  list_resources W = Ok (pre ++ [last])%list ->
  open_resource (resource W last) = Ok u ->
  query (resource W last) "*IDN?" = Ok answer ->
  In b (inst_button_container (fst (find_inst W w0))) ->
  let l := scan_locals W (pre ++ [last]) unbound in
  inst_id l = Some (strip answer)
  /\ snd (click l w) = Ok tt
  /\ status_bar (fst (click l w)) = "Selected instrument: " ++ strip answer
  /\ In (Print ("Selected: " ++ strip answer)) (trace (fst (click l w))).
Proof.
  intros Hlist Ho Hq Hb l.
  assert (Hid : inst_id l = Some (strip answer)).
  { unfold l, scan_locals. rewrite fold_left_app. cbn [fold_left].
    exact (probe_locals_inst_id W last _ u answer Ho Hq). }
  assert (Hcmds : cmds_bound l).
  { unfold find_inst, bind, run, outcome in Hb. rewrite Hlist in Hb.
    rewrite scan_frame in Hb. cbn in Hb.
    apply in_flat_map in Hb. destruct Hb as (item & Hin & Hbi).
    exact (scan_locals_binds W _ unbound item b Hin Hbi). }
  destruct Hcmds as (c & i & k & Hc & Hi & Hk).
  split; [exact Hid|].
  unfold click. rewrite Hid, Hc, Hi, Hk.
  unfold select_inst, bind, run, print, emit. cbn.
  split; [reflexivity|]. split; [reflexivity|].
  apply in_or_app. left. apply in_or_app. left. apply in_or_app. left.
  apply in_or_app. right. left. reflexivity.
Qed.

End CallbackFacts.

Section MoreInvariants.
Import Py Qt Calimate Spec.

Variable item_lt : string -> string -> bool.
Variable format_n : nat -> string.
Variable size_hint : list (option QTableWidgetItem) -> nat.
Variable default_height : nat.

(** X17 -- Discovery is silent in the window: whatever the instruments
    do, [find_inst] leaves the table, the detail pane, the status bar,
    the counters and the file name as they were; its failures reach the
    console only. *)
Theorem find_inst_silent W w :
  let w' := fst (find_inst W w) in
  data_table w' = data_table w
  /\ inst_textbox w' = inst_textbox w
  /\ status_bar w' = status_bar w
  /\ invalid_packet_count w' = invalid_packet_count w
  /\ messages_count w' = messages_count w
  /\ csv_file_name w' = csv_file_name w.
Proof.
  unfold find_inst, bind, run, outcome.
  destruct (list_resources W) as [addrs|e].
  - rewrite scan_frame. repeat split; reflexivity.
  - repeat split; reflexivity.
Qed.

Lemma put_length msg entries : forall cs,
  List.length (fold_left (put msg) entries cs) = List.length cs.
Proof.
  induction entries as [|e entries IH]; intros cs; cbn [fold_left];
    [reflexivity|].
  rewrite IH. unfold put. apply update_nth_length.
Qed.

Lemma row_cells_length row_data : List.length (row_cells row_data) = 3.
Proof. unfold row_cells. rewrite put_length. reflexivity. Qed.

Lemma new_rows_three recs rs :
  Permutation rs (map new_row recs) ->
  Forall (fun r => List.length (cells r) = 3) rs.
Proof.
  intros P. eapply Permutation_Forall; [apply Permutation_sym, P|].
  apply Forall_forall. intros r Hr. apply in_map_iff in Hr.
  destruct Hr as (d & <- & _). apply row_cells_length.
Qed.

(** X18 -- The table keeps three columns.  The row built from any record
    has three slots, however many fields the record has;
    [add_data_to_table] keeps a table whose rows all have three slots
    that way; and after an import that opened the file every row has
    three slots, whatever the table was before. *)
Theorem three_columns_invariant :
  (forall row_data, List.length (row_cells row_data) = 3)
  /\ (forall row_data adj w,
        Forall (fun r => List.length (cells r) = 3) (rows (data_table w)) ->
        Forall (fun r => List.length (cells r) = 3)
               (rows (data_table
                        (add_data_to_table item_lt size_hint default_height
                           row_data adj w))))
  /\ (forall fileName reader w,
        fileName <> "" ->
        Forall (fun r => List.length (cells r) = 3)
               (rows (data_table
                        (fst (import_table_from_csv item_lt format_n
                                size_hint default_height fileName
                                (Ok reader) w))))).
Proof.
  split; [exact row_cells_length|]. split.
  - intros row_data adj w H.
    destruct (add_data_to_table_spec item_lt size_hint default_height
                row_data adj w) as (t' & E & R & _).
    rewrite E. cbn [data_table with_counters with_data_table]. rewrite R.
    eapply Permutation_Forall; [apply Permutation_sym, sort_rows_perm|].
    apply Forall_app. split; [exact H|].
    constructor; [apply row_cells_length | constructor].
  - intros fileName [recs [e|] ln] w Hname.
    + destruct (import_read_failure item_lt format_n size_hint default_height
                  fileName recs e ln w Hname) as (t1 & evs & E & P).
      rewrite E. exact (new_rows_three recs _ P).
    + destruct (import_success item_lt format_n size_hint default_height
                  fileName recs ln w Hname) as (t1 & rs & E & R & P).
      rewrite E. cbn [fst data_table]. rewrite R.
      apply (new_rows_three recs).
      eapply perm_trans; [apply sort_rows_perm | exact P].
Qed.

End MoreInvariants.

(* ================================================================== *)
(** * The further facts on the sample session                             *)
(* ================================================================== *)

(* ================================================================== *)
(** * The heights of the rows                                             *)
(* ================================================================== *)

Section RowHeightFacts.
Import Py Qt Calimate Spec.

Variable item_lt : string -> string -> bool.
Variable format_n : nat -> string.
Variable size_hint : list (option QTableWidgetItem) -> nat.
Variable default_height : nat.

(** [add_data_to_table] ends on a sort, which leaves one height per row. *)
Lemma add_data_to_table_even row_data adj w :
  let t := data_table (add_data_to_table item_lt size_hint default_height
                         row_data adj w) in
  List.length (rowHeights t) = List.length (rows t).
Proof.
  unfold add_data_to_table. rewrite scan_msg_spec.
  destruct (fold_left _ (enumerate row_data) _) as [w2 h].
  destruct adj;
    cbn [on_table with_data_table data_table setSortingEnabled
         rowHeights rows];
    unfold sort_heights;
    now rewrite length_map, sort_order_length, sort_rows_length.
Qed.

Lemma load_even recs : forall w0,
  List.length (rowHeights (data_table w0))
  = List.length (rows (data_table w0)) ->
  let t := data_table
             (fold_left
                (fun w row => add_data_to_table item_lt size_hint
                                default_height row false w) recs w0) in
  List.length (rowHeights t) = List.length (rows t).
Proof.
  induction recs as [|r recs IH]; intros w0 H; cbn [fold_left]; [exact H|].
  apply IH, add_data_to_table_even.
Qed.

(** [adjust_row_heights] as an equation on the list of heights. *)
Lemma adjust_row_heights_map w :
  List.length (rowHeights (data_table w)) = List.length (rows (data_table w)) ->
  let t := data_table (adjust_row_heights size_hint w) in
  rows t = rows (data_table w)
  /\ rowHeights t = map (fun r => size_hint (cells r)) (rows t).
Proof.
  intros Hlen t.
  destruct (resize_each size_hint (seq 0 (rowCount (data_table w))) w Hlen)
    as (_ & Hr & Hl & Hn).
  fold (adjust_row_heights size_hint w) in Hr, Hl, Hn. fold t in Hr, Hl, Hn.
  split; [exact Hr|].
  apply (nth_ext _ _ 0 0).
  - now rewrite length_map, Hl, Hr.
  - intros n Hlt. rewrite Hl in Hlt.
    destruct (nth_error (rows (data_table w)) n) as [r|] eqn:E;
      [|apply nth_error_None in E; lia].
    rewrite (Hn n r E).
    replace (existsb (Nat.eqb n) (seq 0 (rowCount (data_table w)))) with true.
    + symmetry. apply nth_error_nth. rewrite Hr.
      exact (map_nth_error (fun r => size_hint (cells r)) n _ E).
    + symmetry. apply existsb_exists. exists n.
      split; [|apply Nat.eqb_refl]. apply in_seq. unfold rowCount. lia.
Qed.

Lemma update_status_bar_table message w :
  data_table (update_status_bar message w) = data_table w.
Proof. destruct message as [[|c m]|]; reflexivity. Qed.

(** The heights after a successful import, as a list. *)
Lemma import_heights fileName recs ln w :
  fileName <> "" ->
  let t' := data_table
              (fst (import_table_from_csv item_lt format_n size_hint
                      default_height fileName
                      (Ok (MkReader recs None ln)) w)) in
  rowHeights t' = map (fun r => size_hint (cells r)) (rows t').
Proof.
  intros Hname. destruct fileName as [|a f]; [congruence|].
  unfold import_table_from_csv, try_except, import_try.
  unfold bind, run, outcome, get_window, ret. cbn [records stop line_num].
  rewrite for_each_run.
  match goal with
  | |- context [fold_left _ recs ?w0] =>
      pose proof (load_even recs w0 eq_refl) as Hlen;
      set (w1 := fold_left _ recs w0) in *
  end.
  clearbody w1. cbv zeta in Hlen.
  destruct (adjust_row_heights_map w1 Hlen) as (_ & Hfit).
  cbn [fst]. rewrite update_status_bar_table.
  cbn [setPlainText data_table on_table with_data_table].
  set (t2 := data_table (adjust_row_heights size_hint w1)) in *.
  cbn [sortItems setSortingEnabled rows rowHeights
       sortIndicatorSection sortIndicatorOrder].
  rewrite Hfit, !sort_heights_rows. reflexivity.
Qed.

(** X19 -- After a successful import every row of the table has the
    height of its contents: the handler sizes the rows before the two
    sorts, and a sort moves a height with its row. *)
Theorem import_fits_rows fileName recs ln w :
  fileName <> "" ->
  let t' := data_table
              (fst (import_table_from_csv item_lt format_n size_hint
                      default_height fileName
                      (Ok (MkReader recs None ln)) w)) in
  forall i r,
    nth_error (rows t') i = Some r ->
    rowHeight i t' = size_hint (cells r).
Proof.
  intros Hname t' i r Hi. unfold rowHeight.
  unfold t'. rewrite (import_heights fileName recs ln w Hname).
  apply nth_error_nth.
  exact (map_nth_error (fun r => size_hint (cells r)) i _ Hi).
Qed.

End RowHeightFacts.


Section MoreSampleFacts.
Import Py Qt Calimate Spec Callbacks.

(** X2 on the sample: a record added to the imported log. *)
Lemma add_data_to_table_keeps_order_witness :
  let w' := add_data_to_table Sample.item_lt Sample.size_hint
              Sample.default_height ["T0"; "Pass"; "new"] false Sample.w_log in
  sortingEnabled (data_table w') = true
  /\ StronglySorted (row_le Sample.item_lt 0 AscendingOrder)
                    (rows (data_table w'))
  /\ map (cell_text 0) (rows (data_table w'))
     = [Some "T0"; Some "T1"; Some "T2"; Some "T3"].
Proof.
  intros w'.
  destruct (add_data_to_table_keeps_order Sample.item_lt Sample.size_hint
              Sample.default_height ltb_asym ltb_negtrans
              ["T0"; "Pass"; "new"] false Sample.w_log)
    as (He & _ & _ & Hs).
  split; [exact He|]. split; [exact Hs|]. vm_compute. reflexivity.
Defined.

(** X3 on the sample: the heights of the imported log. *)
Lemma adjust_row_heights_fits_witness :
  List.length (rowHeights (data_table Sample.w_log))
  = rowCount (data_table Sample.w_log)
  /\ rowHeight 1 (data_table (adjust_row_heights
                                (fun cs => 10 + List.length cs) Sample.w_log))
     = 13.
Proof.
  assert (H : List.length (rowHeights (data_table Sample.w_log))
              = rowCount (data_table Sample.w_log))
    by (vm_compute; reflexivity).
  split; [exact H|].
  destruct (adjust_row_heights_fits (fun cs => 10 + List.length cs)
              Sample.w_log H) as (_ & _ & Hn).
  destruct (nth_error (rows (data_table Sample.w_log)) 1) as [r|] eqn:E;
    [|vm_compute in E; discriminate].
  rewrite (Hn 1 r E).
  vm_compute in E. injection E as <-. reflexivity.
Defined.

(** X4 on the sample: the log, a reader that fails at once, and the
    broken reader. *)
Lemma import_sorting_state_witness :
  "/tmp/a.csv" <> ""
  /\ sortIndicatorOrder (data_table Sample.w_log) = AscendingOrder
  /\ sortingEnabled
       (data_table (fst (Sample.import "/tmp/a.csv"
                           (Ok MoreSample.unreadable) Sample.w_log))) = false
  /\ sortingEnabled
       (data_table (fst (Sample.import "/tmp/a.csv"
                           (Ok Sample.broken) Sample.w_log))) = true.
Proof.
  assert (H : "/tmp/a.csv" <> "") by discriminate.
  destruct (import_sorting_state Sample.item_lt Sample.format_n
              Sample.size_hint Sample.default_height "/tmp/a.csv"
              Sample.w0 H) as (Hok & _).
  destruct (import_sorting_state Sample.item_lt Sample.format_n
              Sample.size_hint Sample.default_height "/tmp/a.csv"
              Sample.w_log H) as (_ & Hnone & Hsome).
  split; [exact H|].
  split; [exact (proj2 (proj2 (Hok Sample.log 3)))|].
  split.
  - exact (proj1 (proj2 (Hnone
             (Exn ValueError "'utf-8' codec can't decode byte 0xff") 0))).
  - exact (proj1 (Hsome ["T9"; "Pass"; "ok"] []
             (Exn CsvError "line contains NUL") 2)).
Defined.

(** X5 on the sample: a record added after the import of the log. *)
Lemma import_then_add_sorted_witness :
  "/tmp/a.csv" <> ""
  /\ StronglySorted (row_le Sample.item_lt 0 AscendingOrder)
       (rows (data_table
                (add_data_to_table Sample.item_lt Sample.size_hint
                   Sample.default_height ["T0"; "Pass"; "new"] true
                   Sample.w_log))).
Proof.
  assert (H : "/tmp/a.csv" <> "") by discriminate.
  split; [exact H|].
  exact (proj1 (import_then_add_sorted Sample.item_lt Sample.format_n
                  Sample.size_hint Sample.default_height
                  ltb_asym ltb_negtrans "/tmp/a.csv" Sample.log 3 Sample.w0
                  ["T0"; "Pass"; "new"] true H)).
Defined.

(** X6 on the sample: the short log imported while a row of the log is
    selected. *)
Lemma import_clears_selection_witness :
  "/tmp/s.csv" <> ""
  /\ selectedRows (data_table MoreSample.w_first) = [0]
  /\ selectedRows
       (data_table (fst (Sample.import "/tmp/s.csv"
                           (Ok (MkReader Sample.short_log None 2))
                           MoreSample.w_first))) = [].
Proof.
  assert (H : "/tmp/s.csv" <> "") by discriminate.
  split; [exact H|]. split; [vm_compute; reflexivity|].
  exact (proj1 (import_clears_selection Sample.item_lt Sample.format_n
                  Sample.size_hint Sample.default_height "/tmp/s.csv"
                  (MkReader Sample.short_log None 2) MoreSample.w_first H)).
Defined.

(** X7 on the sample: a file that is gone, chosen while the first row of
    the log is selected. *)
Lemma failed_open_renames_witness :
  "/tmp/gone.csv" <> ""
  /\ exn_cls Sample.missing <> CsvError
  /\ selectedRows (data_table MoreSample.w_first) = [0]
  /\ contains "Msg" "Fail" = false
  /\ status_bar
       (fst (update_inst Sample.format_n
               (fst (Sample.import "/tmp/gone.csv" (Raise Sample.missing)
                       MoreSample.w_first))))
     = "File: 'gone.csv', Selected record: 1 of 3.".
Proof.
  assert (H : "/tmp/gone.csv" <> "") by discriminate.
  assert (Hc : exn_cls Sample.missing <> CsvError) by discriminate.
  assert (Hsel : selectedRows (data_table MoreSample.w_first) = [0])
    by (vm_compute; reflexivity).
  assert (Hn : item (data_table MoreSample.w_first) 0 (index columns "Notes")
               = Some (Item "bad" (Some AlignLeft) None false))
    by (vm_compute; reflexivity).
  assert (Hr : item (data_table MoreSample.w_first) 0 (index columns "Result")
               = Some (Item "Fail" (Some AlignLeft) (Some fail_red) false))
    by (vm_compute; reflexivity).
  assert (Hm : contains "Msg" "Fail" = false) by reflexivity.
  split; [exact H|]. split; [exact Hc|]. split; [exact Hsel|].
  split; [exact Hm|].
  exact (proj2 (proj2 (failed_open_renames Sample.item_lt Sample.format_n
                         Sample.size_hint Sample.default_height
                         "/tmp/gone.csv" Sample.missing MoreSample.w_first
                         0 [] _ _ H Hc Hsel Hn Hr Hm))).
Defined.

(** X8 on the sample: the selected row of the short log, on which the
    slot raises. *)
Lemma update_inst_frame_witness :
  snd (update_inst Sample.format_n MoreSample.w_short)
  = Raise (Exn AttributeError "'NoneType' object has no attribute 'text'")
  /\ fst (update_inst Sample.format_n MoreSample.w_short) = MoreSample.w_short.
Proof.
  assert (H : snd (update_inst Sample.format_n MoreSample.w_short)
              = Raise (Exn AttributeError
                         "'NoneType' object has no attribute 'text'"))
    by (vm_compute; reflexivity).
  split; [exact H|].
  destruct (update_inst_frame Sample.format_n MoreSample.w_short)
    as (_ & _ & _ & _ & _ & _ & Hraise).
  exact (Hraise _ H).
Defined.

(** X10 on the sample: the record with "Msg" in its Test field is
    coloured as a message and shown as a record. *)
Lemma highlight_and_display_witness :
  selectedRows (data_table MoreSample.w_odd) = [0]
  /\ In "Msg" MoreSample.odd
  /\ contains "Msg" "Pass" = false
  /\ option_map background
       (item (data_table MoreSample.w_odd) 0 (index columns "Result"))
     = Some (Some indigo)
  /\ inst_textbox (fst (update_inst Sample.format_n MoreSample.w_odd))
     = "all good".
Proof.
  assert (Hsel : selectedRows (data_table MoreSample.w_odd) = [0])
    by (vm_compute; reflexivity).
  assert (Hin : In "Msg" MoreSample.odd) by (left; reflexivity).
  destruct (nth_error (rows (data_table MoreSample.w_odd)) 0) as [row|] eqn:E;
    [|vm_compute in E; discriminate].
  assert (Hcells : cells row = row_cells MoreSample.odd).
  { vm_compute in E. injection E as <-. vm_compute. reflexivity. }
  destruct (highlight_and_display Sample.format_n MoreSample.odd
              "Pass" "all good" MoreSample.w_odd 0 [] row
              eq_refl eq_refl E Hcells Hsel) as (_ & Ht & Hcol & _).
  split; [exact Hsel|]. split; [exact Hin|]. split; [reflexivity|].
  split; [exact (proj2 Hcol Hin) | exact Ht].
Defined.

(** X11 on the sample: a resource manager that cannot enumerate. *)
Lemma find_inst_fails_only_on_enumeration_witness :
  list_resources MoreSample.offline
  = Raise (Exn OtherException "Could not locate a VISA implementation.")
  /\ snd (find_inst MoreSample.offline Sample.w0)
     = Raise (Exn OtherException "Could not locate a VISA implementation.")
  /\ fst (find_inst MoreSample.offline Sample.w0) = with_buttons Sample.w0 [].
Proof.
  assert (H : list_resources MoreSample.offline
              = Raise (Exn OtherException
                         "Could not locate a VISA implementation."))
    by reflexivity.
  destruct (find_inst_fails_only_on_enumeration MoreSample.offline Sample.w0)
    as (Hiff & Hpanel).
  split; [exact H|]. split; [exact (proj2 (Hiff _) H) | exact (Hpanel _ H)].
Defined.

(** X12 on the sample: the scope is closed, the resource that does not
    answer is not. *)
Lemma close_attempted_iff_witness :
  In (Close Sample.tek) (probe_events MoreSample.quiet_lab Sample.tek)
  /\ query (resource MoreSample.quiet_lab MoreSample.stuck) "*IDN?"
     = Raise (Exn OtherException "VI_ERROR_TMO")
  /\ In (OpenResource MoreSample.stuck)
        (probe_events MoreSample.quiet_lab MoreSample.stuck)
  /\ ~ In (Close MoreSample.stuck)
          (probe_events MoreSample.quiet_lab MoreSample.stuck).
Proof.
  split.
  - apply (proj2 (close_attempted_iff MoreSample.quiet_lab Sample.tek)).
    repeat split; eexists; reflexivity.
  - split; [reflexivity|]. split; [vm_compute; tauto|].
    intros H.
    apply (proj1 (close_attempted_iff MoreSample.quiet_lab MoreSample.stuck))
      in H.
    destruct H as (_ & (a & Ha) & _). vm_compute in Ha. discriminate.
Defined.

(** X13 on the sample: the panel holds the button of the scope only; the
    scan ended on the device that answers "OK"; a click on the scope's
    button selects "OK". *)
Lemma click_selects_last_answer_witness :
  list_resources Sample.lab
  = Ok ([Sample.dead; Sample.tek; Sample.rigol; Sample.bare] ++ [Sample.mute])%list
  /\ In MoreSample.tek_button
        (inst_button_container (fst (find_inst Sample.lab Sample.w0)))
  /\ status_bar
       (fst (click (scan_locals Sample.lab
                      ([Sample.dead; Sample.tek; Sample.rigol; Sample.bare]
                       ++ [Sample.mute]) unbound)
                   Sample.w0))
     = "Selected instrument: OK".
Proof.
  assert (Hl : list_resources Sample.lab
               = Ok ([Sample.dead; Sample.tek; Sample.rigol; Sample.bare]
                     ++ [Sample.mute])%list) by reflexivity.
  assert (Hb : In MoreSample.tek_button
                  (inst_button_container (fst (find_inst Sample.lab Sample.w0))))
    by (vm_compute; left; reflexivity).
  split; [exact Hl|]. split; [exact Hb|].
  exact (proj1 (proj2 (proj2
           (click_selects_last_answer Sample.lab
              [Sample.dead; Sample.tek; Sample.rigol; Sample.bare] Sample.mute
              tt ("OK" ++ nl) Sample.w0 Sample.w0 MoreSample.tek_button
              Hl eq_refl eq_refl Hb)))).
Defined.

(** X14 on the sample: the path looked up for the scope. *)
Lemma config_path_sanitised_witness :
  In (PathExists "TEKTRONIX_TDS_210.json") (probe_events Sample.lab Sample.tek)
  /\ In "_"%char (chars "TEKTRONIX_TDS_210.json")
  /\ "_"%char <> " "%char.
Proof.
  assert (H : In (PathExists "TEKTRONIX_TDS_210.json")
                 (probe_events Sample.lab Sample.tek))
    by (vm_compute; tauto).
  assert (Hc : In "_"%char (chars "TEKTRONIX_TDS_210.json"))
    by (vm_compute; tauto).
  split; [exact H|]. split; [exact Hc|].
  exact (proj1 (config_path_sanitised Sample.lab Sample.tek _ _
                  (or_introl H) Hc)).
Defined.

(** X15 on the sample: a cancelled dialog and the import of the log. *)
Lemma import_leaves_panel_witness :
  Sample.import "" (Ok Sample.broken) Sample.w_log = (Sample.w_log, Ok tt)
  /\ "/tmp/a.csv" <> ""
  /\ trace Sample.w_log = [].
Proof.
  assert (H : "/tmp/a.csv" <> "") by discriminate.
  split.
  - exact (proj1 (proj2 (import_leaves_panel Sample.item_lt Sample.format_n
                           Sample.size_hint Sample.default_height
                           "" (Ok Sample.broken) Sample.w_log)) eq_refl).
  - split; [exact H|].
    exact (proj2 (proj2 (import_leaves_panel Sample.item_lt Sample.format_n
                           Sample.size_hint Sample.default_height
                           "/tmp/a.csv" (Ok (MkReader Sample.log None 3))
                           Sample.w0)) Sample.log 3 H eq_refl).
Defined.

(** X16 on the sample: the broken reader after the log. *)
Lemma import_failure_counters_witness :
  "/tmp/bad.csv" <> ""
  /\ messages_count Sample.w_log = 1
  /\ messages_count (fst (Sample.import "/tmp/bad.csv" (Ok Sample.broken)
                            Sample.w_log)) = 0
  /\ exn_cls Sample.missing <> CsvError
  /\ messages_count (fst (Sample.import "/tmp/bad.csv" (Raise Sample.missing)
                            Sample.w_log)) = 1.
Proof.
  assert (H : "/tmp/bad.csv" <> "") by discriminate.
  assert (Hc : exn_cls Sample.missing <> CsvError) by discriminate.
  destruct (import_failure_counters Sample.item_lt Sample.format_n
              Sample.size_hint Sample.default_height "/tmp/bad.csv"
              Sample.w_log H) as (Hread & Hopen).
  split; [exact H|]. split; [vm_compute; reflexivity|].
  split; [exact (proj2 (Hread [["T9"; "Pass"; "ok"]]
                          (Exn CsvError "line contains NUL") 2))|].
  split; [exact Hc|].
  unfold Sample.import. rewrite (proj2 (Hopen Sample.missing Hc)).
  vm_compute. reflexivity.
Defined.

(** X18 on the sample: a record of five fields added to the log. *)
Lemma three_columns_invariant_witness :
  Forall (fun r => List.length (cells r) = 3) (rows (data_table Sample.w_log))
  /\ Forall (fun r => List.length (cells r) = 3)
       (rows (data_table
                (add_data_to_table Sample.item_lt Sample.size_hint
                   Sample.default_height ["T5"; "Pass"; "n"; "x"; "y"] false
                   Sample.w_log))).
Proof.
  destruct (three_columns_invariant Sample.item_lt Sample.format_n
              Sample.size_hint Sample.default_height) as (_ & Hadd & Himp).
  assert (H : Forall (fun r => List.length (cells r) = 3)
                     (rows (data_table Sample.w_log))).
  { apply (Himp "/tmp/a.csv" (MkReader Sample.log None 3) Sample.w0).
    discriminate. }
  split; [exact H | exact (Hadd _ false Sample.w_log H)].
Defined.

(** [setRowHeight] on the sample: a record without fields added with
    [adjust_row_height] asks for a height of 5 and gets the header's
    least height; a record with fields keeps the height of its contents. *)
Example add_data_to_table_least_height :
  rowHeights (data_table
                (add_data_to_table Sample.item_lt Sample.size_hint
                   Sample.default_height [] true Sample.w0)) = [20]
  /\ rowHeights (data_table
                   (add_data_to_table Sample.item_lt MoreSample.notes_height
                      Sample.default_height ["T1"; "Pass"; "fine"] true
                      Sample.w0)) = [24]
  /\ rowHeights (data_table
                   (add_data_to_table Sample.item_lt MoreSample.notes_height
                      Sample.default_height ["T0"; "Pass"; "fine"] false
                      (add_data_to_table Sample.item_lt MoreSample.notes_height
                         Sample.default_height ["T1"; "Pass"; "fine"] true
                         Sample.w0))) = [24; 30].
Proof. repeat split; vm_compute; reflexivity. Qed.

(** X19 on the sample: the log imported with a size hint that grows with
    the Notes cell; the heights stand in the order of the sorted rows,
    not in the order of the file. *)
Lemma import_fits_rows_witness :
  "/tmp/a.csv" <> ""
  /\ map (cell_text 0)
         (rows (data_table
                  (fst (import_table_from_csv Sample.item_lt Sample.format_n
                          MoreSample.notes_height Sample.default_height
                          "/tmp/a.csv" (Ok (MkReader Sample.log None 3))
                          Sample.w0))))
     = [Some "T1"; Some "T2"; Some "T3"]
  /\ rowHeight 0 (data_table
                    (fst (import_table_from_csv Sample.item_lt Sample.format_n
                            MoreSample.notes_height Sample.default_height
                            "/tmp/a.csv" (Ok (MkReader Sample.log None 3))
                            Sample.w0)))
     = 23
  /\ rowHeights (data_table
                   (fst (import_table_from_csv Sample.item_lt Sample.format_n
                           MoreSample.notes_height Sample.default_height
                           "/tmp/a.csv" (Ok (MkReader Sample.log None 3))
                           Sample.w0)))
     = [23; 22; 25].
Proof.
  assert (H : "/tmp/a.csv" <> "") by discriminate.
  split; [exact H|]. split; [vm_compute; reflexivity|].
  split; [|vm_compute; reflexivity].
  pose proof (import_fits_rows Sample.item_lt Sample.format_n
                MoreSample.notes_height Sample.default_height
                "/tmp/a.csv" Sample.log 3 Sample.w0 H) as Hfit.
  cbv zeta in Hfit.
  destruct (nth_error
              (rows (data_table
                       (fst (import_table_from_csv Sample.item_lt
                               Sample.format_n MoreSample.notes_height
                               Sample.default_height "/tmp/a.csv"
                               (Ok (MkReader Sample.log None 3))
                               Sample.w0)))) 0) as [r|] eqn:E;
    [|vm_compute in E; discriminate].
  rewrite (Hfit 0 r E).
  vm_compute in E. injection E as <-. reflexivity.
Defined.

End MoreSampleFacts.
